(** * Command Gateway: the browser client (frontend/script.js) and the
      rule engine it talks to

    The client is a script of asynchronous functions over three pieces of
    mutable state: the two globals [currentUser] and [apiKey], and the page.
    The embedding below keeps that shape: JavaScript values are a small
    inductive type, exceptions are an explicit result type, and every
    function of the script is a computation in a state-and-exception monad
    whose state holds the globals, the page and the log of requests sent.
    A handler runs alone: nothing else touches the state while it awaits. *)

From Stdlib Require Import ZArith List String Ascii Bool Lia DecimalString.
Import ListNotations.
Local Open Scope string_scope.
Local Open Scope Z_scope.

(** ** Strings

    A JavaScript string is a sequence of UTF-16 code units; a [string] here
    is the same sequence restricted to code units below 256. *)

Definition dq : string := String (ascii_of_nat 34) EmptyString.
Definition nl : string := String (ascii_of_nat 10) EmptyString.

Definition code (c : ascii) : nat := nat_of_ascii c.

(** WhiteSpace and LineTerminator code units below 256. *)
Definition is_ws (c : ascii) : bool :=
  let n := code c in
  ((n =? 9) || (n =? 10) || (n =? 11) || (n =? 12) || (n =? 13)
   || (n =? 32) || (n =? 160))%nat.

Fixpoint trimStart (s : string) : string :=
  match s with
  | EmptyString => EmptyString
  | String c r => if is_ws c then trimStart r else s
  end.

Definition is_empty (s : string) : bool :=
  match s with EmptyString => true | _ => false end.

Fixpoint trimEnd (s : string) : string :=
  match s with
  | EmptyString => EmptyString
  | String c r =>
      let r' := trimEnd r in
      if is_ws c && is_empty r' then EmptyString else String c r'
  end.

(** String.prototype.trim *)
Definition trim (s : string) : string := trimEnd (trimStart s).

(** String.prototype.startsWith *)
Fixpoint startsWith (s sub : string) {struct sub} : bool :=
  match sub with
  | EmptyString => true
  | String a sub' =>
      match s with
      | EmptyString => false
      | String b s' => Ascii.eqb a b && startsWith s' sub'
      end
  end.

(** String.prototype.includes *)
Fixpoint includes (s sub : string) : bool :=
  startsWith s sub
  || match s with
     | EmptyString => false
     | String _ r => includes r sub
     end.

(** String.prototype.slice(0, n) *)
Definition slice0 (n : nat) (s : string) : string := String.substring 0 n s.

(** Array.prototype.join on an array of strings *)
Definition join (sep : string) (xs : list string) : string :=
  String.concat sep xs.

(** The cell quoting of the export: every double quote is doubled
    (a global replace). *)
Fixpoint double_quotes (s : string) : string :=
  match s with
  | EmptyString => EmptyString
  | String c r =>
      if Ascii.eqb c "034" then dq ++ dq ++ double_quotes r
      else String c (double_quotes r)
  end.

Definition Z_to_string (n : Z) : string := NilZero.string_of_int (Z.to_int n).

(** ** Values *)

Set Warnings "-register-all".

(** Numbers are the integers and NaN: the script computes with nothing
    else.  Fractional JSON numbers are outside the model, and an integer
    is read as itself (a double is exact up to 2^53) and printed in plain
    decimal notation. *)
Inductive jsval : Type :=
| VUndefined
| VNull
| VBool (b : bool)
| VNaN
| VNum (n : Z)
| VStr (s : string)
| VArr (items : list jsval)
| VObj (fields : list (string * jsval)).

(** ToBoolean *)
Definition truthy (v : jsval) : bool :=
  match v with
  | VUndefined | VNull | VNaN => false
  | VBool b => b
  | VNum n => negb (n =? 0)
  | VStr s => negb (is_empty s)
  | VArr _ | VObj _ => true
  end.

(** [a || b] *)
Definition or_else (a b : jsval) : jsval := if truthy a then a else b.

(** ToString, as [String(v)] and template literals apply it. *)
Fixpoint toString (v : jsval) : string :=
  match v with
  | VUndefined => "undefined"
  | VNull => "null"
  | VBool true => "true"
  | VBool false => "false"
  | VNaN => "NaN"
  | VNum n => Z_to_string n
  | VStr s => s
  | VArr xs =>
      join ","
        (map (fun x => match x with
                       | VUndefined | VNull => EmptyString
                       | _ => toString x
                       end) xs)
  | VObj _ => "[object Object]"
  end.

(** Strict equality with a string literal *)
Definition strict_eq_str (v : jsval) (lit : string) : bool :=
  match v with
  | VStr s => String.eqb s lit
  | _ => false
  end.

(** [v !== undefined] *)
Definition is_defined (v : jsval) : bool :=
  match v with VUndefined => false | _ => true end.

(** ** Exceptions *)

(** The script reads nothing of an exception but its [message]. *)
Inductive exn : Type := Error (message : string).

Definition message (e : exn) : string := let 'Error m := e in m.

Inductive res (A : Type) : Type :=
| Ret (a : A)
| Throw (e : exn).
Arguments Ret {A} a.
Arguments Throw {A} e.

Definition rbind {A B} (r : res A) (k : A -> res B) : res B :=
  match r with
  | Ret a => k a
  | Throw e => Throw e
  end.

(** Array.prototype.map with a callback that may throw *)
Fixpoint rmap {A B} (f : A -> res B) (xs : list A) : res (list B) :=
  match xs with
  | [] => Ret []
  | x :: r =>
      rbind (f x) (fun y => rbind (rmap f r) (fun ys => Ret (y :: ys)))
  end.

(** The engine's wording of its TypeErrors (V8's is used). *)
Definition cannot_read (v : jsval) (k : string) : exn :=
  Error ("Cannot read properties of " ++ toString v
         ++ " (reading '" ++ k ++ "')").

Definition cannot_set (v : jsval) (k : string) : exn :=
  Error ("Cannot set properties of " ++ toString v
         ++ " (setting '" ++ k ++ "')").

Definition not_a_function (expr : string) : exn :=
  Error (expr ++ " is not a function").

(** ** Property access *)

Fixpoint lookup (k : string) (fs : list (string * jsval)) : jsval :=
  match fs with
  | [] => VUndefined
  | (k', v) :: r => if String.eqb k k' then v else lookup k r
  end.

(** [v.k], for the property names the script reads (none is an index or an
    inherited member). *)
Definition getProp (v : jsval) (k : string) : res jsval :=
  match v with
  | VUndefined | VNull => Throw (cannot_read v k)
  | VObj fs => Ret (lookup k fs)
  | VArr xs =>
      Ret (if String.eqb k "length" then VNum (Z.of_nat (List.length xs))
           else VUndefined)
  | VStr s =>
      Ret (if String.eqb k "length" then VNum (Z.of_nat (String.length s))
           else VUndefined)
  | VBool _ | VNaN | VNum _ => Ret VUndefined
  end.

(** [v?.k] *)
Definition getPropOpt (v : jsval) (k : string) : jsval :=
  match getProp v k with
  | Ret x => x
  | Throw _ => VUndefined
  end.

Fixpoint assign (k : string) (x : jsval) (fs : list (string * jsval))
  : list (string * jsval) :=
  match fs with
  | [] => [(k, x)]
  | (k', v) :: r =>
      if String.eqb k k' then (k', x) :: r else (k', v) :: assign k x r
  end.

(** [v.k = x] in sloppy mode: an error on null and undefined, silently
    dropped on a primitive.  Extra properties of arrays are not
    represented. *)
Definition setProp (v : jsval) (k : string) (x : jsval) : res jsval :=
  match v with
  | VUndefined | VNull => Throw (cannot_set v k)
  | VObj fs => Ret (VObj (assign k x fs))
  | _ => Ret v
  end.

(** ** parseInt(string), radix omitted *)

Definition digit_val (c : ascii) : option Z :=
  let n := Z.of_nat (code c) in
  if (48 <=? n) && (n <=? 57) then Some (n - 48)
  else if (97 <=? n) && (n <=? 122) then Some (n - 87)
  else if (65 <=? n) && (n <=? 90) then Some (n - 55)
  else None.

Fixpoint parse_digits (radix : Z) (s : string) (acc : option Z) : option Z :=
  match s with
  | EmptyString => acc
  | String c r =>
      match digit_val c with
      | Some d =>
          if d <? radix
          then parse_digits radix r
                 (Some (match acc with
                        | None => d
                        | Some a => a * radix + d
                        end))
          else acc
      | None => acc
      end
  end.

Definition strip_sign (s : string) : bool * string :=
  match s with
  | String c r =>
      if Ascii.eqb c "-" then (true, r)
      else if Ascii.eqb c "+" then (false, r)
      else (false, s)
  | EmptyString => (false, s)
  end.

Definition strip_hex_prefix (s : string) : Z * string :=
  match s with
  | String c0 (String c1 r) =>
      if Ascii.eqb c0 "0" && (Ascii.eqb c1 "x" || Ascii.eqb c1 "X")
      then (16, r) else (10, s)
  | _ => (10, s)
  end.

Definition parseInt (s : string) : jsval :=
  let '(neg, s1) := strip_sign (trimStart s) in
  let '(radix, s2) := strip_hex_prefix s1 in
  match parse_digits radix s2 None with
  | None => VNaN
  | Some n => VNum (if neg then - n else n)
  end.

(** ** The page's serialisation of a text node

    [div.textContent = text; div.innerHTML] returns the HTML fragment
    serialisation of one text node: the standard's "escaping a string",
    outside attribute mode. *)
Fixpoint escape_text (s : string) : string :=
  match s with
  | EmptyString => EmptyString
  | String c r =>
      if Ascii.eqb c "&" then "&amp;" ++ escape_text r
      else if Ascii.eqb c "160" then "&nbsp;" ++ escape_text r
      else if Ascii.eqb c "<" then "&lt;" ++ escape_text r
      else if Ascii.eqb c ">" then "&gt;" ++ escape_text r
      else String c (escape_text r)
  end.

(** The [textContent] setter (a nullable DOMString): null and undefined
    become the empty string, anything else goes through ToString. *)
Definition as_textContent (v : jsval) : string :=
  match v with
  | VUndefined | VNull => EmptyString
  | _ => toString v
  end.

(** ** Reading serialised text back: [div.innerHTML = data; div.textContent]

    The HTML parser reads character data in three steps: its input stream
    is preprocessed (newlines are normalised), the tokenizer replaces
    character references, and tree construction (in body, the insertion
    mode of a fragment parsed inside a div) ignores every NUL character
    token. *)








(** ** The network *)

(** What [fetch(url, init)] is called with.  [body] holds the value that
    the script hands to JSON.stringify. *)
Record request : Type := mkRequest {
  url : string;
  method : option string;
  headers : list (string * string);
  body : option jsval
}.

(** A response: its status and what [response.json()] settles to (the
    parsed body, or the engine's SyntaxError). *)
Record response : Type := mkResponse {
  status : Z;
  json : res jsval
}.

(** [response.ok] *)
Definition ok (r : response) : bool := (200 <=? status r) && (status r <=? 299).

Inductive fetch_outcome : Type :=
| Rejected (e : exn)
| Responded (r : response).

(** What the script takes from its surroundings: the server (its answer may
    depend on the requests sent before), and the two locale-dependent
    built-ins [String.prototype.toUpperCase] and
    [new Date(v).toLocaleString()]. *)
Record platform : Type := mkPlatform {
  server : list request -> request -> fetch_outcome;
  toUpperCase : string -> string;
  toLocaleString : jsval -> string
}.

(** ** The page and the globals *)

Record element : Type := mkElement {
  el_value : string;
  el_innerHTML : string;
  el_textContent : string;
  el_hidden : bool;
  el_disabled : bool
}.

(** The page is index.html: every element the script looks up is there,
    except [history-filter], whose lookup the script guards itself.
    Elements are keyed by id (the submit button by its selector).
    [history_filter] is the value of that element when the page has it;
    [toasts] are the toasts shown so far, as (message, type); [requests]
    is the log of the calls of [fetch]; [downloads] are the files offered
    for download, as (name, content); [clock] is what
    [new Date().toISOString()] returns. *)
Record state : Type := mkState {
  currentUser : jsval;
  apiKey : string;
  dom : string -> element;
  history_filter : option string;
  toasts : list (string * string);
  requests : list request;
  downloads : list (string * string);
  clock : string
}.

Definition with_value (v : string) (e : element) : element :=
  mkElement v (el_innerHTML e) (el_textContent e) (el_hidden e) (el_disabled e).
Definition with_innerHTML (v : string) (e : element) : element :=
  mkElement (el_value e) v (el_textContent e) (el_hidden e) (el_disabled e).
Definition with_textContent (v : string) (e : element) : element :=
  mkElement (el_value e) (el_innerHTML e) v (el_hidden e) (el_disabled e).
Definition with_hidden (v : bool) (e : element) : element :=
  mkElement (el_value e) (el_innerHTML e) (el_textContent e) v (el_disabled e).
Definition with_disabled (v : bool) (e : element) : element :=
  mkElement (el_value e) (el_innerHTML e) (el_textContent e) (el_hidden e) v.

Definition upd (id : string) (f : element -> element) (d : string -> element)
  : string -> element :=
  fun k => if String.eqb k id then f (d k) else d k.

Definition with_dom (f : (string -> element) -> string -> element) (s : state)
  : state :=
  mkState (currentUser s) (apiKey s) (f (dom s)) (history_filter s)
          (toasts s) (requests s) (downloads s) (clock s).
Definition with_currentUser (u : jsval) (s : state) : state :=
  mkState u (apiKey s) (dom s) (history_filter s)
          (toasts s) (requests s) (downloads s) (clock s).
Definition with_toasts (t : list (string * string)) (s : state) : state :=
  mkState (currentUser s) (apiKey s) (dom s) (history_filter s)
          t (requests s) (downloads s) (clock s).
Definition with_requests (r : list request) (s : state) : state :=
  mkState (currentUser s) (apiKey s) (dom s) (history_filter s)
          (toasts s) r (downloads s) (clock s).
Definition with_downloads (d : list (string * string)) (s : state) : state :=
  mkState (currentUser s) (apiKey s) (dom s) (history_filter s)
          (toasts s) (requests s) d (clock s).

(** ** The monad of the script *)

Definition M (A : Type) : Type := state -> res A * state.

Definition ret {A} (a : A) : M A := fun s => (Ret a, s).

Definition bind {A B} (m : M A) (k : A -> M B) : M B :=
  fun s =>
    match m s with
    | (Ret a, s') => k a s'
    | (Throw e, s') => (Throw e, s')
    end.

Definition lift {A} (r : res A) : M A := fun s => (r, s).

Definition gets {A} (f : state -> A) : M A := fun s => (Ret (f s), s).

Definition modify (f : state -> state) : M unit := fun s => (Ret tt, f s).

(** try { m } catch (error) { h error } *)
Definition try_catch {A} (m : M A) (h : exn -> M A) : M A :=
  fun s =>
    match m s with
    | (Ret a, s') => (Ret a, s')
    | (Throw e, s') => h e s'
    end.

(** try { m } finally { f } *)
Definition finally {A} (m : M A) (f : M unit) : M A :=
  fun s =>
    let '(r, s') := m s in
    match f s' with
    | (Ret _, s'') => (r, s'')
    | (Throw e, s'') => (Throw e, s'')
    end.

(** A call of an async function whose promise is dropped: the caller never
    sees its rejection.  The call is run to its end at the call site, so
    requests leave in the order of the calls. *)
Definition spawn (m : M unit) : M unit := fun s => (Ret tt, snd (m s)).

Declare Scope script_scope.
Delimit Scope script_scope with script.
Notation "x <- m ;; k" := (bind m (fun x => k))
  (at level 61, m at next level, right associativity) : script_scope.
Notation "m ;; k" := (bind m (fun _ => k))
  (at level 61, right associativity) : script_scope.
Local Open Scope script_scope.

Definition set_value (id v : string) : M unit :=
  modify (with_dom (upd id (with_value v))).
Definition set_innerHTML (id v : string) : M unit :=
  modify (with_dom (upd id (with_innerHTML v))).
Definition set_textContent (id v : string) : M unit :=
  modify (with_dom (upd id (with_textContent v))).
Definition set_hidden (id : string) (v : bool) : M unit :=
  modify (with_dom (upd id (with_hidden v))).
Definition set_disabled (id : string) (v : bool) : M unit :=
  modify (with_dom (upd id (with_disabled v))).

Definition q (s : string) : string := dq ++ s ++ dq.

(** ** The script *)

Section Script.

Context (P : platform).

Definition API_BASE_URL : string := "http://localhost:8000".

(** The [options] argument of [apiRequest]; no caller passes headers. *)
Record options : Type := mkOptions {
  opt_method : option string;
  opt_body : option jsval
}.

Definition no_options : options := mkOptions None None.

Definition throw {A} (e : exn) : M A := fun s => (Throw e, s).

(** [await fetch(url, init)]: the request leaves, and the server settles
    it. *)
Definition fetch (r : request) : M response :=
  fun s =>
    let s' := with_requests (requests s ++ [r])%list s in
    match server P (requests s) r with
    | Rejected e => (Throw e, s')
    | Responded resp => (Ret resp, s')
    end.

Definition cannot_connect : string :=
  "Cannot connect to server. Make sure the backend is running on port 8000.".

(** The headers and the request that [apiRequest] hands to [fetch]. *)
Definition api_headers (key : string) : list (string * string) :=
  (("Content-Type", "application/json")
     :: (if is_empty key then [] else [("X-API-Key", key)]))%list.

Definition api_call (key endpoint : string) (options : options) : request :=
  mkRequest (API_BASE_URL ++ endpoint) (opt_method options)
            (api_headers key) (opt_body options).

(** [data.detail || `HTTP error ${response.status}`], as the message of the
    Error built from it. *)
Definition error_message (detail : jsval) (response : response) : string :=
  toString (or_else detail
              (VStr ("HTTP error " ++ toString (VNum (status response))))).

Definition apiRequest (endpoint : string) (options : options) : M jsval :=
  key <- gets apiKey ;;
  try_catch
    (response <- fetch (api_call key endpoint options) ;;
     data <- lift (json response) ;;
     if negb (ok response) then
       detail <- lift (getProp data "detail") ;;
       throw (Error (error_message detail response))
     else ret data)
    (fun error =>
       if includes (message error) "Failed to fetch"
       then throw (Error cannot_connect)
       else throw error).

Definition showToast (message type : string) : M unit :=
  modify (fun s => with_toasts (toasts s ++ [(message, type)])%list s).

(** *** Utilities *)

Definition escapeHtml (text : jsval) : string :=
  if negb (truthy text) then EmptyString
  else escape_text (as_textContent text).

Definition formatDate (isoString : jsval) : string :=
  if negb (truthy isoString) then "-"
  else toLocaleString P isoString.

(** [v.map(...)] and [v.filter(...)]: only an array has the method. *)
Definition as_array (expr meth : string) (v : jsval) : res (list jsval) :=
  match v with
  | VArr xs => Ret xs
  | VUndefined | VNull => Throw (cannot_read v meth)
  | _ => Throw (not_a_function (expr ++ "." ++ meth))
  end.

(** Array.prototype.filter with a callback that may throw *)
Fixpoint rfilter {A} (f : A -> res bool) (xs : list A) : res (list A) :=
  match xs with
  | [] => Ret []
  | x :: r =>
      rbind (f x) (fun b =>
      rbind (rfilter f r) (fun ys => Ret (if b then x :: ys else ys)))
  end.

(** [v === n] for a number literal *)
Definition strict_eq_num (v : jsval) (n : Z) : bool :=
  match v with
  | VNum m => m =? n
  | _ => false
  end.

(** *** Commands *)

(** [s.toUpperCase()] on whatever [s] is *)
Definition upper (expr : string) (v : jsval) : res string :=
  match v with
  | VStr s => Ret (toUpperCase P s)
  | VUndefined | VNull => Throw (cannot_read v "toUpperCase")
  | _ => Throw (not_a_function (expr ++ ".toUpperCase"))
  end.

Definition result_pre (r : jsval) : string :=
  "<pre style="
  ++ q "margin-top: 0.5rem; white-space: pre-wrap; color: var(--text-secondary);"
  ++ ">" ++ escapeHtml r ++ "</pre>".

(** [outputHtml]: the mocked result, when the response carries one. *)
Definition output_html (result : jsval) : res string :=
  rbind (getProp result "command") (fun c =>
  if truthy c
  then rbind (getProp c "result") (fun r =>
       Ret (if truthy r then result_pre r else EmptyString))
  else Ret EmptyString).

(** The template of the result box, over its interpolated strings. *)
Definition result_markup (isSuccess : bool)
  (st st_upper command_html message_html outputHtml : string) : string :=
  nl ++
  "        <div class=" ++ q "result-command" ++ ">" ++ nl ++
  "            <span class=" ++ q "prompt" ++ ">$</span> "
       ++ command_html ++ nl ++
  "        </div>" ++ nl ++
  "        <div class=" ++ dq ++ "result-output "
       ++ (if isSuccess then "success" else "error") ++ dq ++ ">" ++ nl ++
  "            <div class=" ++ dq ++ "result-status " ++ st ++ dq
       ++ ">[" ++ st_upper ++ "]</div>" ++ nl ++
  "            <div>" ++ message_html ++ "</div>" ++ nl ++
  "            " ++ outputHtml ++ nl ++
  "        </div>" ++ nl ++
  "    ".

(** The markup [displayResult] writes into the result box. *)
Definition result_html (command : string) (result : jsval) : res string :=
  rbind (getProp result "status") (fun st =>
  let isSuccess := strict_eq_str st "executed" in
  rbind (output_html result) (fun outputHtml =>
  rbind (upper "result.status" st) (fun st_upper =>
  rbind (getProp result "message") (fun msg =>
  Ret (result_markup isSuccess (toString st) st_upper
         (escapeHtml (VStr command))
         (escapeHtml (or_else msg (VStr EmptyString)))
         outputHtml))))).

Definition displayResult (command : string) (result : jsval) : M unit :=
  html <- lift (result_html command result) ;;
  set_innerHTML "command-result" html.

Definition recent_item (cmd : jsval) : res string :=
  rbind (getProp cmd "command_text") (fun command_text =>
  rbind (getProp cmd "status") (fun st =>
  Ret (nl ++
  "            <div class=" ++ q "recent-item" ++ ">" ++ nl ++
  "                <span class=" ++ q "command" ++ ">"
       ++ escapeHtml command_text ++ "</span>" ++ nl ++
  "                <span class=" ++ dq ++ "status-badge " ++ toString st ++ dq
       ++ ">" ++ toString st ++ "</span>" ++ nl ++
  "            </div>" ++ nl ++
  "        "))).

Definition loadRecentCommands : M unit :=
  try_catch
    (data <- apiRequest "/history?limit=5" no_options ;;
     commands <- lift (getProp data "commands") ;;
     len <- lift (getProp commands "length") ;;
     if strict_eq_num len 0 then
       set_innerHTML "recent-commands"
         ("<p class=" ++ q "empty-state" ++ ">No commands submitted yet</p>")
     else
       items <- lift (as_array "data.commands" "map" commands) ;;
       rows <- lift (rmap recent_item items) ;;
       set_innerHTML "recent-commands" (join EmptyString rows))
    (fun _ =>
       set_innerHTML "recent-commands"
         ("<p class=" ++ q "empty-state"
          ++ ">Failed to load recent commands</p>")).

(** *** History *)

(** The credit column of a history row. *)
Definition credit_cell (cmd : jsval) : res string :=
  rbind (getProp cmd "credits_deducted") (fun credits_deducted =>
  Ret (if truthy credits_deducted then "-2" else "0")).

Definition history_row (cmd : jsval) : res string :=
  rbind (getProp cmd "id") (fun id =>
  rbind (getProp cmd "command_text") (fun command_text =>
  rbind (getProp cmd "status") (fun st =>
  rbind (credit_cell cmd) (fun credit =>
  rbind (getProp cmd "created_at") (fun created_at =>
  Ret (nl ++
  "            <tr>" ++ nl ++
  "                <td>#" ++ toString id ++ "</td>" ++ nl ++
  "                <td class=" ++ q "mono truncate" ++ " title=" ++ dq
       ++ escapeHtml command_text ++ dq ++ ">" ++ escapeHtml command_text
       ++ "</td>" ++ nl ++
  "                <td><span class=" ++ dq ++ "status-badge " ++ toString st
       ++ dq ++ ">" ++ toString st ++ "</span></td>" ++ nl ++
  "                <td>" ++ credit ++ "</td>" ++ nl ++
  "                <td>" ++ formatDate created_at ++ "</td>" ++ nl ++
  "            </tr>" ++ nl ++
  "        ")))))).

Definition error_row (colspan : string) (error : exn) : string :=
  "<tr><td colspan=" ++ q colspan ++ " class=" ++ q "empty-state"
  ++ ">Error: " ++ message error ++ "</td></tr>".

Definition empty_row (colspan text : string) : string :=
  "<tr><td colspan=" ++ q colspan ++ " class=" ++ q "empty-state" ++ ">"
  ++ text ++ "</td></tr>".

(** [document.getElementById('history-filter')?.value || 'all'] *)
Definition filter_of (s : state) : string :=
  match history_filter s with
  | Some v => if is_empty v then "all" else v
  | None => "all"
  end.

(** [currentUser?.role === 'admin' ? '/commands/all' : '/history'] *)
Definition history_endpoint (user : jsval) : string :=
  if strict_eq_str (getPropOpt user "role") "admin"
  then "/commands/all" else "/history".

(** [cmd => cmd.status === filter] *)
Definition status_is (filter : string) (cmd : jsval) : res bool :=
  rbind (getProp cmd "status") (fun st => Ret (strict_eq_str st filter)).

Definition loadHistory : M unit :=
  filter <- gets filter_of ;;
  try_catch
    (user <- gets currentUser ;;
     let endpoint := history_endpoint user in
     data <- apiRequest (endpoint ++ "?limit=100") no_options ;;
     all_commands <- lift (getProp data "commands") ;;
     commands <-
       (if negb (String.eqb filter "all") then
          items <- lift (as_array "commands" "filter" all_commands) ;;
          kept <- lift (rfilter (status_is filter) items) ;;
          ret (VArr kept)
        else ret all_commands) ;;
     len <- lift (getProp commands "length") ;;
     if strict_eq_num len 0 then
       set_innerHTML "history-table" (empty_row "5" "No commands found")
     else
       items <- lift (as_array "commands" "map" commands) ;;
       rows <- lift (rmap history_row items) ;;
       set_innerHTML "history-table" (join EmptyString rows) ;;
       spawn loadRecentCommands)
    (fun error => set_innerHTML "history-table" (error_row "5" error)).

Definition submitCommand : M unit :=
  command <- gets (fun s => trim (el_value (dom s "command-input"))) ;;
  if is_empty command then showToast "Please enter a command" "error"
  else
    originalText <- gets (fun s => el_innerHTML (dom s ".submit-btn")) ;;
    set_innerHTML ".submit-btn"
      ("<span class=" ++ q "spinner" ++ "></span> Executing...") ;;
    set_disabled ".submit-btn" true ;;
    finally
      (try_catch
         (result <- apiRequest "/commands"
                      (mkOptions (Some "POST")
                         (Some (VObj [("command", VStr command)]))) ;;
          displayResult command result ;;
          set_value "command-input" EmptyString ;;
          credits_remaining <- lift (getProp result "credits_remaining") ;;
          (if is_defined credits_remaining then
             user <- gets currentUser ;;
             user' <- lift (setProp user "credits" credits_remaining) ;;
             modify (with_currentUser user') ;;
             set_textContent "credit-display"
               (as_textContent credits_remaining)
           else ret tt) ;;
          spawn loadHistory ;;
          spawn loadRecentCommands ;;
          st <- lift (getProp result "status") ;;
          showToast
            (if strict_eq_str st "executed"
             then "Command executed" else "Command rejected")
            (if strict_eq_str st "executed" then "success" else "error"))
         (fun error =>
            showToast (message error) "error" ;;
            displayResult command
              (VObj [("status", VStr "rejected");
                     ("message", VStr (message error))])))
      (set_innerHTML ".submit-btn" originalText ;;
       set_disabled ".submit-btn" false).

(** *** Rules *)

Definition rule_row (user rule : jsval) : res string :=
  rbind (getProp rule "priority") (fun priority =>
  rbind (getProp rule "pattern") (fun pattern =>
  rbind (getProp rule "action") (fun action =>
  rbind (getProp rule "id") (fun id =>
  Ret (nl ++
  "            <tr>" ++ nl ++
  "                <td>" ++ toString priority ++ "</td>" ++ nl ++
  "                <td class=" ++ q "mono truncate" ++ " title=" ++ dq
       ++ escapeHtml pattern ++ dq ++ ">" ++ escapeHtml pattern ++ "</td>"
       ++ nl ++
  "                <td>" ++ nl ++
  "                    <span class=" ++ dq ++ "action-badge "
       ++ (if strict_eq_str action "AUTO_ACCEPT" then "accept" else "reject")
       ++ dq ++ ">" ++ nl ++
  "                        " ++ toString action ++ nl ++
  "                    </span>" ++ nl ++
  "                </td>" ++ nl ++
  "                <td>" ++ nl ++
  "                    "
       ++ (if strict_eq_str (getPropOpt user "role") "admin"
           then "<span class=" ++ q "link danger" ++ " onclick=" ++ dq
                ++ "deleteRule(" ++ toString id ++ ")" ++ dq
                ++ ">Delete</span>"
           else EmptyString) ++ nl ++
  "                </td>" ++ nl ++
  "            </tr>" ++ nl ++
  "        "))))).

Definition loadRules : M unit :=
  try_catch
    (data <- apiRequest "/rules" no_options ;;
     rules <- lift (getProp data "rules") ;;
     len <- lift (getProp rules "length") ;;
     if strict_eq_num len 0 then
       set_innerHTML "rules-table" (empty_row "4" "No rules defined")
     else
       items <- lift (as_array "data.rules" "map" rules) ;;
       user <- gets currentUser ;;
       rows <- lift (rmap (rule_row user) items) ;;
       set_innerHTML "rules-table" (join EmptyString rows))
    (fun error => set_innerHTML "rules-table" (error_row "4" error)).

(** [parseInt(input.value) || fallback] *)
Definition int_or (input : string) (fallback : Z) : jsval :=
  or_else (parseInt input) (VNum fallback).

(** The body [addRule] posts, from the three inputs of the rule form. *)
Definition rule_body (pattern action priority_input : string) : jsval :=
  VObj [("pattern", VStr pattern); ("action", VStr action);
        ("priority", int_or priority_input 10)].

Definition addRule : M unit :=
  pattern <- gets (fun s => trim (el_value (dom s "rule-pattern"))) ;;
  action <- gets (fun s => el_value (dom s "rule-action")) ;;
  priority_input <- gets (fun s => el_value (dom s "rule-priority")) ;;
  if is_empty pattern then showToast "Pattern is required" "error"
  else
    try_catch
      (_ <- apiRequest "/rules"
              (mkOptions (Some "POST")
                 (Some (rule_body pattern action priority_input))) ;;
       set_value "rule-pattern" EmptyString ;;
       set_value "rule-priority" "10" ;;
       spawn loadRules ;;
       showToast "Rule created" "success")
      (fun error => showToast (message error) "error").

(** *** Users *)

Definition user_row (user : jsval) : res string :=
  rbind (getProp user "username") (fun username =>
  rbind (getProp user "role") (fun role =>
  rbind (getProp user "credits") (fun credits =>
  rbind (getProp user "command_count") (fun command_count =>
  rbind (getProp user "id") (fun id =>
  Ret (nl ++
  "            <tr>" ++ nl ++
  "                <td>" ++ escapeHtml username ++ "</td>" ++ nl ++
  "                <td><span class=" ++ dq ++ "role-badge " ++ toString role
       ++ dq ++ ">" ++ toString role ++ "</span></td>" ++ nl ++
  "                <td class=" ++ q "mono" ++ ">" ++ toString credits
       ++ "</td>" ++ nl ++
  "                <td>" ++ toString (or_else command_count (VNum 0))
       ++ "</td>" ++ nl ++
  "                <td>" ++ nl ++
  "                    <span class=" ++ q "link" ++ " onclick=" ++ dq
       ++ "openCreditModal(" ++ toString id ++ ", " ++ toString credits
       ++ ")" ++ dq ++ ">Adjust Credits</span>" ++ nl ++
  "                </td>" ++ nl ++
  "            </tr>" ++ nl ++
  "        ")))))).

Definition loadUsers : M unit :=
  try_catch
    (data <- apiRequest "/users" no_options ;;
     users <- lift (getProp data "users") ;;
     len <- lift (getProp users "length") ;;
     if strict_eq_num len 0 then
       set_innerHTML "users-table" (empty_row "5" "No users found")
     else
       items <- lift (as_array "data.users" "map" users) ;;
       rows <- lift (rmap user_row items) ;;
       set_innerHTML "users-table" (join EmptyString rows))
    (fun error => set_innerHTML "users-table" (error_row "5" error)).

(** The body [createUser] posts, from the three inputs of the user form. *)
Definition user_body (username role credits_input : string) : jsval :=
  VObj [("username", VStr username); ("role", VStr role);
        ("credits", int_or credits_input 100)].

Definition createUser : M unit :=
  username <- gets (fun s => trim (el_value (dom s "new-username"))) ;;
  role <- gets (fun s => el_value (dom s "new-user-role")) ;;
  credits_input <- gets (fun s => el_value (dom s "new-user-credits")) ;;
  if is_empty username then showToast "Username is required" "error"
  else
    try_catch
      (result <- apiRequest "/users"
                   (mkOptions (Some "POST")
                      (Some (user_body username role credits_input))) ;;
       user <- lift (getProp result "user") ;;
       api_key <- lift (getProp user "api_key") ;;
       set_textContent "new-api-key" (as_textContent api_key) ;;
       set_hidden "new-api-key-display" false ;;
       set_value "new-username" EmptyString ;;
       spawn loadUsers ;;
       showToast "User created" "success")
      (fun error => showToast (message error) "error").

(** *** Audit logs *)

Definition audit_row (log : jsval) : res string :=
  rbind (getProp log "created_at") (fun created_at =>
  rbind (getProp log "username") (fun username =>
  rbind (getProp log "action") (fun action =>
  rbind (getProp log "command_text") (fun command_text =>
  rbind (getProp log "details") (fun details =>
  Ret (nl ++
  "            <tr>" ++ nl ++
  "                <td>" ++ formatDate created_at ++ "</td>" ++ nl ++
  "                <td>" ++ escapeHtml (or_else username (VStr "System"))
       ++ "</td>" ++ nl ++
  "                <td><span class=" ++ q "action-badge" ++ ">"
       ++ toString action ++ "</span></td>" ++ nl ++
  "                <td class=" ++ q "mono truncate" ++ " title=" ++ dq
       ++ escapeHtml (or_else command_text (VStr EmptyString)) ++ dq ++ ">"
       ++ escapeHtml (or_else command_text (VStr "-")) ++ "</td>" ++ nl ++
  "                <td class=" ++ q "truncate" ++ " title=" ++ dq
       ++ escapeHtml (or_else details (VStr EmptyString)) ++ dq ++ ">"
       ++ escapeHtml (or_else details (VStr "-")) ++ "</td>" ++ nl ++
  "            </tr>" ++ nl ++
  "        ")))))).

Definition loadAuditLogs : M unit :=
  try_catch
    (data <- apiRequest "/audit-logs?limit=100" no_options ;;
     logs <- lift (getProp data "logs") ;;
     len <- lift (getProp logs "length") ;;
     if strict_eq_num len 0 then
       set_innerHTML "audit-table" (empty_row "5" "No audit logs found")
     else
       items <- lift (as_array "data.logs" "map" logs) ;;
       rows <- lift (rmap audit_row items) ;;
       set_innerHTML "audit-table" (join EmptyString rows))
    (fun error => set_innerHTML "audit-table" (error_row "5" error)).

Definition audit_headers : list string :=
  ["Timestamp"; "User"; "Action"; "Command"; "Details"].

(** The cells of one exported record, before quoting. *)
Definition audit_cells (log : jsval) : res (list jsval) :=
  rbind (getProp log "created_at") (fun created_at =>
  rbind (getProp log "username") (fun username =>
  rbind (getProp log "action") (fun action =>
  rbind (getProp log "command_text") (fun command_text =>
  rbind (getProp log "details") (fun details =>
  Ret [created_at;
       or_else username (VStr "System");
       action;
       or_else command_text (VStr EmptyString);
       or_else details (VStr EmptyString)]))))).

Definition csv_cell (cell : jsval) : string :=
  dq ++ double_quotes (toString cell) ++ dq.

Definition csv_line (row : list jsval) : string :=
  join "," (map csv_cell row).

Definition audit_csv (rows : list (list jsval)) : string :=
  join nl (join "," audit_headers :: map csv_line rows).

Definition exportAuditLogs : M unit :=
  try_catch
    (data <- apiRequest "/audit-logs?limit=1000" no_options ;;
     logs <- lift (getProp data "logs") ;;
     items <- lift (as_array "data.logs" "map" logs) ;;
     rows <- lift (rmap audit_cells items) ;;
     now <- gets clock ;;
     modify (fun s =>
               with_downloads
                 (app (downloads s)
                    [("audit-logs-" ++ slice0 10 now ++ ".csv",
                      audit_csv rows)]) s) ;;
     showToast "Audit logs exported" "success")
    (fun error => showToast (message error) "error").

End Script.

(** ** The rule engine *)

Module RuleEngine.

Inductive action : Type := AUTO_ACCEPT | AUTO_REJECT.

Record rule : Type := mkRule {
  rule_id : Z;
  priority : Z;
  pattern : string;
  rule_action : action
}.

Record verdict : Type := mkVerdict {
  verdict_action : action;
  matchedRuleId : option Z
}.

Section Engine.

(** The regular-expression search of a pattern in a command text; a pattern
    that does not compile matches nothing. *)
Context (matches : string -> string -> bool).

(** Priority ascending, ties by rule id ascending. *)
Definition before (r1 r2 : rule) : bool :=
  (priority r1 <? priority r2)
  || ((priority r1 =? priority r2) && (rule_id r1 <=? rule_id r2)).

Fixpoint insert (r : rule) (rs : list rule) : list rule :=
  match rs with
  | [] => [r]
  | r' :: rest => if before r r' then r :: rs else r' :: insert r rest
  end.

Fixpoint sort_rules (rs : list rule) : list rule :=
  match rs with
  | [] => []
  | r :: rest => insert r (sort_rules rest)
  end.

Fixpoint first_match (rs : list rule) (commandText : string) : option rule :=
  match rs with
  | [] => None
  | r :: rest =>
      if matches (pattern r) commandText then Some r
      else first_match rest commandText
  end.

(** Modelled from the spec: the rule matching of backend/rules.py, which is
    not among the sources.  Rules are sorted by (priority, id), scanned in
    that order, the first rule whose pattern matches gives the verdict, and
    the verdict is AUTO_REJECT when none matches. *)
Definition Evaluate (rules : list rule) (commandText : string) : verdict :=
  match first_match (sort_rules rules) commandText with
  | Some r => mkVerdict (rule_action r) (Some (rule_id r))
  | None => mkVerdict AUTO_REJECT None
  end.

End Engine.

End RuleEngine.

(** ** Sample surroundings *)

Definition upper_ascii (c : ascii) : ascii :=
  let n := code c in
  if ((97 <=? n) && (n <=? 122))%nat then ascii_of_nat (n - 32) else c.

Fixpoint upper_string (s : string) : string :=
  match s with
  | EmptyString => EmptyString
  | String c r => String (upper_ascii c) (upper_string r)
  end.

(** A server that settles every request the same way. *)
Definition constant_platform (o : fetch_outcome) : platform :=
  mkPlatform (fun _ _ => o) upper_string toString.

Definition answering (st : Z) (data : jsval) : platform :=
  constant_platform (Responded (mkResponse st (Ret data))).

Definition blank : element :=
  mkElement EmptyString EmptyString EmptyString false false.

Fixpoint input_of (inputs : list (string * string)) (id : string) : string :=
  match inputs with
  | [] => EmptyString
  | (k, v) :: r => if String.eqb id k then v else input_of r id
  end.

(** A page whose inputs hold the given values, for a logged-in user. *)
Definition page (user : jsval) (inputs : list (string * string))
  (filter : option string) : state :=
  mkState user "admin-key-12345"
          (fun id => with_textContent "100" (with_value (input_of inputs id) blank))
          filter [] [] [] "2024-05-01T10:00:00.000Z".

Definition admin : jsval :=
  VObj [("id", VNum 1); ("username", VStr "admin"); ("role", VStr "admin");
        ("credits", VNum 100)].

Definition member : jsval :=
  VObj [("id", VNum 2); ("username", VStr "alice"); ("role", VStr "member");
        ("credits", VNum 100)].

Definition executed_submission : list (string * jsval) :=
  [("id", VNum 1); ("command_text", VStr "ls -la");
   ("status", VStr "executed"); ("credits_deducted", VBool true);
   ("created_at", VStr "2024-05-01T09:00:00")].

Definition rejected_submission : list (string * jsval) :=
  [("id", VNum 2); ("command_text", VStr "rm -rf /");
   ("status", VStr "rejected"); ("credits_deducted", VBool false);
   ("created_at", VStr "2024-05-01T09:01:00")].

(** ** What a computation leaves alone

    [frame keep s s']: from [s] to [s'] only requests were sent and only
    elements outside [keep] were written. *)

Definition frame (keep : string -> bool) (s s' : state) : Prop :=
  currentUser s' = currentUser s
  /\ apiKey s' = apiKey s
  /\ history_filter s' = history_filter s
  /\ toasts s' = toasts s
  /\ downloads s' = downloads s
  /\ clock s' = clock s
  /\ (exists sent, requests s' = (requests s ++ sent)%list)
  /\ forall id, keep id = true -> dom s' id = dom s id.

Definition leaves {A} (keep : string -> bool) (m : M A) : Prop :=
  forall s, frame keep s (snd (m s)).

(** [count_code a s]: how many times the code unit [a] occurs in [s]. *)
Fixpoint count_code (a : ascii) (s : string) : nat :=
  match s with
  | EmptyString => O
  | String c r => ((if Ascii.eqb c a then 1 else 0) + count_code a r)%nat
  end.


(** The elements that reloading the history and the recent list leaves
    alone. *)
Definition kept (id : string) : bool :=
  String.eqb id "command-result" || String.eqb id "command-input"
  || String.eqb id "credit-display" || String.eqb id ".submit-btn".

(** [shows V m]: whatever [m] does, the credit display afterwards is what
    it was before, or a text allowed by [V]. *)
Definition shows (V : string -> Prop) {A} (m : M A) : Prop :=
  forall s,
    el_textContent (dom (snd (m s)) "credit-display")
    = el_textContent (dom s "credit-display")
    \/ V (el_textContent (dom (snd (m s)) "credit-display")).

(** [guest x s]: in [s] no user is logged in and the credit display reads
    [x]; [guest_keeps m]: run for a guest, [m] leaves a guest and the same
    display. *)
Definition guest (x : string) (s : state) : Prop :=
  currentUser s = VNull /\ el_textContent (dom s "credit-display") = x.

Definition guest_keeps {A} (m : M A) : Prop :=
  forall x s, guest x s -> guest x (snd (m s)).

(** ** Credits and rule deletion *)

Definition with_apiKey (k : string) (s : state) : state :=
  mkState (currentUser s) k (dom s) (history_filter s)
          (toasts s) (requests s) (downloads s) (clock s).

Section Credits.

Context (P : platform).

(** [x == y], the loose equality of the language; its conversion of a
    string to a number goes through floating point and is taken as
    given. *)
Context (loosely_equal : jsval -> jsval -> bool).

(** What [confirm(message)] returns: the answer of the user. *)
Context (confirm : string -> bool).

(** The error is written to the console, which is not part of the state. *)
Definition refreshCredits : M unit :=
  try_catch
    (data <- apiRequest P "/credits" no_options ;;
     credits <- lift (getProp data "credits") ;;
     user <- gets currentUser ;;
     user' <- lift (setProp user "credits" credits) ;;
     modify (with_currentUser user') ;;
     set_textContent "credit-display" (as_textContent credits))
    (fun _ => ret tt).

(** Called from the onclick attribute of a user row, with the numbers
    [user.id] and [user.credits]; an input shows a number as its decimal
    text. *)
Definition openCreditModal (userId currentCredits : Z) : M unit :=
  set_value "credit-user-id" (toString (VNum userId)) ;;
  set_value "credit-amount" (toString (VNum currentCredits)) ;;
  set_hidden "credit-modal" false.

Definition closeCreditModal : M unit := set_hidden "credit-modal" true.

Definition saveCredits : M unit :=
  userId <- gets (fun s => el_value (dom s "credit-user-id")) ;;
  credits <- gets (fun s => parseInt (el_value (dom s "credit-amount"))) ;;
  try_catch
    (_ <- apiRequest P ("/users/" ++ userId ++ "/credits")
            (mkOptions (Some "PUT") (Some (VObj [("credits", credits)]))) ;;
     closeCreditModal ;;
     spawn (loadUsers P) ;;
     user <- gets currentUser ;;
     (if truthy user then
        id <- lift (getProp user "id") ;;
        if loosely_equal id (VStr userId) then refreshCredits else ret tt
      else ret tt) ;;
     showToast "Credits updated" "success")
    (fun error => showToast (message error) "error").

Definition deleteRule (ruleId : jsval) : M unit :=
  if negb (confirm "Are you sure you want to delete this rule?") then ret tt
  else
    try_catch
      (_ <- apiRequest P ("/rules/" ++ toString ruleId)
              (mkOptions (Some "DELETE") None) ;;
       spawn (loadRules P) ;;
       showToast "Rule deleted" "success")
      (fun error => showToast (message error) "error").

End Credits.

(** ** Vocabulary of the properties *)

(** [returns m]: [m] never throws. *)
Definition returns {A} (m : M A) : Prop :=
  forall s, exists a, fst (m s) = Ret a.

(** [char_at_start s] and [char_at_end s]: the first and the last code unit
    of [s]. *)
Definition char_at_start (s : string) : option ascii :=
  match s with
  | EmptyString => None
  | String c _ => Some c
  end.

Fixpoint char_at_end (s : string) : option ascii :=
  match s with
  | EmptyString => None
  | String c EmptyString => Some c
  | String _ r => char_at_end r
  end.

(** [extends m]: [m] only adds to the log of requests. *)
Definition extends {A} (m : M A) : Prop :=
  forall s, exists sent, requests (snd (m s)) = (requests s ++ sent)%list.

(** [unchanged proj m]: the part [proj] of the state is after [m] what it
    was before. *)
Definition unchanged {T A} (proj : state -> T) (m : M A) : Prop :=
  forall s, proj (snd (m s)) = proj s.

(** ** The session: login, logout, tabs, start-up

    These handlers also touch what [state] does not hold: the key kept in
    localStorage, the [className] of the role badge, and the classes
    visible and active of the navigation tabs.  A [browser] is a [state]
    with these.  The script assigns [className] to the role badge only and
    toggles classes on other elements only. *)

Record browser : Type := mkBrowser {
  script_state : state;
  saved_key : option string;
  class_name : string -> string;
  has_class : string -> string -> bool
}.

Definition with_script_state (s : state) (b : browser) : browser :=
  mkBrowser s (saved_key b) (class_name b) (has_class b).
Definition with_saved_key (k : option string) (b : browser) : browser :=
  mkBrowser (script_state b) k (class_name b) (has_class b).
Definition set_class_name (id v : string) (b : browser) : browser :=
  mkBrowser (script_state b) (saved_key b)
            (fun k => if String.eqb k id then v else class_name b k)
            (has_class b).
(** [classList.add(c)] when [v] is true, [classList.remove(c)] when not. *)
Definition set_class (id c : string) (v : bool) (b : browser) : browser :=
  mkBrowser (script_state b) (saved_key b) (class_name b)
            (fun k c' => if String.eqb k id && String.eqb c' c then v
                         else has_class b k c').

Definition B (A : Type) : Type := browser -> res A * browser.

Definition bret {A} (a : A) : B A := fun b => (Ret a, b).

Definition bbind {A C} (m : B A) (k : A -> B C) : B C :=
  fun b =>
    match m b with
    | (Ret a, b') => k a b'
    | (Throw e, b') => (Throw e, b')
    end.

Definition bgets {A} (f : browser -> A) : B A := fun b => (Ret (f b), b).

Definition bmodify (f : browser -> browser) : B unit := fun b => (Ret tt, f b).

Definition btry_catch {A} (m : B A) (h : exn -> B A) : B A :=
  fun b =>
    match m b with
    | (Ret a, b') => (Ret a, b')
    | (Throw e, b') => h e b'
    end.

(** A computation of the script, run on the [state] inside the browser. *)
Definition run {A} (m : M A) : B A :=
  fun b => let '(r, s') := m (script_state b) in (r, with_script_state s' b).

(** [xs.forEach(f)] *)
Fixpoint for_each {X} (xs : list X) (f : X -> B unit) : B unit :=
  match xs with
  | [] => bret tt
  | x :: r => bbind (f x) (fun _ => for_each r f)
  end.

Declare Scope browser_scope.
Delimit Scope browser_scope with browser.
Notation "x <- m ;; k" := (bbind m (fun x => k))
  (at level 61, m at next level, right associativity) : browser_scope.
Notation "m ;; k" := (bbind m (fun _ => k))
  (at level 61, right associativity) : browser_scope.

Section Session.

Local Open Scope browser_scope.

Context (P : platform).

(** The elements that [querySelectorAll] finds for the selectors
    [.tab-panel], [.nav-tab] and [.nav-tab.admin-only], by their keys, in
    document order. *)
Context (tab_panels nav_tabs admin_tabs : list string).

Definition updateUI : B unit :=
  user <- bgets (fun b => currentUser (script_state b)) ;;
  if negb (truthy user) then bret tt
  else
    username <- run (lift (getProp user "username")) ;;
    run (set_textContent "current-user" (as_textContent username)) ;;
    credits <- run (lift (getProp user "credits")) ;;
    run (set_textContent "credit-display" (as_textContent credits)) ;;
    role <- run (lift (getProp user "role")) ;;
    run (set_textContent "role-badge" (as_textContent role)) ;;
    role <- run (lift (getProp user "role")) ;;
    bmodify (set_class_name "role-badge" ("role-badge " ++ toString role)) ;;
    for_each admin_tabs (fun tab =>
      user <- bgets (fun b => currentUser (script_state b)) ;;
      role <- run (lift (getProp user "role")) ;;
      bmodify (set_class tab "visible" (strict_eq_str role "admin"))).

Definition handleLogin : B unit :=
  key <- bgets (fun b => trim (el_value (dom (script_state b) "api-key-input"))) ;;
  if is_empty key then run (showToast "Please enter an API key" "error")
  else
    btry_catch
      (run (modify (with_apiKey key)) ;;
       user <- run (apiRequest P "/me" no_options) ;;
       run (modify (with_currentUser user)) ;;
       bmodify (with_saved_key (Some key)) ;;
       run (set_hidden "login-modal" true) ;;
       run (set_hidden "main-app" false) ;;
       updateUI ;;
       run (spawn (loadHistory P)) ;;
       username <- run (lift (getProp user "username")) ;;
       run (showToast ("Welcome, " ++ toString username ++ "!") "success"))
      (fun error =>
         run (modify (with_apiKey EmptyString)) ;;
         run (showToast (message error) "error")).

Definition handleLogout : B unit :=
  run (modify (with_currentUser VNull)) ;;
  run (modify (with_apiKey EmptyString)) ;;
  bmodify (with_saved_key None) ;;
  run (set_hidden "login-modal" false) ;;
  run (set_hidden "main-app" true) ;;
  run (set_value "api-key-input" EmptyString) ;;
  run (showToast "Logged out successfully" "info").

Definition switchTab (tabName : string) : B unit :=
  for_each tab_panels (fun panel => run (set_hidden panel true)) ;;
  for_each nav_tabs (fun tab => bmodify (set_class tab "active" false)) ;;
  run (set_hidden ("panel-" ++ tabName) false) ;;
  bmodify (set_class ("tab-" ++ tabName) "active" true) ;;
  if String.eqb tabName "history" then run (spawn (loadHistory P))
  else if String.eqb tabName "rules" then run (spawn (loadRules P))
  else if String.eqb tabName "users" then run (spawn (loadUsers P))
  else if String.eqb tabName "audit" then run (spawn (loadAuditLogs P))
  else bret tt.

(** The top of the script and its DOMContentLoaded handler; the two
    keypress listeners it registers are not part of the model. *)
Definition startup : B unit :=
  run (modify (with_currentUser VNull)) ;;
  stored <- bgets saved_key ;;
  run (modify (with_apiKey (match stored with
                            | Some k => k
                            | None => EmptyString
                            end))) ;;
  key <- bgets (fun b => apiKey (script_state b)) ;;
  if is_empty key then bret tt
  else
    btry_catch
      (user <- run (apiRequest P "/me" no_options) ;;
       run (modify (with_currentUser user)) ;;
       run (set_hidden "login-modal" true) ;;
       run (set_hidden "main-app" false) ;;
       updateUI ;;
       run (spawn (loadHistory P)) ;;
       run (spawn (loadRecentCommands P)))
      (fun _ =>
         run (modify (with_apiKey EmptyString)) ;;
         bmodify (with_saved_key None)).

End Session.

(** A browser around a sample page, with nothing stored and no class
    set. *)
Definition fresh (s : state) (stored : option string) : browser :=
  mkBrowser s stored (fun _ => EmptyString) (fun _ _ => false).

(** * Properties *)

(** ** Strings and values *)

Lemma is_empty_true (s : string) : is_empty s = true <-> s = EmptyString.
Proof. destruct s; simpl; split; congruence. Qed.

Lemma is_empty_false (s : string) : is_empty s = false <-> s <> EmptyString.
Proof. destruct s; simpl; split; congruence. Qed.

Lemma parseInt_cases (input : string) :
  parseInt input = VNaN \/ exists n, parseInt input = VNum n.
Proof.
  unfold parseInt.
  destruct (strip_sign (trimStart input)) as [neg s1].
  destruct (strip_hex_prefix s1) as [radix s2].
  destruct (parse_digits radix s2 None); eauto.
Qed.

Lemma int_or_fallback (input : string) (d : Z) :
  parseInt input = VNaN \/ parseInt input = VNum 0 ->
  int_or input d = VNum d.
Proof. unfold int_or, or_else. intros [H | H]; rewrite H; reflexivity. Qed.

Lemma int_or_number (input : string) (d : Z) :
  d <> 0 -> exists n, int_or input d = VNum n /\ n <> 0.
Proof.
  intros Hd. unfold int_or, or_else.
  destruct (parseInt_cases input) as [-> | [n ->]]; simpl.
  - eauto.
  - destruct (Z.eqb_spec n 0); simpl; eauto.
Qed.


(** ** Frames *)

Lemma frame_refl keep s : frame keep s s.
Proof.
  unfold frame. repeat split; auto.
  exists []. now rewrite app_nil_r.
Qed.

Lemma frame_trans keep s1 s2 s3 :
  frame keep s1 s2 -> frame keep s2 s3 -> frame keep s1 s3.
Proof.
  intros (U1 & K1 & F1 & T1 & D1 & C1 & [r1 R1] & E1)
         (U2 & K2 & F2 & T2 & D2 & C2 & [r2 R2] & E2).
  unfold frame. repeat split; try congruence.
  - exists (r1 ++ r2)%list. rewrite R2, R1. now rewrite app_assoc.
  - intros id H. rewrite E2, E1; auto.
Qed.

Lemma frame_write keep id f s :
  keep id = false -> frame keep s (with_dom (upd id f) s).
Proof.
  intros H. unfold frame; simpl. repeat split; auto.
  - exists []. now rewrite app_nil_r.
  - intros k Hk. unfold upd. destruct (String.eqb_spec k id); congruence.
Qed.

Lemma frame_send keep r s :
  frame keep s (with_requests (requests s ++ [r])%list s).
Proof. unfold frame; simpl. repeat split; eauto. Qed.

Section Leaves.

Context (P : platform) (keep : string -> bool).

Lemma leaves_ret {A} (a : A) : leaves keep (ret a).
Proof. intros s. apply frame_refl. Qed.

Lemma leaves_lift {A} (r : res A) : leaves keep (lift r).
Proof. intros s. apply frame_refl. Qed.

Lemma leaves_gets {A} (f : state -> A) : leaves keep (gets f).
Proof. intros s. apply frame_refl. Qed.

Lemma leaves_throw {A} (e : exn) : leaves keep (@throw A e).
Proof. intros s. apply frame_refl. Qed.

Lemma leaves_bind {A B} (m : M A) (k : A -> M B) :
  leaves keep m -> (forall a, leaves keep (k a)) -> leaves keep (bind m k).
Proof.
  intros Hm Hk s. unfold bind. specialize (Hm s).
  destruct (m s) as [[a | e] s1]; simpl in *; auto.
  eapply frame_trans; [exact Hm | apply Hk].
Qed.

Lemma leaves_try_catch {A} (m : M A) (h : exn -> M A) :
  leaves keep m -> (forall e, leaves keep (h e)) ->
  leaves keep (try_catch m h).
Proof.
  intros Hm Hh s. unfold try_catch. specialize (Hm s).
  destruct (m s) as [[a | e] s1]; simpl in *; auto.
  eapply frame_trans; [exact Hm | apply Hh].
Qed.

Lemma leaves_spawn (m : M unit) : leaves keep m -> leaves keep (spawn m).
Proof. intros Hm s. apply Hm. Qed.

Lemma leaves_fetch (r : request) : leaves keep (fetch P r).
Proof.
  intros s. unfold fetch.
  destruct (server P (requests s) r); simpl; apply frame_send.
Qed.

Lemma leaves_set_innerHTML (id v : string) :
  keep id = false -> leaves keep (set_innerHTML id v).
Proof. intros H s. now apply frame_write. Qed.

End Leaves.

Ltac leaves_step :=
  lazymatch goal with
  | |- leaves _ (bind _ _) => apply leaves_bind; [ | intros ? ]
  | |- leaves _ (try_catch _ _) => apply leaves_try_catch; [ | intros ? ]
  | |- leaves _ (spawn _) => apply leaves_spawn
  | |- leaves _ (ret _) => apply leaves_ret
  | |- leaves _ (lift _) => apply leaves_lift
  | |- leaves _ (gets _) => apply leaves_gets
  | |- leaves _ (throw _) => apply leaves_throw
  | |- leaves _ (fetch _ _) => apply leaves_fetch
  | |- leaves _ (set_innerHTML _ _) => apply leaves_set_innerHTML; assumption
  | |- leaves _ (if ?b then _ else _) => destruct b
  end.

Section Requests.

Context (P : platform).

Lemma leaves_apiRequest keep endpoint options :
  leaves keep (apiRequest P endpoint options).
Proof. unfold apiRequest. repeat leaves_step. Qed.

Lemma leaves_loadRecentCommands keep :
  keep "recent-commands" = false -> leaves keep (loadRecentCommands P).
Proof.
  intros H. unfold loadRecentCommands.
  repeat first [ apply leaves_apiRequest | leaves_step ].
Qed.

Lemma leaves_loadHistory keep :
  keep "history-table" = false -> keep "recent-commands" = false ->
  leaves keep (loadHistory P).
Proof.
  intros H1 H2. unfold loadHistory.
  repeat first [ apply leaves_apiRequest
               | apply leaves_loadRecentCommands; assumption
               | leaves_step ].
Qed.

Lemma leaves_loadRules keep :
  keep "rules-table" = false -> leaves keep (loadRules P).
Proof.
  intros H. unfold loadRules.
  repeat first [ apply leaves_apiRequest | leaves_step ].
Qed.

Lemma leaves_loadUsers keep :
  keep "users-table" = false -> leaves keep (loadUsers P).
Proof.
  intros H. unfold loadUsers.
  repeat first [ apply leaves_apiRequest | leaves_step ].
Qed.

(** [apiRequest] does one thing to the state: it sends its request. *)
Lemma apiRequest_state endpoint options s :
  snd (apiRequest P endpoint options s)
  = with_requests (requests s ++ [api_call (apiKey s) endpoint options])%list s.
Proof.
  cbv [apiRequest bind gets try_catch fetch lift throw ret].
  destruct (server P (requests s) _) as [e | resp]; simpl.
  - destruct (includes (message e) "Failed to fetch"); reflexivity.
  - destruct (json resp) as [data | e]; simpl.
    + destruct (negb (ok resp)); simpl; [ | reflexivity ].
      destruct (getProp data "detail") as [d | e]; simpl;
        match goal with |- context [includes ?a ?b] =>
          destruct (includes a b) end; reflexivity.
    + destruct (includes (message e) "Failed to fetch"); reflexivity.
Qed.

Lemma apiRequest_ok endpoint options s resp data :
  server P (requests s) (api_call (apiKey s) endpoint options) = Responded resp ->
  json resp = Ret data ->
  ok resp = true ->
  fst (apiRequest P endpoint options s) = Ret data.
Proof.
  intros Hs Hj Hok.
  cbv [apiRequest bind gets try_catch fetch lift throw ret].
  rewrite Hs; simpl. rewrite Hj, Hok; reflexivity.
Qed.

Lemma apiRequest_not_ok endpoint options s resp data detail :
  server P (requests s) (api_call (apiKey s) endpoint options) = Responded resp ->
  json resp = Ret data ->
  ok resp = false ->
  getProp data "detail" = Ret detail ->
  fst (apiRequest P endpoint options s)
  = Throw (Error (if includes (error_message detail resp) "Failed to fetch"
                  then cannot_connect
                  else error_message detail resp)).
Proof.
  intros Hs Hj Hok Hd.
  cbv [apiRequest bind gets try_catch fetch lift throw ret].
  rewrite Hs; simpl. rewrite Hj, Hok; simpl. rewrite Hd; simpl.
  destruct (includes _ _); reflexivity.
Qed.

Lemma apiRequest_run endpoint options s :
  apiRequest P endpoint options s
  = (fst (apiRequest P endpoint options s),
     with_requests (requests s ++ [api_call (apiKey s) endpoint options])%list s).
Proof. rewrite <- apiRequest_state. now destruct (apiRequest _ _ _ _). Qed.

End Requests.

(** ** The requests each loader sends *)

Ltac case_split :=
  match goal with
  | |- context [match ?x with _ => _ end] =>
      lazymatch x with
      | context [match _ with _ => _ end] => fail
      | _ => destruct x
      end
  end.

Ltac run_loader :=
  cbv [try_catch bind]; rewrite apiRequest_run;
  destruct (fst (apiRequest _ _ _ _)); cbv [lift gets set_innerHTML modify];
  repeat (cbv beta iota; try case_split); try reflexivity.

Section Sent.

Context (P : platform).

Lemma loadRecentCommands_requests s :
  requests (snd (loadRecentCommands P s))
  = (requests s ++ [api_call (apiKey s) "/history?limit=5" no_options])%list.
Proof. unfold loadRecentCommands. run_loader. Qed.

Lemma loadAuditLogs_requests s :
  requests (snd (loadAuditLogs P s))
  = (requests s ++ [api_call (apiKey s) "/audit-logs?limit=100" no_options])%list.
Proof. unfold loadAuditLogs. run_loader. Qed.

Lemma loadRules_requests s :
  requests (snd (loadRules P s))
  = (requests s ++ [api_call (apiKey s) "/rules" no_options])%list.
Proof. unfold loadRules. run_loader. Qed.

Lemma loadUsers_requests s :
  requests (snd (loadUsers P s))
  = (requests s ++ [api_call (apiKey s) "/users" no_options])%list.
Proof. unfold loadUsers. run_loader. Qed.

End Sent.

Section SentMore.

Context (P : platform).

Lemma exportAuditLogs_requests s :
  requests (snd (exportAuditLogs P s))
  = (requests s ++ [api_call (apiKey s) "/audit-logs?limit=1000" no_options])%list.
Proof.
  unfold exportAuditLogs.
  cbv [try_catch bind]; rewrite apiRequest_run;
  destruct (fst (apiRequest _ _ _ _)); cbv [lift gets showToast modify];
  repeat (cbv beta iota; try case_split); reflexivity.
Qed.

Lemma loadHistory_requests s :
  let first :=
    api_call (apiKey s) (history_endpoint (currentUser s) ++ "?limit=100")
             no_options in
  let recent := api_call (apiKey s) "/history?limit=5" no_options in
  requests (snd (loadHistory P s)) = (requests s ++ [first])%list
  \/ requests (snd (loadHistory P s)) = (requests s ++ [first; recent])%list.
Proof.
  unfold loadHistory.
  cbv [try_catch bind gets]; rewrite apiRequest_run.
  destruct (fst (apiRequest _ _ _ _)); cbv [lift gets set_innerHTML modify ret spawn];
  repeat (cbv beta iota; try case_split);
  try (left; reflexivity).
  all: right;
    match goal with |- context [snd (Ret tt, ?x)] =>
      change (snd (Ret tt, x)) with x end;
    rewrite loadRecentCommands_requests; simpl;
    rewrite <- app_assoc; reflexivity.
Qed.

End SentMore.

(** ** The rule engine *)

Section EngineFacts.

Import RuleEngine.

Context (matches : string -> string -> bool).

Lemma insert_In (r x : rule) (rs : list rule) :
  In x (insert r rs) -> x = r \/ In x rs.
Proof.
  induction rs as [ | r' rest IH]; simpl.
  - intros [<- | []]; auto.
  - destruct (before r r'); simpl.
    + intros [<- | H]; auto.
    + intros [<- | H]; auto. destruct (IH H); auto.
Qed.

Lemma sort_rules_In (x : rule) (rs : list rule) :
  In x (sort_rules rs) -> In x rs.
Proof.
  induction rs as [ | r rest IH]; simpl; auto.
  intros H. destruct (insert_In _ _ _ H) as [-> | H']; auto.
Qed.

Lemma first_match_none (rs : list rule) (commandText : string) :
  (forall r, In r rs -> matches (pattern r) commandText = false) ->
  first_match matches rs commandText = None.
Proof.
  induction rs as [ | r rest IH]; simpl; intros H; auto.
  rewrite (H r) by auto. apply IH. auto.
Qed.

End EngineFacts.

(** C2. Fail-closed default: when no rule of the rule set matches the
    command text, Evaluate returns AUTO_REJECT with no matched rule, so the
    verdict is never AUTO_ACCEPT. *)
Theorem Evaluate_fail_closed
  (matches : string -> string -> bool) (rules : list RuleEngine.rule)
  (commandText : string) :
  (forall r, In r rules ->
             matches (RuleEngine.pattern r) commandText = false) ->
  RuleEngine.Evaluate matches rules commandText
  = RuleEngine.mkVerdict RuleEngine.AUTO_REJECT None
  /\ RuleEngine.verdict_action
       (RuleEngine.Evaluate matches rules commandText)
     <> RuleEngine.AUTO_ACCEPT.
Proof.
  intros H. unfold RuleEngine.Evaluate.
  rewrite first_match_none.
  - split; [reflexivity | discriminate].
  - intros r Hr. apply H. eapply sort_rules_In; eauto.
Qed.

Lemma Evaluate_fail_closed_witness :
  let rules :=
    [RuleEngine.mkRule 1 5 "git status" RuleEngine.AUTO_ACCEPT;
     RuleEngine.mkRule 2 1 "ls" RuleEngine.AUTO_ACCEPT] in
  (forall r, In r rules ->
             startsWith "rm -rf /" (RuleEngine.pattern r) = false)
  /\ RuleEngine.Evaluate (fun p c => startsWith c p) rules "rm -rf /"
     = RuleEngine.mkVerdict RuleEngine.AUTO_REJECT None.
Proof.
  cbv zeta.
  assert (H : forall r,
             In r [RuleEngine.mkRule 1 5 "git status" RuleEngine.AUTO_ACCEPT;
                   RuleEngine.mkRule 2 1 "ls" RuleEngine.AUTO_ACCEPT] ->
             startsWith "rm -rf /" (RuleEngine.pattern r) = false)
    by (intros r [<- | [<- | []]]; reflexivity).
  split; [ exact H | ].
  exact (proj1 (Evaluate_fail_closed (fun p c => startsWith c p) _ _ H)).
Defined.

(** ** The history table *)

(** C1. The credit column of the history table.  A submission whose
    credits_deducted flag is set is rendered with the cell -2, and any
    other with 0: the table never shows the deduction of one credit that an
    executed command costs. *)
Theorem history_credit_cell :
  (forall cmd,
      credit_cell (VObj cmd)
      = Ret (if truthy (lookup "credits_deducted" cmd) then "-2" else "0"))
  /\ credit_cell (VObj executed_submission) = Ret "-2"
  /\ includes
       (el_innerHTML
          (dom (snd (loadHistory
                       (answering 200
                          (VObj [("commands",
                                  VArr [VObj executed_submission])]))
                       (page member [] None)))
               "history-table"))
       "<td>-2</td>" = true.
Proof.
  split; [ | split].
  - intros cmd. reflexivity.
  - reflexivity.
  - vm_compute. reflexivity.
Qed.

(** ** List requests *)

(** C4 (amended). The request of the history view and the request of the
    audit-log view ask for limit=100 and the recent-commands request for
    limit=5; the audit-log export asks for limit=1000, and the rule and user
    lists are requested without a limit. *)
Theorem list_request_limits (P : platform) (s : state) :
  let k := apiKey s in
  let recent := api_call k "/history?limit=5" no_options in
  let full :=
    api_call k (history_endpoint (currentUser s) ++ "?limit=100") no_options in
  requests (snd (loadRecentCommands P s)) = (requests s ++ [recent])%list
  /\ (requests (snd (loadHistory P s)) = (requests s ++ [full])%list
      \/ requests (snd (loadHistory P s)) = (requests s ++ [full; recent])%list)
  /\ requests (snd (loadAuditLogs P s))
     = (requests s ++ [api_call k "/audit-logs?limit=100" no_options])%list
  /\ requests (snd (exportAuditLogs P s))
     = (requests s ++ [api_call k "/audit-logs?limit=1000" no_options])%list
  /\ requests (snd (loadRules P s))
     = (requests s ++ [api_call k "/rules" no_options])%list
  /\ requests (snd (loadUsers P s))
     = (requests s ++ [api_call k "/users" no_options])%list.
Proof.
  cbv zeta. repeat split.
  - apply loadRecentCommands_requests.
  - apply loadHistory_requests.
  - apply loadAuditLogs_requests.
  - apply exportAuditLogs_requests.
  - apply loadRules_requests.
  - apply loadUsers_requests.
Qed.

(** The audit-log request of the export asks for 1000 records, not 100. *)
Lemma export_asks_for_thousand :
  map url
    (requests (snd (exportAuditLogs (answering 200 (VObj [("logs", VArr [])]))
                                    (page admin [] None))))
  = ["http://localhost:8000/audit-logs?limit=1000"]
  /\ "http://localhost:8000/audit-logs?limit=1000"
     <> "http://localhost:8000/audit-logs?limit=100".
Proof. split; [vm_compute; reflexivity | discriminate]. Qed.

(** ** The rule and user forms *)

Section Forms.

Context (P : platform).

Lemma addRule_requests s :
  let pattern := trim (el_value (dom s "rule-pattern")) in
  let post :=
    api_call (apiKey s) "/rules"
      (mkOptions (Some "POST")
         (Some (rule_body pattern (el_value (dom s "rule-action"))
                          (el_value (dom s "rule-priority"))))) in
  pattern <> EmptyString ->
  requests (snd (addRule P s)) = (requests s ++ [post])%list
  \/ requests (snd (addRule P s))
     = (requests s ++ [post; api_call (apiKey s) "/rules" no_options])%list.
Proof.
  cbv zeta. intros H. apply is_empty_false in H.
  unfold addRule. cbv [bind gets]. rewrite H.
  cbv [try_catch bind]. rewrite apiRequest_run.
  destruct (fst (apiRequest _ _ _ _)).
  - right. cbv [set_value modify spawn showToast]. cbv beta iota.
    match goal with |- context [snd (Ret tt, ?x)] =>
      change (snd (Ret tt, x)) with x end.
    simpl requests. rewrite loadRules_requests. simpl.
    rewrite <- app_assoc. reflexivity.
  - left. reflexivity.
Qed.


Lemma createUser_requests s :
  let username := trim (el_value (dom s "new-username")) in
  let post :=
    api_call (apiKey s) "/users"
      (mkOptions (Some "POST")
         (Some (user_body username (el_value (dom s "new-user-role"))
                          (el_value (dom s "new-user-credits"))))) in
  username <> EmptyString ->
  requests (snd (createUser P s)) = (requests s ++ [post])%list
  \/ requests (snd (createUser P s))
     = (requests s ++ [post; api_call (apiKey s) "/users" no_options])%list.
Proof.
  cbv zeta. intros H. apply is_empty_false in H.
  unfold createUser. cbv [bind gets]. rewrite H.
  cbv [try_catch bind]. rewrite apiRequest_run.
  destruct (fst (apiRequest _ _ _ _)) as [result | e]; [ | left; reflexivity ].
  cbv [lift].
  destruct (getProp result "user") as [user | e]; [ | left; reflexivity ].
  cbv beta iota.
  destruct (getProp user "api_key") as [key | e]; [ | left; reflexivity ].
  right. cbv [set_value set_textContent set_hidden modify spawn showToast].
  cbv beta iota.
  match goal with |- context [snd (Ret tt, ?x)] =>
    change (snd (Ret tt, x)) with x end.
  simpl requests. rewrite loadUsers_requests. simpl.
  rewrite <- app_assoc. reflexivity.
Qed.


End Forms.

(** C8. The priority that addRule submits.  When the priority input does
    not parse as an integer, or parses to 0, the rule is posted with
    priority 10; the posted priority is always a number other than 0; and
    the only request by which addRule creates a rule is the POST to /rules
    carrying that priority. *)
Theorem addRule_priority (P : platform) (s : state) :
  let pattern := trim (el_value (dom s "rule-pattern")) in
  let action := el_value (dom s "rule-action") in
  let input := el_value (dom s "rule-priority") in
  let post :=
    api_call (apiKey s) "/rules"
      (mkOptions (Some "POST") (Some (rule_body pattern action input))) in
  pattern <> EmptyString ->
  (requests (snd (addRule P s)) = (requests s ++ [post])%list
   \/ requests (snd (addRule P s))
      = (requests s ++ [post; api_call (apiKey s) "/rules" no_options])%list)
  /\ getProp (rule_body pattern action input) "priority"
     = Ret (int_or input 10)
  /\ (parseInt input = VNaN \/ parseInt input = VNum 0 ->
      int_or input 10 = VNum 10)
  /\ (exists n, int_or input 10 = VNum n /\ n <> 0).
Proof.
  cbv zeta. intros H. repeat split.
  - now apply addRule_requests.
  - apply int_or_fallback.
  - apply int_or_number. lia.
Qed.

Lemma addRule_priority_witness :
  let s := page admin [("rule-pattern", "^ls"); ("rule-action", "AUTO_ACCEPT");
                       ("rule-priority", "0")] None in
  trim (el_value (dom s "rule-pattern")) <> EmptyString
  /\ parseInt (el_value (dom s "rule-priority")) = VNum 0
  /\ int_or (el_value (dom s "rule-priority")) 10 = VNum 10.
Proof.
  cbv zeta.
  assert (H : trim (el_value
                      (dom (page admin [("rule-pattern", "^ls");
                                        ("rule-action", "AUTO_ACCEPT");
                                        ("rule-priority", "0")] None)
                           "rule-pattern")) <> EmptyString)
    by (vm_compute; discriminate).
  split; [exact H | split; [reflexivity | ]].
  apply (addRule_priority
           (answering 200 (VObj [("id", VNum 7)]))
           (page admin [("rule-pattern", "^ls"); ("rule-action", "AUTO_ACCEPT");
                        ("rule-priority", "0")] None) H).
  right. reflexivity.
Defined.

(** C9. The initial balance that createUser submits.  When the credits
    input does not parse as an integer, or parses to 0, the identity is
    posted with 100 credits; the posted balance is always a number other
    than 0; and the only request by which createUser creates an identity is
    the POST to /users carrying that balance. *)
Theorem createUser_credits (P : platform) (s : state) :
  let username := trim (el_value (dom s "new-username")) in
  let role := el_value (dom s "new-user-role") in
  let input := el_value (dom s "new-user-credits") in
  let post :=
    api_call (apiKey s) "/users"
      (mkOptions (Some "POST") (Some (user_body username role input))) in
  username <> EmptyString ->
  (requests (snd (createUser P s)) = (requests s ++ [post])%list
   \/ requests (snd (createUser P s))
      = (requests s ++ [post; api_call (apiKey s) "/users" no_options])%list)
  /\ getProp (user_body username role input) "credits"
     = Ret (int_or input 100)
  /\ (parseInt input = VNaN \/ parseInt input = VNum 0 ->
      int_or input 100 = VNum 100)
  /\ (exists n, int_or input 100 = VNum n /\ n <> 0).
Proof.
  cbv zeta. intros H. repeat split.
  - now apply createUser_requests.
  - apply int_or_fallback.
  - apply int_or_number. lia.
Qed.

Lemma createUser_credits_witness :
  let s := page admin [("new-username", "bob"); ("new-user-role", "member");
                       ("new-user-credits", "0")] None in
  trim (el_value (dom s "new-username")) <> EmptyString
  /\ parseInt (el_value (dom s "new-user-credits")) = VNum 0
  /\ int_or (el_value (dom s "new-user-credits")) 100 = VNum 100.
Proof.
  cbv zeta.
  assert (H : trim (el_value
                      (dom (page admin [("new-username", "bob");
                                        ("new-user-role", "member");
                                        ("new-user-credits", "0")] None)
                           "new-username")) <> EmptyString)
    by (vm_compute; discriminate).
  split; [exact H | split; [reflexivity | ]].
  apply (createUser_credits
           (answering 200 (VObj [("user", VObj [("api_key", VStr "k")])]))
           (page admin [("new-username", "bob"); ("new-user-role", "member");
                        ("new-user-credits", "0")] None) H).
  right. reflexivity.
Defined.

(** ** Escaping *)

Lemma count_code_app (a : ascii) (s t : string) :
  count_code a (s ++ t) = (count_code a s + count_code a t)%nat.
Proof. induction s as [ | c s IH]; simpl; [ | rewrite IH ]; lia. Qed.















Lemma escapeHtml_string (s : string) : escapeHtml (VStr s) = escape_text s.
Proof. destruct s; reflexivity. Qed.


Lemma result_html_object (P : platform) (command : string)
  (fs : list (string * jsval)) (st : string) :
  lookup "status" fs = VStr st ->
  exists o,
    (o = EmptyString
     \/ exists r, truthy r = true
                  /\ lookup "command" fs <> VUndefined
                  /\ o = result_pre r)
    /\ result_html P command (VObj fs)
       = Ret (result_markup (String.eqb st "executed") st (toUpperCase P st)
                (escapeHtml (VStr command))
                (escapeHtml (or_else (lookup "message" fs)
                                     (VStr EmptyString))) o).
Proof.
  intros Hst.
  assert (Hout : exists o,
             output_html (VObj fs) = Ret o
             /\ (o = EmptyString
                 \/ exists r, truthy r = true
                              /\ lookup "command" fs <> VUndefined
                              /\ o = result_pre r)).
  { unfold output_html. simpl.
    destruct (truthy (lookup "command" fs)) eqn:Hc; [ | eauto ].
    assert (Hne : lookup "command" fs <> VUndefined)
      by (intros E; rewrite E in Hc; discriminate).
    destruct (getProp (lookup "command" fs) "result") as [r | e] eqn:Hr.
    - simpl. destruct (truthy r) eqn:Ht; eauto 8.
    - destruct (lookup "command" fs); simpl in *; discriminate. }
  destruct Hout as (o & Ho & Hcases).
  exists o. split; [ exact Hcases | ].
  unfold result_html. simpl getProp. rewrite Hst. cbn [rbind].
  rewrite Ho. reflexivity.
Qed.





(** ** Submitting a command *)

Section Submit.

Context (P : platform).

Lemma submitCommand_success_state s resp fs st :
  let command := trim (el_value (dom s "command-input")) in
  let cr := lookup "credits_remaining" fs in
  command <> EmptyString ->
  server P (requests s)
    (api_call (apiKey s) "/commands"
       (mkOptions (Some "POST") (Some (VObj [("command", VStr command)]))))
  = Responded resp ->
  ok resp = true ->
  json resp = Ret (VObj fs) ->
  lookup "status" fs = VStr st ->
  (exists u, currentUser s = VObj u) \/ cr = VUndefined ->
  exists s4 s6,
    frame kept s4 s6
    /\ toasts s4 = toasts s
    /\ Ret (el_innerHTML (dom s4 "command-result"))
       = result_html P command (VObj fs)
    /\ el_value (dom s4 "command-input") = EmptyString
    /\ el_textContent (dom s4 "credit-display")
       = (if is_defined cr then as_textContent cr
          else el_textContent (dom s "credit-display"))
    /\ snd (submitCommand P s)
       = with_dom (upd ".submit-btn" (with_disabled false))
           (with_dom (upd ".submit-btn"
                        (with_innerHTML (el_innerHTML (dom s ".submit-btn"))))
              (with_toasts
                 (toasts s6
                    ++ [(if String.eqb st "executed"
                         then "Command executed" else "Command rejected",
                         if String.eqb st "executed"
                         then "success" else "error")])%list s6)).
Proof.
  cbv zeta. intros Hc Hs Hok Hj Hst Hu.
  apply is_empty_false in Hc.
  destruct (result_html_object P (trim (el_value (dom s "command-input")))
              fs st Hst) as (o & _ & Hhtml).
  rewrite Hhtml.
  set (html := result_markup _ _ _ _ _ _) in *.
  unfold submitCommand. cbv [bind gets]. rewrite Hc.
  cbv [finally try_catch bind set_innerHTML set_disabled modify].
  cbv beta iota.
  rewrite apiRequest_run.
  erewrite apiRequest_ok; [ | simpl; exact Hs | exact Hj | exact Hok ].
  cbv beta iota.
  unfold displayResult at 1. cbv [bind lift]. rewrite Hhtml.
  cbv [set_innerHTML set_value modify]. cbv beta iota.
  simpl getProp. cbv beta iota.
  match goal with |- context [with_dom (upd "command-input" ?f) ?x] =>
    set (s3 := with_dom (upd "command-input" f) x) end.
  destruct (is_defined (lookup "credits_remaining" fs)) eqn:Hdef.
  - destruct Hu as [[u Hu] | Hu]; [ | rewrite Hu in Hdef; discriminate ].
    change (currentUser s3) with (currentUser s). rewrite Hu. simpl setProp.
    cbv [set_textContent modify spawn showToast]. cbv beta iota zeta.
    rewrite Hst.
    match goal with |- context [loadHistory P ?x] => set (s4 := x) end.
    exists s4, (snd (loadRecentCommands P (snd (loadHistory P s4)))).
    split.
    { eapply frame_trans.
      - apply (leaves_loadHistory P kept); reflexivity.
      - apply (leaves_loadRecentCommands P kept); reflexivity. }
    repeat split.
  - cbv [ret spawn showToast modify]. cbv beta iota zeta. rewrite Hst.
    exists s3, (snd (loadRecentCommands P (snd (loadHistory P s3)))).
    split.
    { eapply frame_trans.
      - apply (leaves_loadHistory P kept); reflexivity.
      - apply (leaves_loadRecentCommands P kept); reflexivity. }
    repeat split.
Qed.

End Submit.

Section SubmitFacts.

Context (P : platform).

(** A submission that the server answers with an OK response whose body
    has a string status, for a logged-in user or with no credits_remaining
    in the body: the result box shows the body, the input is
    cleared, the credit display follows [credits_remaining], and one toast
    is added. *)
Lemma submitCommand_success s resp fs st :
  let command := trim (el_value (dom s "command-input")) in
  let cr := lookup "credits_remaining" fs in
  command <> EmptyString ->
  server P (requests s)
    (api_call (apiKey s) "/commands"
       (mkOptions (Some "POST") (Some (VObj [("command", VStr command)]))))
  = Responded resp ->
  ok resp = true ->
  json resp = Ret (VObj fs) ->
  lookup "status" fs = VStr st ->
  (exists u, currentUser s = VObj u) \/ cr = VUndefined ->
  let s' := snd (submitCommand P s) in
  Ret (el_innerHTML (dom s' "command-result"))
  = result_html P command (VObj fs)
  /\ el_value (dom s' "command-input") = EmptyString
  /\ el_textContent (dom s' "credit-display")
     = (if is_defined cr then as_textContent cr
        else el_textContent (dom s "credit-display"))
  /\ toasts s'
     = (toasts s
          ++ [(if String.eqb st "executed"
               then "Command executed" else "Command rejected",
               if String.eqb st "executed" then "success" else "error")])%list.
Proof.
  cbv zeta. intros Hc Hs Hok Hj Hst Hu.
  destruct (submitCommand_success_state P s resp fs st Hc Hs Hok Hj Hst Hu)
    as (s4 & s6 & F & T4 & R4 & I4 & C4 & ->).
  destruct F as (_ & _ & _ & T & _ & _ & _ & E).
  cbn [dom toasts with_dom with_toasts]. unfold upd.
  cbn [String.eqb Ascii.eqb Bool.eqb].
  rewrite !E by reflexivity. rewrite T, T4. auto.
Qed.

End SubmitFacts.

(** ** Who writes the credit display *)

Section Shows.

Context (P : platform) (V : string -> Prop).

Lemma shows_ret {A} (a : A) : shows V (ret a).
Proof. intros s. left. reflexivity. Qed.

Lemma shows_lift {A} (r : res A) : shows V (lift r).
Proof. intros s. left. reflexivity. Qed.

Lemma shows_gets {A} (f : state -> A) : shows V (gets f).
Proof. intros s. left. reflexivity. Qed.

Lemma shows_bind {A B} (m : M A) (k : A -> M B) :
  shows V m -> (forall a, shows V (k a)) -> shows V (bind m k).
Proof.
  intros Hm Hk s. unfold bind. specialize (Hm s).
  destruct (m s) as [[a | e] s1]; simpl in *; auto.
  destruct (Hk a s1) as [E | Hv]; [ rewrite E; exact Hm | right; exact Hv ].
Qed.

Lemma shows_bind_lift {A B} (r : res A) (k : A -> M B) :
  (forall a, r = Ret a -> shows V (k a)) -> shows V (bind (lift r) k).
Proof.
  intros Hk s. unfold bind, lift. destruct r as [a | e].
  - apply (Hk a eq_refl).
  - left. reflexivity.
Qed.

Lemma shows_try_catch {A} (m : M A) (h : exn -> M A) :
  shows V m -> (forall e, shows V (h e)) -> shows V (try_catch m h).
Proof.
  intros Hm Hh s. unfold try_catch. specialize (Hm s).
  destruct (m s) as [[a | e] s1]; simpl in *; auto.
  destruct (Hh e s1) as [E | Hv]; [ rewrite E; exact Hm | right; exact Hv ].
Qed.

Lemma shows_finally {A} (m : M A) (f : M unit) :
  shows V m -> shows V f -> shows V (finally m f).
Proof.
  intros Hm Hf s. unfold finally. specialize (Hm s).
  destruct (m s) as [r s1]. specialize (Hf s1). simpl in *.
  destruct (f s1) as [[[] | e] s2]; simpl in *;
    (destruct Hf as [E | Hv]; [ rewrite E; exact Hm | right; exact Hv ]).
Qed.

Lemma shows_spawn (m : M unit) : shows V m -> shows V (spawn m).
Proof. intros Hm s. apply Hm. Qed.

Lemma shows_write (id : string) (f : element -> element) :
  String.eqb "credit-display" id = false ->
  shows V (modify (with_dom (upd id f))).
Proof. intros H s. left. simpl. unfold upd. now rewrite H. Qed.

Lemma shows_showToast (msg type : string) : shows V (showToast msg type).
Proof. intros s. left. reflexivity. Qed.

Lemma shows_leaves {A} (keep : string -> bool) (m : M A) :
  keep "credit-display" = true -> leaves keep m -> shows V m.
Proof.
  intros Hk Hm s. left. destruct (Hm s) as (_ & _ & _ & _ & _ & _ & _ & E).
  now rewrite E.
Qed.

Lemma shows_displayResult (command : string) (result : jsval) :
  shows V (displayResult P command result).
Proof.
  unfold displayResult. apply shows_bind; [ apply shows_lift | intros html ].
  now apply shows_write.
Qed.

End Shows.

Lemma apiRequest_returns (P : platform) endpoint options s data :
  fst (apiRequest P endpoint options s) = Ret data ->
  exists resp,
    server P (requests s) (api_call (apiKey s) endpoint options)
    = Responded resp
    /\ ok resp = true /\ json resp = Ret data.
Proof.
  cbv [apiRequest bind gets try_catch fetch lift throw ret].
  destruct (server P (requests s) _) as [e | resp] eqn:Hs; simpl.
  - destruct (includes (message e) "Failed to fetch"); discriminate.
  - destruct (json resp) as [d | e] eqn:Hj; simpl.
    + destruct (ok resp) eqn:Hok; simpl.
      * intros [= ->]. exists resp. auto.
      * destruct (getProp d "detail") as [x | e]; simpl;
          match goal with |- context [includes ?a ?b] =>
            destruct (includes a b) end; discriminate.
    + destruct (includes (message e) "Failed to fetch"); discriminate.
Qed.

Lemma try_catch_bind_run {A B} (m : M A) (k : A -> M B) (h : exn -> M B) s :
  try_catch (bind m k) h s
  = match m s with
    | (Ret a, s1) => try_catch (k a) h s1
    | (Throw e, s1) => h e s1
    end.
Proof. unfold try_catch, bind. destruct (m s) as [[a | e] s1]; reflexivity. Qed.

Lemma finally_state {A} (m : M A) (f : M unit) s :
  snd (finally m f s) = snd (f (snd (m s))).
Proof.
  unfold finally. destruct (m s) as [r s1]; simpl.
  destruct (f s1) as [[[] | e] s2]; reflexivity.
Qed.

Lemma bind_gets {A B} (f : state -> A) (k : A -> M B) s :
  bind (gets f) k s = k (f s) s.
Proof. reflexivity. Qed.

Lemma bind_modify {B} (g : state -> state) (k : unit -> M B) s :
  bind (modify g) k s = k tt (g s).
Proof. reflexivity. Qed.

Lemma bind_set_innerHTML {B} (id v : string) (k : unit -> M B) s :
  bind (set_innerHTML id v) k s
  = k tt (with_dom (upd id (with_innerHTML v)) s).
Proof. reflexivity. Qed.

Lemma bind_set_disabled {B} (id : string) (v : bool) (k : unit -> M B) s :
  bind (set_disabled id v) k s
  = k tt (with_dom (upd id (with_disabled v)) s).
Proof. reflexivity. Qed.

Lemma restore_button_state (orig : string) s :
  dom (snd (bind (set_innerHTML ".submit-btn" orig)
                 (fun _ => set_disabled ".submit-btn" false) s))
      "credit-display"
  = dom s "credit-display".
Proof. reflexivity. Qed.

Ltac shows_step :=
  lazymatch goal with
  | |- shows _ (bind (lift _) _) => apply shows_bind_lift; intros ? ?
  | |- shows _ (bind _ _) => apply shows_bind; [ | intros ? ]
  | |- shows _ (try_catch _ _) => apply shows_try_catch; [ | intros ? ]
  | |- shows _ (finally _ _) => apply shows_finally
  | |- shows _ (spawn _) => apply shows_spawn
  | |- shows _ (ret _) => apply shows_ret
  | |- shows _ (lift _) => apply shows_lift
  | |- shows _ (gets _) => apply shows_gets
  | |- shows _ (showToast _ _) => apply shows_showToast
  | |- shows _ (displayResult _ _ _) => apply shows_displayResult
  | |- shows _ (set_value _ _) => apply shows_write; reflexivity
  | |- shows _ (set_innerHTML _ _) => apply shows_write; reflexivity
  | |- shows _ (set_disabled _ _) => apply shows_write; reflexivity
  | |- shows _ (loadHistory _) =>
      apply (shows_leaves _ kept); [ reflexivity | ];
      apply leaves_loadHistory; reflexivity
  | |- shows _ (loadRecentCommands _) =>
      apply (shows_leaves _ kept); [ reflexivity | ];
      apply leaves_loadRecentCommands; reflexivity
  end.

Lemma submitCommand_credit_display (P : platform) s :
  let command := trim (el_value (dom s "command-input")) in
  let d' := el_textContent (dom (snd (submitCommand P s)) "credit-display") in
  d' = el_textContent (dom s "credit-display")
  \/ exists resp result cr,
       server P (requests s)
         (api_call (apiKey s) "/commands"
            (mkOptions (Some "POST")
               (Some (VObj [("command", VStr command)]))))
       = Responded resp
       /\ ok resp = true /\ json resp = Ret result
       /\ getProp result "credits_remaining" = Ret cr
       /\ is_defined cr = true
       /\ d' = as_textContent cr.
Proof.
  cbv zeta. unfold submitCommand. rewrite bind_gets.
  destruct (is_empty (trim (el_value (dom s "command-input")))).
  { left. reflexivity. }
  rewrite bind_gets.
  rewrite bind_set_innerHTML, bind_set_disabled.
  rewrite finally_state.
  rewrite restore_button_state.
  rewrite try_catch_bind_run, apiRequest_run.
  destruct (fst (apiRequest _ _ _ _)) as [result | e] eqn:Hapi.
  2: { match goal with |- context [dom (snd (?m ?st))] =>
         assert (H : shows (fun _ => False) m) by (repeat shows_step);
         destruct (H st) as [E | []]
       end.
       left. rewrite E. reflexivity. }
  apply apiRequest_returns in Hapi. destruct Hapi as (resp & Hs & Hok & Hj).
  simpl in Hs.
  match goal with |- context [dom (snd (?m ?st))] =>
    assert (H : shows (fun d => exists cr,
                           getProp result "credits_remaining" = Ret cr
                           /\ is_defined cr = true
                           /\ d = as_textContent cr) m);
      [ | specialize (H st) ]
  end.
  { repeat shows_step.
    destruct (is_defined a1) eqn:Hdef; [ | apply shows_ret ].
    intros s0. cbv [bind gets lift modify set_textContent].
    destruct (setProp (currentUser s0) "credits" a1); simpl.
    + right. exists a1. auto.
    + left. reflexivity. }
  destruct H as [E | (cr & Hcr & Hdef & E)].
  - left. rewrite E. reflexivity.
  - right. exists resp, result, cr. repeat split; assumption.
Qed.

(** ** Submitting with no user logged in *)

Lemma guest_keeps_ret {A} (a : A) : guest_keeps (ret a).
Proof. intros x s H. exact H. Qed.

Lemma guest_keeps_lift {A} (r : res A) : guest_keeps (lift r).
Proof. intros x s H. exact H. Qed.

Lemma guest_keeps_gets {A} (f : state -> A) : guest_keeps (gets f).
Proof. intros x s H. exact H. Qed.

Lemma guest_keeps_bind {A B} (m : M A) (k : A -> M B) :
  guest_keeps m -> (forall a, guest_keeps (k a)) -> guest_keeps (bind m k).
Proof.
  intros Hm Hk x s H. specialize (Hm x s H). unfold bind.
  destruct (m s) as [[a | e] s1]; [ apply Hk; exact Hm | exact Hm ].
Qed.

(** For a guest [currentUser] reads null. *)
Lemma guest_keeps_bind_user {B} (k : jsval -> M B) :
  guest_keeps (k VNull) -> guest_keeps (bind (gets currentUser) k).
Proof.
  intros Hk x s H. rewrite bind_gets. rewrite (proj1 H). apply Hk. exact H.
Qed.

(** What follows a throw is not run. *)
Lemma guest_keeps_bind_throw {A B} (e : exn) (k : A -> M B) :
  guest_keeps (bind (lift (Throw e)) k).
Proof. intros x s H. exact H. Qed.

Lemma guest_keeps_try_catch {A} (m : M A) (h : exn -> M A) :
  guest_keeps m -> (forall e, guest_keeps (h e)) -> guest_keeps (try_catch m h).
Proof.
  intros Hm Hh x s H. specialize (Hm x s H). unfold try_catch.
  destruct (m s) as [[a | e] s1]; [ exact Hm | apply Hh; exact Hm ].
Qed.

Lemma guest_keeps_finally {A} (m : M A) (f : M unit) :
  guest_keeps m -> guest_keeps f -> guest_keeps (finally m f).
Proof. intros Hm Hf x s H. rewrite finally_state. apply Hf, Hm, H. Qed.

Lemma guest_keeps_spawn (m : M unit) : guest_keeps m -> guest_keeps (spawn m).
Proof. intros Hm x s H. apply Hm, H. Qed.

Lemma guest_keeps_leaves {A} (keep : string -> bool) (m : M A) :
  keep "credit-display" = true -> leaves keep m -> guest_keeps m.
Proof.
  intros Hk Hm x s [Hu Hx].
  destruct (Hm s) as (Eu & _ & _ & _ & _ & _ & _ & Ed).
  split; [ now rewrite Eu | now rewrite (Ed _ Hk) ].
Qed.

Ltac guest_step P :=
  lazymatch goal with
  | |- guest_keeps (bind (gets currentUser) _) => apply guest_keeps_bind_user
  | |- guest_keeps (bind (lift (Throw _)) _) => apply guest_keeps_bind_throw
  | |- guest_keeps (bind (lift (setProp VNull _ _)) _) => cbn [setProp]
  | |- guest_keeps (bind _ _) => apply guest_keeps_bind; [ | intros ? ]
  | |- guest_keeps (try_catch _ _) => apply guest_keeps_try_catch; [ | intros ? ]
  | |- guest_keeps (finally _ _) => apply guest_keeps_finally
  | |- guest_keeps (spawn _) => apply guest_keeps_spawn
  | |- guest_keeps (ret _) => apply guest_keeps_ret
  | |- guest_keeps (lift _) => apply guest_keeps_lift
  | |- guest_keeps (gets _) => apply guest_keeps_gets
  | |- guest_keeps (apiRequest _ _ _) =>
      apply (guest_keeps_leaves (fun _ => true));
      [ reflexivity | apply leaves_apiRequest ]
  | |- guest_keeps (loadHistory _) =>
      apply (guest_keeps_leaves kept);
      [ reflexivity | apply leaves_loadHistory; reflexivity ]
  | |- guest_keeps (loadRecentCommands _) =>
      apply (guest_keeps_leaves kept);
      [ reflexivity | apply leaves_loadRecentCommands; reflexivity ]
  | |- guest_keeps (displayResult _ _ _) => unfold displayResult
  | |- guest_keeps (if ?b then _ else _) => destruct b
  | |- guest_keeps _ => intros ? ? [? ?]; split; assumption
  end.

(** With no user logged in, submitCommand never changes the credit
    display, whatever the server answers: the assignment to
    [currentUser.credits] throws before the display is written. *)
Lemma submitCommand_guest (P : platform) : guest_keeps (submitCommand P).
Proof. unfold submitCommand. repeat guest_step P. Qed.

(** An accepted submission with no user logged in and a credits_remaining
    in the body: the assignment to [currentUser.credits] throws, and the
    handler shows the TypeError in place of the outcome. *)
Lemma submitCommand_guest_credits (P : platform) s resp fs st :
  let command := trim (el_value (dom s "command-input")) in
  command <> EmptyString ->
  server P (requests s)
    (api_call (apiKey s) "/commands"
       (mkOptions (Some "POST") (Some (VObj [("command", VStr command)]))))
  = Responded resp ->
  ok resp = true ->
  json resp = Ret (VObj fs) ->
  lookup "status" fs = VStr st ->
  currentUser s = VNull ->
  lookup "credits_remaining" fs <> VUndefined ->
  toasts (snd (submitCommand P s))
  = (toasts s ++ [(message (cannot_set VNull "credits"), "error")])%list.
Proof.
  cbv zeta. intros Hc Hs Hok Hj Hst Hu Hcr.
  apply is_empty_false in Hc.
  assert (Hdef : is_defined (lookup "credits_remaining" fs) = true)
    by (destruct (lookup "credits_remaining" fs); try reflexivity;
        contradiction).
  destruct (result_html_object P (trim (el_value (dom s "command-input")))
              fs st Hst) as (o & _ & Hhtml).
  destruct (result_html_object P (trim (el_value (dom s "command-input")))
              [("status", VStr "rejected");
               ("message", VStr (message (cannot_set VNull "credits")))]
              "rejected" eq_refl) as (o' & _ & Hhtml').
  unfold submitCommand. rewrite bind_gets. rewrite Hc.
  rewrite bind_gets, bind_set_innerHTML, bind_set_disabled, finally_state.
  rewrite try_catch_bind_run, apiRequest_run.
  erewrite apiRequest_ok; [ | simpl; exact Hs | exact Hj | exact Hok ].
  cbv beta iota.
  rewrite try_catch_bind_run. unfold displayResult at 1.
  cbv [bind lift]. rewrite Hhtml. cbv [set_innerHTML modify]. cbv beta iota.
  cbv [try_catch set_value modify gets]. cbv beta iota. cbn [getProp].
  rewrite Hdef. cbv beta iota.
  cbn [currentUser with_dom with_requests]. rewrite Hu. cbn [setProp].
  cbv beta iota. unfold displayResult. cbv [bind lift showToast modify].
  cbv beta iota. rewrite Hhtml'. reflexivity.
Qed.

(** An accepted submission whose body displayResult cannot render (a body
    with no status, say): the handler runs before the credits are looked
    at, and the credit display stays. *)
Lemma submitCommand_unrendered (P : platform) s resp result e :
  let command := trim (el_value (dom s "command-input")) in
  command <> EmptyString ->
  server P (requests s)
    (api_call (apiKey s) "/commands"
       (mkOptions (Some "POST") (Some (VObj [("command", VStr command)]))))
  = Responded resp ->
  ok resp = true ->
  json resp = Ret result ->
  result_html P command result = Throw e ->
  el_textContent (dom (snd (submitCommand P s)) "credit-display")
  = el_textContent (dom s "credit-display")
  /\ toasts (snd (submitCommand P s))
     = (toasts s ++ [(message e, "error")])%list.
Proof.
  cbv zeta. intros Hc Hs Hok Hj Hthrow.
  apply is_empty_false in Hc.
  destruct (result_html_object P (trim (el_value (dom s "command-input")))
              [("status", VStr "rejected"); ("message", VStr (message e))]
              "rejected" eq_refl) as (o' & _ & Hhtml').
  split.
  all: unfold submitCommand; rewrite bind_gets; rewrite Hc.
  all: rewrite bind_gets, bind_set_innerHTML, bind_set_disabled, finally_state.
  all: rewrite try_catch_bind_run, apiRequest_run.
  all: (erewrite apiRequest_ok; [ | simpl; exact Hs | exact Hj | exact Hok ]).
  all: cbv beta iota.
  all: rewrite try_catch_bind_run; unfold displayResult at 1.
  all: cbv [bind lift]; rewrite Hthrow; cbv beta iota.
  all: unfold displayResult; cbv [bind lift showToast modify].
  all: cbv beta iota; rewrite Hhtml'; reflexivity.
Qed.

Lemma error_message_cases (detail : jsval) (resp : response) :
  error_message detail resp
  = if truthy detail then toString detail
    else "HTTP error " ++ Z_to_string (status resp).
Proof. unfold error_message, or_else. destruct (truthy detail); reflexivity. Qed.

(** C3 (amended). apiRequest returns the parsed body whenever the HTTP
    status is OK, whatever the body says.  A body whose status is rejected
    is rendered by submitCommand into the result box like any result, the
    input is cleared and the toast reads Command rejected, when a user is
    logged in or the body carries no credits_remaining; with no user
    logged in and a credits_remaining in the body, the assignment to
    currentUser.credits throws and the toast shows that TypeError instead.
    When the status is not OK and the body has a detail property to read,
    apiRequest throws an Error whose message is the detail as a string
    when the detail is truthy and HTTP error followed by the status
    otherwise, except that a message containing Failed to fetch is
    replaced by the cannot-connect text. *)
Theorem apiRequest_settles (P : platform) (s : state) :
  (forall endpoint options resp data,
      server P (requests s) (api_call (apiKey s) endpoint options)
      = Responded resp ->
      json resp = Ret data ->
      (ok resp = true -> fst (apiRequest P endpoint options s) = Ret data)
      /\ (ok resp = false ->
          forall detail, getProp data "detail" = Ret detail ->
          let msg := if truthy detail then toString detail
                     else "HTTP error " ++ Z_to_string (status resp) in
          fst (apiRequest P endpoint options s)
          = Throw (Error (if includes msg "Failed to fetch"
                          then cannot_connect else msg))))
  /\ (forall resp fs,
         let command := trim (el_value (dom s "command-input")) in
         command <> EmptyString ->
         server P (requests s)
           (api_call (apiKey s) "/commands"
              (mkOptions (Some "POST")
                 (Some (VObj [("command", VStr command)]))))
         = Responded resp ->
         ok resp = true ->
         json resp = Ret (VObj fs) ->
         lookup "status" fs = VStr "rejected" ->
         let s' := snd (submitCommand P s) in
         ((exists u, currentUser s = VObj u)
          \/ lookup "credits_remaining" fs = VUndefined ->
          Ret (el_innerHTML (dom s' "command-result"))
          = result_html P command (VObj fs)
          /\ el_value (dom s' "command-input") = EmptyString
          /\ toasts s' = (toasts s ++ [("Command rejected", "error")])%list)
         /\ (currentUser s = VNull ->
             lookup "credits_remaining" fs <> VUndefined ->
             toasts s'
             = (toasts s
                  ++ [(message (cannot_set VNull "credits"), "error")])%list)).
Proof.
  split.
  - intros endpoint options resp data Hs Hj. split.
    + intros Hok. eapply apiRequest_ok; eauto.
    + intros Hok detail Hd. cbv zeta. rewrite <- error_message_cases.
      eapply apiRequest_not_ok; eauto.
  - intros resp fs command Hc Hs Hok Hj Hst. cbv zeta. split.
    + intros Hu.
      destruct (submitCommand_success P s resp fs "rejected" Hc Hs Hok Hj Hst Hu)
        as (H1 & H2 & _ & H4).
      auto.
    + intros Hu Hcr.
      exact (submitCommand_guest_credits P s resp fs "rejected"
               Hc Hs Hok Hj Hst Hu Hcr).
Qed.

Lemma apiRequest_settles_witness :
  let body := [("status", VStr "rejected");
               ("message", VStr "No matching rule")] in
  let counted := [("status", VStr "rejected");
                  ("message", VStr "Insufficient credits");
                  ("credits_remaining", VNum 0)] in
  fst (apiRequest (answering 200 (VObj body)) "/commands" no_options
         (page member [("command-input", "rm -rf /")] None))
  = Ret (VObj body)
  /\ toasts (snd (submitCommand (answering 200 (VObj body))
                    (page member [("command-input", "rm -rf /")] None)))
     = [("Command rejected", "error")]
  /\ toasts (snd (submitCommand (answering 200 (VObj counted))
                    (page VNull [("command-input", "rm -rf /")] None)))
     = [("Cannot set properties of null (setting 'credits')", "error")].
Proof.
  cbv zeta.
  pose proof (apiRequest_settles
                (answering 200 (VObj [("status", VStr "rejected");
                                      ("message", VStr "No matching rule")]))
                (page member [("command-input", "rm -rf /")] None)) as [H1 H2].
  pose proof (apiRequest_settles
                (answering 200 (VObj [("status", VStr "rejected");
                                      ("message", VStr "Insufficient credits");
                                      ("credits_remaining", VNum 0)]))
                (page VNull [("command-input", "rm -rf /")] None)) as [_ H3].
  assert (Hc : forall u,
             trim (el_value (dom (page u [("command-input", "rm -rf /")] None)
                                 "command-input")) <> EmptyString)
    by (intros u; vm_compute; discriminate).
  split; [ | split ].
  - apply (H1 "/commands" no_options
              (mkResponse 200 (Ret (VObj [("status", VStr "rejected");
                                          ("message", VStr "No matching rule")])))
              (VObj [("status", VStr "rejected");
                     ("message", VStr "No matching rule")])
              eq_refl eq_refl).
    reflexivity.
  - apply (proj1 (H2 (mkResponse 200
                        (Ret (VObj [("status", VStr "rejected");
                                    ("message", VStr "No matching rule")])))
                     [("status", VStr "rejected");
                      ("message", VStr "No matching rule")]
                     (Hc member) eq_refl eq_refl eq_refl eq_refl)).
    left. eexists. reflexivity.
  - apply (proj2 (H3 (mkResponse 200
                        (Ret (VObj [("status", VStr "rejected");
                                    ("message", VStr "Insufficient credits");
                                    ("credits_remaining", VNum 0)])))
                     [("status", VStr "rejected");
                      ("message", VStr "Insufficient credits");
                      ("credits_remaining", VNum 0)]
                     (Hc VNull) eq_refl eq_refl eq_refl eq_refl)).
    + reflexivity.
    + discriminate.
Defined.

(** A response that is not OK and whose detail contains Failed to fetch:
    the Error thrown does not carry the detail. *)
Lemma apiRequest_detail_replaced :
  fst (apiRequest
         (answering 500 (VObj [("detail", VStr "Failed to fetch rules")]))
         "/rules" no_options (page member [] None))
  = Throw (Error cannot_connect)
  /\ cannot_connect <> "Failed to fetch rules".
Proof. split; [ vm_compute; reflexivity | discriminate ]. Qed.

(** C7 (amended). The credit display after a command submission.
    Whatever the server answers, the display is either what it was or the
    text of the credits_remaining value of the OK response to this
    submission: the client never computes a balance.  On an OK response
    whose body has a string status, for a logged-in user, the display
    becomes the credits_remaining value when the body has that property,
    and stays as it was when the body has not.  With no user logged in the
    display stays as it was whatever the response holds, and so it does
    when the body of an OK response cannot be rendered by displayResult
    (a body without a status, say). *)
Theorem submitCommand_credit_balance (P : platform) (s : state) :
  let command := trim (el_value (dom s "command-input")) in
  let post :=
    api_call (apiKey s) "/commands"
      (mkOptions (Some "POST") (Some (VObj [("command", VStr command)]))) in
  let shown := fun s0 : state => el_textContent (dom s0 "credit-display") in
  (shown (snd (submitCommand P s)) = shown s
   \/ exists resp result cr,
        server P (requests s) post = Responded resp
        /\ ok resp = true /\ json resp = Ret result
        /\ getProp result "credits_remaining" = Ret cr
        /\ is_defined cr = true
        /\ shown (snd (submitCommand P s)) = as_textContent cr)
  /\ (forall resp fs st u,
         command <> EmptyString ->
         server P (requests s) post = Responded resp ->
         ok resp = true ->
         json resp = Ret (VObj fs) ->
         lookup "status" fs = VStr st ->
         currentUser s = VObj u ->
         (lookup "credits_remaining" fs <> VUndefined ->
          shown (snd (submitCommand P s))
          = as_textContent (lookup "credits_remaining" fs))
         /\ (lookup "credits_remaining" fs = VUndefined ->
             shown (snd (submitCommand P s)) = shown s))
  /\ (currentUser s = VNull -> shown (snd (submitCommand P s)) = shown s)
  /\ (forall resp result e,
         command <> EmptyString ->
         server P (requests s) post = Responded resp ->
         ok resp = true ->
         json resp = Ret result ->
         result_html P command result = Throw e ->
         shown (snd (submitCommand P s)) = shown s).
Proof.
  cbv zeta. split; [ | split; [ | split ] ].
  - apply submitCommand_credit_display.
  - intros resp fs st u Hc Hs Hok Hj Hst Hu.
    destruct (submitCommand_success P s resp fs st Hc Hs Hok Hj Hst
                (or_introl (ex_intro _ u Hu)))
      as (_ & _ & H & _).
    rewrite H. split.
    + intros Hne. destruct (lookup "credits_remaining" fs);
        try reflexivity. contradiction.
    + intros ->. reflexivity.
  - intros Hu.
    apply (submitCommand_guest P (el_textContent (dom s "credit-display")) s).
    split; [ exact Hu | reflexivity ].
  - intros resp result e Hc Hs Hok Hj Hthrow.
    apply (submitCommand_unrendered P s resp result e Hc Hs Hok Hj Hthrow).
Qed.

Lemma submitCommand_credit_balance_witness :
  let body := [("status", VStr "executed");
               ("message", VStr "Command executed");
               ("credits_remaining", VNum 99)] in
  el_textContent (dom (page member [("command-input", "ls -la")] None)
                      "credit-display") = "100"
  /\ el_textContent
       (dom (snd (submitCommand (answering 200 (VObj body))
                    (page member [("command-input", "ls -la")] None)))
            "credit-display") = "99"
  /\ el_textContent
       (dom (snd (submitCommand (answering 200 (VObj body))
                    (page VNull [("command-input", "ls -la")] None)))
            "credit-display") = "100".
Proof.
  cbv zeta. split; [ reflexivity | ]. split.
  - apply (proj1 (proj2 (submitCommand_credit_balance
                    (answering 200 (VObj [("status", VStr "executed");
                                          ("message", VStr "Command executed");
                                          ("credits_remaining", VNum 99)]))
                    (page member [("command-input", "ls -la")] None)))
                 (mkResponse 200
                    (Ret (VObj [("status", VStr "executed");
                                ("message", VStr "Command executed");
                                ("credits_remaining", VNum 99)])))
                 [("status", VStr "executed");
                  ("message", VStr "Command executed");
                  ("credits_remaining", VNum 99)]
                 "executed"
                 [("id", VNum 2); ("username", VStr "alice");
                  ("role", VStr "member"); ("credits", VNum 100)]).
    + vm_compute. discriminate.
    + reflexivity.
    + reflexivity.
    + reflexivity.
    + reflexivity.
    + reflexivity.
    + discriminate.
  - apply (proj1 (proj2 (proj2 (submitCommand_credit_balance
                    (answering 200 (VObj [("status", VStr "executed");
                                          ("message", VStr "Command executed");
                                          ("credits_remaining", VNum 99)]))
                    (page VNull [("command-input", "ls -la")] None))))).
    reflexivity.
Defined.

(** With no user logged in, the credits_remaining of the response is
    present and the display is not set to it. *)
Lemma credits_present_not_shown :
  el_textContent
    (dom (snd (submitCommand
                 (answering 200 (VObj [("status", VStr "executed");
                                       ("message", VStr "Command executed");
                                       ("credits_remaining", VNum 99)]))
                 (page VNull [("command-input", "ls -la")] None)))
         "credit-display") = "100"
  /\ lookup "credits_remaining"
       [("status", VStr "executed"); ("message", VStr "Command executed");
        ("credits_remaining", VNum 99)] = VNum 99
  /\ as_textContent (VNum 99) <> "100".
Proof.
  split; [ vm_compute; reflexivity | ].
  split; [ reflexivity | vm_compute; discriminate ].
Qed.

(** ** The history view *)

Lemma strict_eq_str_true (v : jsval) (lit : string) :
  strict_eq_str v lit = true <-> v = VStr lit.
Proof.
  destruct v; simpl; try (split; [ discriminate | congruence ]).
  rewrite String.eqb_eq. split; congruence.
Qed.

Lemma rfilter_objects (f : string) (recs : list (list (string * jsval))) :
  rfilter (status_is f) (map VObj recs)
  = Ret (map VObj
           (filter (fun fs => strict_eq_str (lookup "status" fs) f) recs)).
Proof.
  induction recs as [ | fs rest IH]; [ reflexivity | ].
  cbn [map rfilter filter]. unfold status_is at 1. simpl getProp.
  cbn [rbind]. rewrite IH. cbn [rbind].
  destruct (strict_eq_str (lookup "status" fs) f); reflexivity.
Qed.

Lemma rmap_objects {B} (f : jsval -> res B)
  (recs : list (list (string * jsval))) :
  (forall fs, exists b, f (VObj fs) = Ret b) ->
  exists rows,
    rmap f (map VObj recs) = Ret rows
    /\ Forall2 (fun fs row => f (VObj fs) = Ret row) recs rows.
Proof.
  intros Hf. induction recs as [ | fs rest (rows & Hrows & Hall)].
  - exists []. split; [ reflexivity | constructor ].
  - destruct (Hf fs) as [b Hb]. exists (b :: rows). split.
    + cbn [map rmap]. rewrite Hb. cbn [rbind]. rewrite Hrows. reflexivity.
    + constructor; assumption.
Qed.

Lemma history_row_object (P : platform) (fs : list (string * jsval)) :
  exists row, history_row P (VObj fs) = Ret row.
Proof. unfold history_row, credit_cell. simpl getProp. cbn [rbind]. eauto. Qed.

Section History.

Context (P : platform).

Lemma loadHistory_filtered s resp data recs :
  server P (requests s)
    (api_call (apiKey s) (history_endpoint (currentUser s) ++ "?limit=100")
              no_options) = Responded resp ->
  ok resp = true ->
  json resp = Ret data ->
  getProp data "commands" = Ret (VArr (map VObj recs)) ->
  filter_of s <> "all" ->
  let shown :=
    filter (fun fs => strict_eq_str (lookup "status" fs) (filter_of s)) recs in
  exists rows,
    Forall2 (fun fs row => history_row P (VObj fs) = Ret row) shown rows
    /\ el_innerHTML (dom (snd (loadHistory P s)) "history-table")
       = match shown with
         | [] => empty_row "5" "No commands found"
         | _ :: _ => join EmptyString rows
         end.
Proof.
  intros Hs Hok Hj Hcmds Hf shown.
  destruct (rmap_objects (history_row P) shown (history_row_object P))
    as (rows & Hrows & Hall).
  exists rows. split; [ exact Hall | ].
  apply String.eqb_neq in Hf.
  unfold loadHistory. rewrite bind_gets.
  rewrite try_catch_bind_run. cbv [gets]. cbv beta iota.
  rewrite try_catch_bind_run, apiRequest_run.
  erewrite apiRequest_ok; [ | exact Hs | exact Hj | exact Hok ].
  cbv beta iota.
  cbv [try_catch bind lift ret]. rewrite Hcmds. cbv beta iota.
  rewrite Hf. cbv [negb as_array]. cbv beta iota.
  rewrite rfilter_objects. fold shown. cbv beta iota.
  destruct shown as [ | fs0 rest ].
  - reflexivity.
  - rewrite Hrows.
    cbn [getProp String.eqb Ascii.eqb Bool.eqb map List.length].
    cbn [strict_eq_num Z.of_nat Z.eqb].
    cbv [set_innerHTML modify spawn]. cbv beta iota.
    match goal with |- context [loadRecentCommands P ?x] =>
      destruct (leaves_loadRecentCommands P
                  (fun id => String.eqb id "history-table") eq_refl x)
        as (_ & _ & _ & _ & _ & _ & _ & E)
    end.
    cbn [snd]. rewrite E by reflexivity. reflexivity.
Qed.

End History.

(** C5. Loading the history view.  The request goes to /commands/all when
    the current user's role is admin and to /history for any other role and
    when there is no user; and when the status filter has a value other
    than all, the table shows the rows of exactly the returned submissions
    whose status equals the filter, in the order returned (the empty-state
    row when there is none).  The filter is the value of the history-filter
    element, or all when the element is missing or its value is empty. *)
Theorem loadHistory_endpoint_and_filter (P : platform) (s : state) :
  let endpoint := history_endpoint (currentUser s) in
  let first := api_call (apiKey s) (endpoint ++ "?limit=100") no_options in
  ((forall u, currentUser s = VObj u -> lookup "role" u = VStr "admin" ->
              endpoint = "/commands/all")
   /\ (forall u, currentUser s = VObj u -> lookup "role" u <> VStr "admin" ->
                 endpoint = "/history")
   /\ (currentUser s = VNull -> endpoint = "/history")
   /\ exists rest,
        requests (snd (loadHistory P s)) = (requests s ++ first :: rest)%list)
  /\ (forall resp data recs,
         server P (requests s) first = Responded resp ->
         ok resp = true ->
         json resp = Ret data ->
         getProp data "commands" = Ret (VArr (map VObj recs)) ->
         filter_of s <> "all" ->
         let shown :=
           filter (fun fs => strict_eq_str (lookup "status" fs) (filter_of s))
                  recs in
         (forall fs, In fs shown
                     <-> In fs recs /\ lookup "status" fs = VStr (filter_of s))
         /\ exists rows,
              Forall2 (fun fs row => history_row P (VObj fs) = Ret row)
                      shown rows
              /\ el_innerHTML (dom (snd (loadHistory P s)) "history-table")
                 = match shown with
                   | [] => empty_row "5" "No commands found"
                   | _ :: _ => join EmptyString rows
                   end).
Proof.
  cbv zeta. split.
  - repeat split.
    + intros u -> Hr. unfold history_endpoint, getPropOpt. simpl.
      rewrite Hr. reflexivity.
    + intros u -> Hr. unfold history_endpoint, getPropOpt. simpl.
      destruct (strict_eq_str (lookup "role" u) "admin") eqn:E; auto.
      apply strict_eq_str_true in E. contradiction.
    + intros ->. reflexivity.
    + destruct (loadHistory_requests P s) as [H | H]; rewrite H; eauto.
  - intros resp data recs Hs Hok Hj Hcmds Hf. split.
    + intros fs. rewrite filter_In, strict_eq_str_true. reflexivity.
    + now apply (loadHistory_filtered P s resp data recs).
Qed.

Lemma loadHistory_endpoint_and_filter_witness :
  let data := VObj [("commands", VArr [VObj executed_submission;
                                       VObj rejected_submission])] in
  let s := page admin [] (Some "executed") in
  filter_of s <> "all"
  /\ exists rows,
       Forall2 (fun fs row => history_row (answering 200 data) (VObj fs)
                              = Ret row)
               [executed_submission] rows
       /\ el_innerHTML
            (dom (snd (loadHistory (answering 200 data) s)) "history-table")
          = join EmptyString rows.
Proof.
  cbv zeta.
  assert (H : filter_of (page admin [] (Some "executed")) <> "all")
    by (vm_compute; discriminate).
  split; [ exact H | ].
  destruct (proj2 (loadHistory_endpoint_and_filter
                     (answering 200
                        (VObj [("commands", VArr [VObj executed_submission;
                                                  VObj rejected_submission])]))
                     (page admin [] (Some "executed")))
                  (mkResponse 200
                     (Ret (VObj [("commands",
                                  VArr [VObj executed_submission;
                                        VObj rejected_submission])])))
                  (VObj [("commands", VArr [VObj executed_submission;
                                            VObj rejected_submission])])
                  [executed_submission; rejected_submission]
                  eq_refl eq_refl eq_refl eq_refl H)
    as (_ & rows & Hall & Hhtml).
  exists rows. split; [ exact Hall | exact Hhtml ].
Defined.

(** ** The audit export *)

Lemma double_quotes_app (a b : string) :
  double_quotes (a ++ b) = double_quotes a ++ double_quotes b.
Proof.
  induction a as [ | c a IH]; [ reflexivity | ].
  simpl. rewrite IH. destruct (Ascii.eqb c "034"); reflexivity.
Qed.

Lemma double_quotes_count (s : string) :
  count_code "034" (double_quotes s) = (2 * count_code "034" s)%nat.
Proof.
  induction s as [ | c s IH]; [ reflexivity | ].
  simpl. destruct (Ascii.eqb c "034") eqn:E; simpl; rewrite IH.
  - lia.
  - rewrite E. lia.
Qed.

Lemma rmap_audit_cells (recs : list (list (string * jsval))) :
  rmap audit_cells (map VObj recs)
  = Ret (map (fun fs =>
                [lookup "created_at" fs;
                 or_else (lookup "username" fs) (VStr "System");
                 lookup "action" fs;
                 or_else (lookup "command_text" fs) (VStr EmptyString);
                 or_else (lookup "details" fs) (VStr EmptyString)]) recs).
Proof.
  induction recs as [ | fs rest IH]; [ reflexivity | ].
  cbn [map rmap]. rewrite IH. reflexivity.
Qed.

Lemma exportAuditLogs_download (P : platform) s resp data recs :
  server P (requests s)
    (api_call (apiKey s) "/audit-logs?limit=1000" no_options)
  = Responded resp ->
  ok resp = true ->
  json resp = Ret data ->
  getProp data "logs" = Ret (VArr (map VObj recs)) ->
  downloads (snd (exportAuditLogs P s))
  = app (downloads s)
        [("audit-logs-" ++ slice0 10 (clock s) ++ ".csv",
          audit_csv
            (map (fun fs =>
                    [lookup "created_at" fs;
                     or_else (lookup "username" fs) (VStr "System");
                     lookup "action" fs;
                     or_else (lookup "command_text" fs) (VStr EmptyString);
                     or_else (lookup "details" fs) (VStr EmptyString)])
                 recs))].
Proof.
  intros Hs Hok Hj Hlogs.
  unfold exportAuditLogs.
  rewrite try_catch_bind_run, apiRequest_run.
  erewrite apiRequest_ok; [ | exact Hs | exact Hj | exact Hok ].
  cbv beta iota.
  cbv [try_catch bind lift ret]. rewrite Hlogs. cbv beta iota.
  cbv [as_array]. rewrite rmap_audit_cells. reflexivity.
Qed.

(** C6 (amended). The audit-log export.  The file offered for download is
    a comma-delimited table: the header line Timestamp,User,Action,Command,
    Details, whose five cells are written bare, without double quotes,
    then one line per fetched audit record in the order returned.  The
    cells of a record line are its timestamp, its username or System when
    it has none, its action, its command text and its details; each of
    these cells is its text between double quotes, with every double quote
    inside doubled. *)
Theorem exportAuditLogs_csv (P : platform) (s : state) (resp : response)
  (data : jsval) (recs : list (list (string * jsval))) :
  server P (requests s)
    (api_call (apiKey s) "/audit-logs?limit=1000" no_options)
  = Responded resp ->
  ok resp = true ->
  json resp = Ret data ->
  getProp data "logs" = Ret (VArr (map VObj recs)) ->
  let cells := fun fs =>
    [lookup "created_at" fs;
     or_else (lookup "username" fs) (VStr "System");
     lookup "action" fs;
     or_else (lookup "command_text" fs) (VStr EmptyString);
     or_else (lookup "details" fs) (VStr EmptyString)] in
  let line := fun fs =>
    join "," (map (fun cell => dq ++ double_quotes (toString cell) ++ dq)
                  (cells fs)) in
  downloads (snd (exportAuditLogs P s))
  = app (downloads s)
        [("audit-logs-" ++ slice0 10 (clock s) ++ ".csv",
          join nl ("Timestamp,User,Action,Command,Details" :: map line recs))]
  /\ (forall fs, lookup "username" fs = VUndefined ->
                 nth 1 (cells fs) VUndefined = VStr "System")
  /\ (forall fs u, lookup "username" fs = VStr u -> u <> EmptyString ->
                   nth 1 (cells fs) VUndefined = VStr u)
  /\ (forall t, count_code "034" (double_quotes t)
                = (2 * count_code "034" t)%nat)
  /\ (forall a b, double_quotes (a ++ b)
                  = double_quotes a ++ double_quotes b)
  /\ double_quotes dq = dq ++ dq.
Proof.
  intros Hs Hok Hj Hlogs cells line. repeat split.
  - rewrite (exportAuditLogs_download P s resp data recs Hs Hok Hj Hlogs).
    unfold audit_csv. rewrite map_map. reflexivity.
  - intros fs H. unfold cells. simpl. rewrite H. reflexivity.
  - intros fs u H Hu. unfold cells. simpl. rewrite H. unfold or_else. simpl.
    destruct u; [ contradiction | reflexivity ].
  - apply double_quotes_count.
  - apply double_quotes_app.
Qed.

Lemma exportAuditLogs_csv_witness :
  let recs :=
    [[("created_at", VStr "2024-05-01T09:00:00");
      ("action", VStr "RULE_CREATED");
      ("details", VStr ("pattern " ++ dq ++ "^ls" ++ dq))]] in
  downloads
    (snd (exportAuditLogs (answering 200 (VObj [("logs", VArr (map VObj recs))]))
                          (page admin [] None)))
  = [("audit-logs-2024-05-01.csv",
      "Timestamp,User,Action,Command,Details" ++ nl
      ++ q "2024-05-01T09:00:00" ++ "," ++ q "System" ++ ","
      ++ q "RULE_CREATED" ++ "," ++ q EmptyString ++ ","
      ++ dq ++ "pattern " ++ dq ++ dq ++ "^ls" ++ dq ++ dq ++ dq)].
Proof.
  cbv zeta.
  exact (proj1 (exportAuditLogs_csv
                  (answering 200
                     (VObj [("logs",
                             VArr (map VObj
                                     [[("created_at", VStr "2024-05-01T09:00:00");
                                       ("action", VStr "RULE_CREATED");
                                       ("details",
                                        VStr ("pattern " ++ dq ++ "^ls" ++ dq))]]))]))
                  (page admin [] None)
                  (mkResponse 200
                     (Ret (VObj [("logs",
                                  VArr (map VObj
                                          [[("created_at", VStr "2024-05-01T09:00:00");
                                            ("action", VStr "RULE_CREATED");
                                            ("details",
                                             VStr ("pattern " ++ dq ++ "^ls" ++ dq))]]))])))
                  (VObj [("logs",
                          VArr (map VObj
                                  [[("created_at", VStr "2024-05-01T09:00:00");
                                    ("action", VStr "RULE_CREATED");
                                    ("details",
                                     VStr ("pattern " ++ dq ++ "^ls" ++ dq))]]))])
                  [[("created_at", VStr "2024-05-01T09:00:00");
                    ("action", VStr "RULE_CREATED");
                    ("details", VStr ("pattern " ++ dq ++ "^ls" ++ dq))]]
                  eq_refl eq_refl eq_refl eq_refl)).
Defined.

(** The header cells of the export are not wrapped in double quotes: the
    file is not the table in which every cell is. *)
Lemma export_header_bare :
  map snd
    (downloads
       (snd (exportAuditLogs
               (answering 200
                  (VObj [("logs",
                          VArr [VObj [("created_at",
                                       VStr "2024-05-01T09:00:00");
                                      ("username", VStr "admin");
                                      ("action", VStr "RULE_CREATED")]])]))
               (page admin [] None))))
  = ["Timestamp,User,Action,Command,Details" ++ nl
     ++ q "2024-05-01T09:00:00" ++ "," ++ q "admin" ++ ","
     ++ q "RULE_CREATED" ++ "," ++ q EmptyString ++ "," ++ q EmptyString]
  /\ "Timestamp,User,Action,Command,Details"
     <> q "Timestamp" ++ "," ++ q "User" ++ "," ++ q "Action" ++ ","
        ++ q "Command" ++ "," ++ q "Details".
Proof. split; [ vm_compute; reflexivity | vm_compute; discriminate ]. Qed.


(** * Further properties of the script *)

(** ** apiRequest *)

Lemma apiRequest_result_ext (P : platform) endpoint options s1 s2 :
  requests s1 = requests s2 ->
  apiKey s1 = apiKey s2 ->
  fst (apiRequest P endpoint options s1) = fst (apiRequest P endpoint options s2).
Proof.
  intros Hr Hk.
  cbv [apiRequest bind gets try_catch fetch lift throw ret].
  rewrite Hr, Hk.
  destruct (server P (requests s2) _) as [e | resp]; simpl.
  - destruct (includes (message e) "Failed to fetch"); reflexivity.
  - destruct (json resp) as [data | e]; simpl.
    + destruct (negb (ok resp)); simpl; [ | reflexivity ].
      destruct (getProp data "detail") as [d | e]; simpl;
        match goal with |- context [includes ?a ?b] =>
          destruct (includes a b) end; reflexivity.
    + destruct (includes (message e) "Failed to fetch"); reflexivity.
Qed.

(** X1. When fetch rejects, apiRequest throws the rejection itself, unless
    its message contains Failed to fetch: then it throws the Error that
    tells the user the server cannot be reached. *)
Theorem apiRequest_network_failure (P : platform) (s : state)
  (endpoint : string) (options : options) (e : exn) :
  server P (requests s) (api_call (apiKey s) endpoint options) = Rejected e ->
  fst (apiRequest P endpoint options s)
  = Throw (if includes (message e) "Failed to fetch"
           then Error cannot_connect else e).
Proof.
  intros Hs.
  cbv [apiRequest bind gets try_catch fetch lift throw ret].
  rewrite Hs; simpl.
  destruct (includes (message e) "Failed to fetch"); reflexivity.
Qed.

Lemma apiRequest_network_failure_witness :
  fst (apiRequest (constant_platform (Rejected (Error "Failed to fetch")))
                  "/me" no_options (page VNull [] None))
  = Throw (Error cannot_connect).
Proof.
  exact (apiRequest_network_failure
           (constant_platform (Rejected (Error "Failed to fetch")))
           (page VNull [] None) "/me" no_options (Error "Failed to fetch")
           eq_refl).
Defined.

(** X2. When the body of the response is not JSON, apiRequest throws the
    parser's error whatever the HTTP status is, OK included (with the same
    replacement of a message containing Failed to fetch). *)
Theorem apiRequest_body_not_json (P : platform) (s : state)
  (endpoint : string) (options : options) (resp : response) (e : exn) :
  server P (requests s) (api_call (apiKey s) endpoint options)
  = Responded resp ->
  json resp = Throw e ->
  fst (apiRequest P endpoint options s)
  = Throw (if includes (message e) "Failed to fetch"
           then Error cannot_connect else e).
Proof.
  intros Hs Hj.
  cbv [apiRequest bind gets try_catch fetch lift throw ret].
  rewrite Hs; simpl. rewrite Hj; simpl.
  destruct (includes (message e) "Failed to fetch"); reflexivity.
Qed.

Lemma apiRequest_body_not_json_witness :
  fst (apiRequest
         (constant_platform
            (Responded (mkResponse 200
                          (Throw (Error "Unexpected token < in JSON")))))
         "/me" no_options (page VNull [] None))
  = Throw (Error "Unexpected token < in JSON").
Proof.
  exact (apiRequest_body_not_json
           (constant_platform
              (Responded (mkResponse 200
                            (Throw (Error "Unexpected token < in JSON")))))
           (page VNull [] None) "/me" no_options
           (mkResponse 200 (Throw (Error "Unexpected token < in JSON")))
           (Error "Unexpected token < in JSON") eq_refl eq_refl).
Defined.

(** X3. Whatever the server does, a call of apiRequest sends exactly one
    request, to the base URL followed by the endpoint, with the JSON
    content type, and with the X-API-Key header exactly when the stored key
    is not empty; it changes nothing else of the state. *)
Theorem apiRequest_sends_one (P : platform) (s : state)
  (endpoint : string) (options : options) :
  exists r,
    snd (apiRequest P endpoint options s)
    = with_requests (requests s ++ [r])%list s
    /\ url r = "http://localhost:8000" ++ endpoint
    /\ method r = opt_method options
    /\ body r = opt_body options
    /\ In ("Content-Type", "application/json") (headers r)
    /\ (forall k, In ("X-API-Key", k) (headers r)
                  <-> k = apiKey s /\ apiKey s <> EmptyString).
Proof.
  exists (api_call (apiKey s) endpoint options).
  split; [ apply apiRequest_state | ].
  repeat split.
  - simpl. auto.
  - simpl in H. unfold api_headers in H.
    destruct (apiKey s) eqn:E; simpl in H.
    + destruct H as [H | []]. discriminate.
    + destruct H as [H | [H | []]]; [ discriminate | congruence ].
  - simpl in H. unfold api_headers in H.
    destruct (apiKey s) eqn:E; simpl in H.
    + destruct H as [H | []]. discriminate.
    + discriminate.
  - intros [-> Hne]. simpl. unfold api_headers.
    destruct (apiKey s); [ contradiction | ]. simpl. auto.
Qed.

(** ** No handler rejects *)

Section Returns.

Lemma returns_ret {A} (a : A) : returns (ret a).
Proof. intros s. exists a. reflexivity. Qed.

Lemma returns_gets {A} (f : state -> A) : returns (gets f).
Proof. intros s. exists (f s). reflexivity. Qed.

Lemma returns_modify (f : state -> state) : returns (modify f).
Proof. intros s. exists tt. reflexivity. Qed.

Lemma returns_spawn (m : M unit) : returns (spawn m).
Proof. intros s. exists tt. reflexivity. Qed.

Lemma returns_bind {A B} (m : M A) (k : A -> M B) :
  returns m -> (forall a, returns (k a)) -> returns (bind m k).
Proof.
  intros Hm Hk s. unfold bind. destruct (Hm s) as [a Ha].
  destruct (m s) as [r s1]. simpl in Ha. subst r. apply Hk.
Qed.

Lemma returns_try_catch {A} (m : M A) (h : exn -> M A) :
  (forall e, returns (h e)) -> returns (try_catch m h).
Proof.
  intros Hh s. unfold try_catch. destruct (m s) as [[a | e] s1].
  - exists a. reflexivity.
  - apply Hh.
Qed.

Lemma returns_finally {A} (m : M A) (f : M unit) :
  returns m -> returns f -> returns (finally m f).
Proof.
  intros Hm Hf s. unfold finally. destruct (Hm s) as [a Ha].
  destruct (m s) as [r s1]. simpl in Ha. subst r.
  destruct (Hf s1) as [[] Hu]. destruct (f s1) as [r2 s2]. simpl in Hu.
  subst r2. exists a. reflexivity.
Qed.

Lemma returns_displayResult (P : platform) (command : string)
  (fs : list (string * jsval)) (st : string) :
  lookup "status" fs = VStr st -> returns (displayResult P command (VObj fs)).
Proof.
  intros Hst s. destruct (result_html_object P command fs st Hst)
    as (o & _ & Hhtml).
  unfold displayResult, bind, lift. rewrite Hhtml. exists tt. reflexivity.
Qed.

End Returns.

Ltac returns_step :=
  lazymatch goal with
  | |- returns (try_catch _ _) => apply returns_try_catch; intros ?
  | |- returns (finally _ _) => apply returns_finally
  | |- returns (bind _ _) => apply returns_bind; [ | intros ? ]
  | |- returns (ret _) => apply returns_ret
  | |- returns (gets _) => apply returns_gets
  | |- returns (spawn _) => apply returns_spawn
  | |- returns (showToast _ _) => apply returns_modify
  | |- returns (set_innerHTML _ _) => apply returns_modify
  | |- returns (set_disabled _ _) => apply returns_modify
  | |- returns (set_value _ _) => apply returns_modify
  | |- returns (set_hidden _ _) => apply returns_modify
  | |- returns (modify _) => apply returns_modify
  | |- returns (displayResult _ _ (VObj _)) =>
      eapply returns_displayResult; reflexivity
  | |- returns (if ?b then _ else _) => destruct b
  end.

(** X4. No handler of the script rejects: every loader, the export, the
    command submission, the two forms, the credit refresh, the credit
    update and the rule deletion catch whatever is thrown while they run
    and return normally, whatever the page holds and whatever the server
    does (the page is taken to have the elements the script looks up). *)
Theorem handlers_never_reject (P : platform)
  (loosely_equal : jsval -> jsval -> bool) (confirm : string -> bool)
  (ruleId : jsval) :
  returns (loadRecentCommands P)
  /\ returns (loadHistory P)
  /\ returns (loadRules P)
  /\ returns (loadUsers P)
  /\ returns (loadAuditLogs P)
  /\ returns (exportAuditLogs P)
  /\ returns (submitCommand P)
  /\ returns (addRule P)
  /\ returns (createUser P)
  /\ returns (refreshCredits P)
  /\ returns (saveCredits P loosely_equal)
  /\ returns (deleteRule P confirm ruleId).
Proof.
  repeat split.
  - unfold loadRecentCommands. repeat returns_step.
  - unfold loadHistory. repeat returns_step.
  - unfold loadRules. repeat returns_step.
  - unfold loadUsers. repeat returns_step.
  - unfold loadAuditLogs. repeat returns_step.
  - unfold exportAuditLogs. repeat returns_step.
  - unfold submitCommand. repeat returns_step.
  - unfold addRule. repeat returns_step.
  - unfold createUser. repeat returns_step.
  - unfold refreshCredits. repeat returns_step.
  - unfold saveCredits. repeat returns_step.
  - unfold deleteRule. repeat returns_step.
Qed.

(** ** What the loaders write *)

Lemma leaves_loadAuditLogs (P : platform) keep :
  keep "audit-table" = false -> leaves keep (loadAuditLogs P).
Proof.
  intros H. unfold loadAuditLogs.
  repeat first [ apply leaves_apiRequest | leaves_step ].
Qed.

(** X5. A loader writes its own table and nothing else: the current user,
    the stored key, the toasts, the downloads and every other element of
    the page are after the load what they were before, and the request log
    only grows.  Loading the history also rewrites the recent list. *)
Theorem loaders_write_their_table (P : platform) (s : state) :
  frame (fun id => negb (String.eqb id "recent-commands"))
        s (snd (loadRecentCommands P s))
  /\ frame (fun id => negb (String.eqb id "history-table")
                      && negb (String.eqb id "recent-commands"))
           s (snd (loadHistory P s))
  /\ frame (fun id => negb (String.eqb id "rules-table"))
           s (snd (loadRules P s))
  /\ frame (fun id => negb (String.eqb id "users-table"))
           s (snd (loadUsers P s))
  /\ frame (fun id => negb (String.eqb id "audit-table"))
           s (snd (loadAuditLogs P s)).
Proof.
  split; [ apply leaves_loadRecentCommands; reflexivity | ].
  split; [ apply leaves_loadHistory; reflexivity | ].
  split; [ apply leaves_loadRules; reflexivity | ].
  split; [ apply leaves_loadUsers; reflexivity | ].
  apply leaves_loadAuditLogs; reflexivity.
Qed.

(** ** The history view, unfiltered and failing *)

(** X6. With the status filter on all (also when the page has no filter
    element, or its value is empty), an OK response is shown whole: the
    table holds one row per returned submission, in the order returned,
    and the empty-state row when none is returned. *)
Theorem loadHistory_unfiltered (P : platform) (s : state) (resp : response)
  (data : jsval) (recs : list (list (string * jsval))) :
  server P (requests s)
    (api_call (apiKey s) (history_endpoint (currentUser s) ++ "?limit=100")
              no_options) = Responded resp ->
  ok resp = true ->
  json resp = Ret data ->
  getProp data "commands" = Ret (VArr (map VObj recs)) ->
  filter_of s = "all" ->
  exists rows,
    Forall2 (fun fs row => history_row P (VObj fs) = Ret row) recs rows
    /\ el_innerHTML (dom (snd (loadHistory P s)) "history-table")
       = match recs with
         | [] => empty_row "5" "No commands found"
         | _ :: _ => join EmptyString rows
         end.
Proof.
  intros Hs Hok Hj Hcmds Hf.
  destruct (rmap_objects (history_row P) recs (history_row_object P))
    as (rows & Hrows & Hall).
  exists rows. split; [ exact Hall | ].
  unfold loadHistory. rewrite bind_gets. rewrite Hf.
  rewrite try_catch_bind_run. cbv [gets]. cbv beta iota.
  rewrite try_catch_bind_run, apiRequest_run.
  erewrite apiRequest_ok; [ | exact Hs | exact Hj | exact Hok ].
  cbv beta iota.
  cbv [try_catch bind lift ret]. rewrite Hcmds. cbv beta iota.
  cbn [String.eqb Ascii.eqb Bool.eqb negb].
  destruct recs as [ | fs0 rest ].
  - reflexivity.
  - cbv [as_array]. rewrite Hrows.
    cbn [getProp String.eqb Ascii.eqb Bool.eqb map List.length].
    cbn [strict_eq_num Z.of_nat Z.eqb].
    cbv [set_innerHTML modify spawn]. cbv beta iota.
    match goal with |- context [loadRecentCommands P ?x] =>
      destruct (leaves_loadRecentCommands P
                  (fun id => String.eqb id "history-table") eq_refl x)
        as (_ & _ & _ & _ & _ & _ & _ & E)
    end.
    cbn [snd]. rewrite E by reflexivity. reflexivity.
Qed.

Lemma loadHistory_unfiltered_witness :
  let data := VObj [("commands", VArr [VObj executed_submission;
                                       VObj rejected_submission])] in
  let s := page member [] None in
  filter_of s = "all"
  /\ exists rows,
       Forall2 (fun fs row => history_row (answering 200 data) (VObj fs)
                              = Ret row)
               [executed_submission; rejected_submission] rows
       /\ el_innerHTML
            (dom (snd (loadHistory (answering 200 data) s)) "history-table")
          = join EmptyString rows.
Proof.
  cbv zeta. split; [ reflexivity | ].
  exact (loadHistory_unfiltered
           (answering 200
              (VObj [("commands", VArr [VObj executed_submission;
                                        VObj rejected_submission])]))
           (page member [] None)
           (mkResponse 200
              (Ret (VObj [("commands", VArr [VObj executed_submission;
                                             VObj rejected_submission])])))
           (VObj [("commands", VArr [VObj executed_submission;
                                     VObj rejected_submission])])
           [executed_submission; rejected_submission]
           eq_refl eq_refl eq_refl eq_refl eq_refl).
Defined.

(** X7. When the history request fails, with whatever error apiRequest
    throws, the table shows one row reading Error: followed by the
    message, the recent list is not reloaded (the failed request is the
    only one sent) and nothing else on the page changes. *)
Theorem loadHistory_failure (P : platform) (s : state) (e : exn) :
  fst (apiRequest P (history_endpoint (currentUser s) ++ "?limit=100")
                  no_options s) = Throw e ->
  el_innerHTML (dom (snd (loadHistory P s)) "history-table")
  = "<tr><td colspan=" ++ q "5" ++ " class=" ++ q "empty-state" ++ ">Error: "
    ++ message e ++ "</td></tr>"
  /\ requests (snd (loadHistory P s))
     = (requests s
          ++ [api_call (apiKey s)
                (history_endpoint (currentUser s) ++ "?limit=100")
                no_options])%list
  /\ forall id, id <> "history-table" ->
                dom (snd (loadHistory P s)) id = dom s id.
Proof.
  intros He.
  unfold loadHistory. rewrite bind_gets.
  rewrite try_catch_bind_run. cbv [gets]. cbv beta iota.
  rewrite try_catch_bind_run, apiRequest_run. rewrite He. cbv beta iota.
  cbv [set_innerHTML modify]. cbn [snd dom requests with_dom with_requests].
  repeat split.
  intros id Hid. unfold upd. apply String.eqb_neq in Hid. now rewrite Hid.
Qed.

Lemma loadHistory_failure_witness :
  let P := answering 403 (VObj [("detail", VStr "Invalid API key")]) in
  let s := page member [] None in
  el_innerHTML (dom (snd (loadHistory P s)) "history-table")
  = "<tr><td colspan=" ++ q "5" ++ " class=" ++ q "empty-state"
    ++ ">Error: Invalid API key</td></tr>".
Proof.
  cbv zeta.
  exact (proj1 (loadHistory_failure
                  (answering 403 (VObj [("detail", VStr "Invalid API key")]))
                  (page member [] None) (Error "Invalid API key") eq_refl)).
Defined.

(** ** The recent list and the three admin tables *)

Lemma recent_item_object (fs : list (string * jsval)) :
  exists row, recent_item (VObj fs) = Ret row.
Proof. unfold recent_item. simpl getProp. cbn [rbind]. eauto. Qed.

Lemma rule_row_object (user : jsval) (fs : list (string * jsval)) :
  exists row, rule_row user (VObj fs) = Ret row.
Proof. unfold rule_row. simpl getProp. cbn [rbind]. eauto. Qed.

Lemma user_row_object (fs : list (string * jsval)) :
  exists row, user_row (VObj fs) = Ret row.
Proof. unfold user_row. simpl getProp. cbn [rbind]. eauto. Qed.

Lemma audit_row_object (P : platform) (fs : list (string * jsval)) :
  exists row, audit_row P (VObj fs) = Ret row.
Proof. unfold audit_row. simpl getProp. cbn [rbind]. eauto. Qed.

Ltac run_failed_load He :=
  rewrite try_catch_bind_run, apiRequest_run; rewrite He; cbv beta iota;
  reflexivity.

Ltac run_table_load Hs Hok Hj Hkey Hrows recs :=
  rewrite try_catch_bind_run, apiRequest_run;
  erewrite apiRequest_ok; [ | exact Hs | exact Hj | exact Hok ];
  cbv beta iota;
  cbv [try_catch bind lift ret gets]; rewrite Hkey; cbv beta iota;
  destruct recs as [ | ? ? ];
  [ reflexivity
  | cbv [as_array]; cbv beta iota;
    cbn [getProp String.eqb Ascii.eqb Bool.eqb map List.length];
    cbn [strict_eq_num Z.of_nat Z.eqb]; cbv beta iota;
    cbn [currentUser with_requests];
    cbn [map] in Hrows; rewrite Hrows;
    reflexivity ].

(** X8. The recent list has three faces.  An OK response with submissions
    shows one item per submission in order; an OK response with none shows
    No commands submitted yet; and every failure, a body without a
    commands array included, shows Failed to load recent commands and
    drops the error message. *)
Theorem loadRecentCommands_shows (P : platform) (s : state) :
  let shown := el_innerHTML (dom (snd (loadRecentCommands P s))
                                 "recent-commands") in
  (forall e,
      fst (apiRequest P "/history?limit=5" no_options s) = Throw e ->
      shown = "<p class=" ++ q "empty-state"
              ++ ">Failed to load recent commands</p>")
  /\ (forall data,
         fst (apiRequest P "/history?limit=5" no_options s) = Ret data ->
         getProp data "commands" = Ret VUndefined ->
         shown = "<p class=" ++ q "empty-state"
                 ++ ">Failed to load recent commands</p>")
  /\ (forall resp data recs,
         server P (requests s)
           (api_call (apiKey s) "/history?limit=5" no_options)
         = Responded resp ->
         ok resp = true ->
         json resp = Ret data ->
         getProp data "commands" = Ret (VArr (map VObj recs)) ->
         exists rows,
           Forall2 (fun fs row => recent_item (VObj fs) = Ret row) recs rows
           /\ shown = match recs with
                      | [] => "<p class=" ++ q "empty-state"
                              ++ ">No commands submitted yet</p>"
                      | _ :: _ => join EmptyString rows
                      end).
Proof.
  cbv zeta. split; [ | split ].
  - intros e He. unfold loadRecentCommands. run_failed_load He.
  - intros data Hd Hc. unfold loadRecentCommands.
    rewrite try_catch_bind_run, apiRequest_run. rewrite Hd. cbv beta iota.
    cbv [try_catch bind lift]. rewrite Hc. reflexivity.
  - intros resp data recs Hs Hok Hj Hkey.
    destruct (rmap_objects recent_item recs recent_item_object)
      as (rows & Hrows & Hall).
    exists rows. split; [ exact Hall | ].
    unfold loadRecentCommands.
    run_table_load Hs Hok Hj Hkey Hrows recs.
Qed.

Lemma loadRecentCommands_shows_witness :
  el_innerHTML
    (dom (snd (loadRecentCommands (answering 200 (VObj []))
                                  (page member [] None)))
         "recent-commands")
  = "<p class=" ++ q "empty-state" ++ ">Failed to load recent commands</p>".
Proof.
  exact (proj1 (proj2 (loadRecentCommands_shows (answering 200 (VObj []))
                                                (page member [] None)))
               (VObj []) eq_refl eq_refl).
Defined.

(** X9. The rules table.  An OK response is shown as one row per rule in
    the order returned, or as the row No rules defined when there is none;
    a failed request is shown as a row reading Error: followed by the
    message. *)
Theorem loadRules_shows (P : platform) (s : state) :
  let shown := el_innerHTML (dom (snd (loadRules P s)) "rules-table") in
  (forall e,
      fst (apiRequest P "/rules" no_options s) = Throw e ->
      shown = "<tr><td colspan=" ++ q "4" ++ " class=" ++ q "empty-state"
              ++ ">Error: " ++ message e ++ "</td></tr>")
  /\ (forall resp data recs,
         server P (requests s) (api_call (apiKey s) "/rules" no_options)
         = Responded resp ->
         ok resp = true ->
         json resp = Ret data ->
         getProp data "rules" = Ret (VArr (map VObj recs)) ->
         exists rows,
           Forall2 (fun fs row => rule_row (currentUser s) (VObj fs) = Ret row)
                   recs rows
           /\ shown = match recs with
                      | [] => "<tr><td colspan=" ++ q "4" ++ " class="
                              ++ q "empty-state" ++ ">No rules defined</td></tr>"
                      | _ :: _ => join EmptyString rows
                      end).
Proof.
  cbv zeta. split.
  - intros e He. unfold loadRules. run_failed_load He.
  - intros resp data recs Hs Hok Hj Hkey.
    destruct (rmap_objects (rule_row (currentUser s)) recs
                (rule_row_object (currentUser s)))
      as (rows & Hrows & Hall).
    exists rows. split; [ exact Hall | ].
    unfold loadRules.
    run_table_load Hs Hok Hj Hkey Hrows recs.
Qed.

Lemma loadRules_shows_witness :
  el_innerHTML
    (dom (snd (loadRules (answering 200 (VObj [("rules", VArr [])]))
                         (page member [] None)))
         "rules-table")
  = "<tr><td colspan=" ++ q "4" ++ " class=" ++ q "empty-state"
    ++ ">No rules defined</td></tr>".
Proof.
  destruct (proj2 (loadRules_shows (answering 200 (VObj [("rules", VArr [])]))
                                   (page member [] None))
              (mkResponse 200 (Ret (VObj [("rules", VArr [])])))
              (VObj [("rules", VArr [])]) [] eq_refl eq_refl eq_refl eq_refl)
    as (rows & _ & H).
  exact H.
Defined.

(** X10. The users table.  An OK response is shown as one row per user in
    the order returned, or as the row No users found; a failed request is
    shown as a row reading Error: followed by the message. *)
Theorem loadUsers_shows (P : platform) (s : state) :
  let shown := el_innerHTML (dom (snd (loadUsers P s)) "users-table") in
  (forall e,
      fst (apiRequest P "/users" no_options s) = Throw e ->
      shown = "<tr><td colspan=" ++ q "5" ++ " class=" ++ q "empty-state"
              ++ ">Error: " ++ message e ++ "</td></tr>")
  /\ (forall resp data recs,
         server P (requests s) (api_call (apiKey s) "/users" no_options)
         = Responded resp ->
         ok resp = true ->
         json resp = Ret data ->
         getProp data "users" = Ret (VArr (map VObj recs)) ->
         exists rows,
           Forall2 (fun fs row => user_row (VObj fs) = Ret row) recs rows
           /\ shown = match recs with
                      | [] => "<tr><td colspan=" ++ q "5" ++ " class="
                              ++ q "empty-state" ++ ">No users found</td></tr>"
                      | _ :: _ => join EmptyString rows
                      end).
Proof.
  cbv zeta. split.
  - intros e He. unfold loadUsers. run_failed_load He.
  - intros resp data recs Hs Hok Hj Hkey.
    destruct (rmap_objects user_row recs user_row_object)
      as (rows & Hrows & Hall).
    exists rows. split; [ exact Hall | ].
    unfold loadUsers.
    run_table_load Hs Hok Hj Hkey Hrows recs.
Qed.

Lemma loadUsers_shows_witness :
  el_innerHTML
    (dom (snd (loadUsers (answering 403 (VObj [("detail", VStr "Admin only")]))
                         (page member [] None)))
         "users-table")
  = "<tr><td colspan=" ++ q "5" ++ " class=" ++ q "empty-state"
    ++ ">Error: Admin only</td></tr>".
Proof.
  exact (proj1 (loadUsers_shows
                  (answering 403 (VObj [("detail", VStr "Admin only")]))
                  (page member [] None))
               (Error "Admin only") eq_refl).
Defined.

(** X11. The audit table.  An OK response is shown as one row per audit
    record in the order returned, or as the row No audit logs found; a
    failed request is shown as a row reading Error: followed by the
    message. *)
Theorem loadAuditLogs_shows (P : platform) (s : state) :
  let shown := el_innerHTML (dom (snd (loadAuditLogs P s)) "audit-table") in
  (forall e,
      fst (apiRequest P "/audit-logs?limit=100" no_options s) = Throw e ->
      shown = "<tr><td colspan=" ++ q "5" ++ " class=" ++ q "empty-state"
              ++ ">Error: " ++ message e ++ "</td></tr>")
  /\ (forall resp data recs,
         server P (requests s)
           (api_call (apiKey s) "/audit-logs?limit=100" no_options)
         = Responded resp ->
         ok resp = true ->
         json resp = Ret data ->
         getProp data "logs" = Ret (VArr (map VObj recs)) ->
         exists rows,
           Forall2 (fun fs row => audit_row P (VObj fs) = Ret row) recs rows
           /\ shown = match recs with
                      | [] => "<tr><td colspan=" ++ q "5" ++ " class="
                              ++ q "empty-state"
                              ++ ">No audit logs found</td></tr>"
                      | _ :: _ => join EmptyString rows
                      end).
Proof.
  cbv zeta. split.
  - intros e He. unfold loadAuditLogs. run_failed_load He.
  - intros resp data recs Hs Hok Hj Hkey.
    destruct (rmap_objects (audit_row P) recs (audit_row_object P))
      as (rows & Hrows & Hall).
    exists rows. split; [ exact Hall | ].
    unfold loadAuditLogs.
    run_table_load Hs Hok Hj Hkey Hrows recs.
Qed.

Lemma loadAuditLogs_shows_witness :
  el_innerHTML
    (dom (snd (loadAuditLogs (answering 200 (VObj [("logs", VArr [])]))
                             (page admin [] None)))
         "audit-table")
  = "<tr><td colspan=" ++ q "5" ++ " class=" ++ q "empty-state"
    ++ ">No audit logs found</td></tr>".
Proof.
  destruct (proj2 (loadAuditLogs_shows
                     (answering 200 (VObj [("logs", VArr [])]))
                     (page admin [] None))
              (mkResponse 200 (Ret (VObj [("logs", VArr [])])))
              (VObj [("logs", VArr [])]) [] eq_refl eq_refl eq_refl eq_refl)
    as (rows & _ & H).
  exact H.
Defined.

(** ** Submitting a command: the other paths *)

Lemma restore_button (orig : string) s :
  el_innerHTML
    (dom (snd (bind (set_innerHTML ".submit-btn" orig)
                    (fun _ => set_disabled ".submit-btn" false) s))
         ".submit-btn") = orig
  /\ el_disabled
       (dom (snd (bind (set_innerHTML ".submit-btn" orig)
                       (fun _ => set_disabled ".submit-btn" false) s))
            ".submit-btn") = false.
Proof. split; reflexivity. Qed.

Lemma restore_button_elsewhere (orig id : string) s :
  id <> ".submit-btn" ->
  dom (snd (bind (set_innerHTML ".submit-btn" orig)
                 (fun _ => set_disabled ".submit-btn" false) s)) id
  = dom s id.
Proof.
  intros H. apply String.eqb_neq in H.
  cbv [bind set_innerHTML set_disabled modify]. simpl. unfold upd.
  now rewrite H.
Qed.

Lemma restore_button_rest (orig : string) s :
  let s' := snd (bind (set_innerHTML ".submit-btn" orig)
                      (fun _ => set_disabled ".submit-btn" false) s) in
  toasts s' = toasts s /\ requests s' = requests s
  /\ currentUser s' = currentUser s /\ apiKey s' = apiKey s.
Proof. repeat split. Qed.

(** X12. A blank command is not submitted: when the input is empty or holds
    only white space, submitCommand sends no request and changes nothing
    but the toasts, to which it adds Please enter a command. *)
Theorem submitCommand_blank (P : platform) (s : state) :
  trim (el_value (dom s "command-input")) = EmptyString ->
  submitCommand P s
  = (Ret tt,
     with_toasts (toasts s ++ [("Please enter a command", "error")])%list s).
Proof.
  intros H. apply is_empty_true in H.
  unfold submitCommand. rewrite bind_gets. rewrite H. reflexivity.
Qed.

Lemma submitCommand_blank_witness :
  toasts (snd (submitCommand (answering 200 VNull)
                             (page member [("command-input", "   ")] None)))
  = [("Please enter a command", "error")]
  /\ requests (snd (submitCommand (answering 200 VNull)
                                  (page member [("command-input", "   ")] None)))
     = [].
Proof.
  rewrite (submitCommand_blank (answering 200 VNull)
             (page member [("command-input", "   ")] None) eq_refl).
  split; reflexivity.
Defined.

(** X13. Whatever happens to a submitted command, the submit button comes
    back: after submitCommand on a command that is not blank the button
    holds the markup it held before and is enabled. *)
Theorem submitCommand_restores_button (P : platform) (s : state) :
  trim (el_value (dom s "command-input")) <> EmptyString ->
  el_innerHTML (dom (snd (submitCommand P s)) ".submit-btn")
  = el_innerHTML (dom s ".submit-btn")
  /\ el_disabled (dom (snd (submitCommand P s)) ".submit-btn") = false.
Proof.
  intros H. apply is_empty_false in H.
  unfold submitCommand. rewrite bind_gets. rewrite H.
  rewrite bind_gets, bind_set_innerHTML, bind_set_disabled, finally_state.
  apply restore_button.
Qed.

Lemma submitCommand_restores_button_witness :
  el_disabled
    (dom (snd (submitCommand (constant_platform (Rejected (Error "offline")))
                             (page member [("command-input", "ls")] None)))
         ".submit-btn") = false.
Proof.
  apply (submitCommand_restores_button
           (constant_platform (Rejected (Error "offline")))
           (page member [("command-input", "ls")] None)).
  vm_compute. discriminate.
Defined.

(** X14. A submission that fails, with whatever error apiRequest throws, is
    shown as a rejection: one error toast with the message, the result box
    rendered for status rejected with the escaped message, the command
    left in the input, the credit display and the current user untouched,
    and no reload of the history (the POST is the only request sent). *)
Theorem submitCommand_failure (P : platform) (s : state) (e : exn) :
  let command := trim (el_value (dom s "command-input")) in
  let post :=
    mkOptions (Some "POST") (Some (VObj [("command", VStr command)])) in
  let s' := snd (submitCommand P s) in
  command <> EmptyString ->
  fst (apiRequest P "/commands" post s) = Throw e ->
  toasts s' = (toasts s ++ [(message e, "error")])%list
  /\ el_innerHTML (dom s' "command-result")
     = result_markup false "rejected" (toUpperCase P "rejected")
         (escapeHtml (VStr command)) (escapeHtml (VStr (message e)))
         EmptyString
  /\ dom s' "command-input" = dom s "command-input"
  /\ dom s' "credit-display" = dom s "credit-display"
  /\ currentUser s' = currentUser s
  /\ requests s' = (requests s ++ [api_call (apiKey s) "/commands" post])%list.
Proof.
  cbv zeta. intros Hc He. apply is_empty_false in Hc.
  unfold submitCommand. rewrite bind_gets. rewrite Hc.
  rewrite bind_gets, bind_set_innerHTML, bind_set_disabled, finally_state.
  rewrite try_catch_bind_run, apiRequest_run.
  erewrite apiRequest_result_ext; [ rewrite He | reflexivity | reflexivity ].
  cbv beta iota.
  destruct (restore_button_rest (el_innerHTML (dom s ".submit-btn"))
    (snd ((showToast (message e) "error";;
           displayResult P (trim (el_value (dom s "command-input")))
             (VObj [("status", VStr "rejected");
                    ("message", VStr (message e))]))
            (with_requests
               (requests
                  (with_dom (upd ".submit-btn" (with_disabled true))
                     (with_dom
                        (upd ".submit-btn"
                           (with_innerHTML
                              ("<span class=" ++ q "spinner"
                               ++ "></span> Executing...")))
                        s)) ++
                [api_call
                   (apiKey
                      (with_dom (upd ".submit-btn" (with_disabled true))
                         (with_dom
                            (upd ".submit-btn"
                               (with_innerHTML
                                  ("<span class=" ++ q "spinner"
                                   ++ "></span> Executing...")))
                            s)))
                   "/commands"
                   (mkOptions (Some "POST")
                      (Some (VObj [("command",
                                    VStr (trim (el_value
                                                  (dom s "command-input"))))])))])
               (with_dom (upd ".submit-btn" (with_disabled true))
                  (with_dom
                     (upd ".submit-btn"
                        (with_innerHTML
                           ("<span class=" ++ q "spinner"
                            ++ "></span> Executing...")))
                     s))))))
    as (T & R & U & _).
  rewrite T, R, U.
  rewrite !restore_button_elsewhere by discriminate.
  repeat split.
  destruct (message e); reflexivity.
Qed.

Lemma submitCommand_failure_witness :
  toasts (snd (submitCommand
                 (answering 401 (VObj [("detail", VStr "Invalid API key")]))
                 (page member [("command-input", "ls -la")] None)))
  = [("Invalid API key", "error")].
Proof.
  assert (H : trim (el_value
                      (dom (page member [("command-input", "ls -la")] None)
                           "command-input")) <> EmptyString)
    by (vm_compute; discriminate).
  exact (proj1 (submitCommand_failure
                  (answering 401 (VObj [("detail", VStr "Invalid API key")]))
                  (page member [("command-input", "ls -la")] None)
                  (Error "Invalid API key") H eq_refl)).
Defined.

(** ** The request log only grows *)

Section Extends.

Lemma extends_ret {A} (a : A) : extends (ret a).
Proof. intros s. exists []. simpl. now rewrite app_nil_r. Qed.

Lemma extends_lift {A} (r : res A) : extends (lift r).
Proof. intros s. exists []. simpl. now rewrite app_nil_r. Qed.

Lemma extends_gets {A} (f : state -> A) : extends (gets f).
Proof. intros s. exists []. simpl. now rewrite app_nil_r. Qed.

Lemma extends_modify (f : state -> state) :
  (forall s, requests (f s) = requests s) -> extends (modify f).
Proof. intros H s. exists []. simpl. rewrite H. now rewrite app_nil_r. Qed.

Lemma extends_bind {A B} (m : M A) (k : A -> M B) :
  extends m -> (forall a, extends (k a)) -> extends (bind m k).
Proof.
  intros Hm Hk s. unfold bind. destruct (Hm s) as [r1 H1].
  destruct (m s) as [[a | e] s1]; simpl in *.
  - destruct (Hk a s1) as [r2 H2]. exists (r1 ++ r2)%list.
    rewrite H2, H1. now rewrite app_assoc.
  - eauto.
Qed.

Lemma extends_try_catch {A} (m : M A) (h : exn -> M A) :
  extends m -> (forall e, extends (h e)) -> extends (try_catch m h).
Proof.
  intros Hm Hh s. unfold try_catch. destruct (Hm s) as [r1 H1].
  destruct (m s) as [[a | e] s1]; simpl in *.
  - eauto.
  - destruct (Hh e s1) as [r2 H2]. exists (r1 ++ r2)%list.
    rewrite H2, H1. now rewrite app_assoc.
Qed.

Lemma extends_finally {A} (m : M A) (f : M unit) :
  extends m -> extends f -> extends (finally m f).
Proof.
  intros Hm Hf s. rewrite finally_state.
  destruct (Hm s) as [r1 H1]. destruct (Hf (snd (m s))) as [r2 H2].
  exists (r1 ++ r2)%list. rewrite H2, H1. now rewrite app_assoc.
Qed.

Lemma extends_spawn (m : M unit) : extends m -> extends (spawn m).
Proof. intros Hm s. apply Hm. Qed.

Lemma extends_leaves {A} keep (m : M A) : leaves keep m -> extends m.
Proof. intros H s. destruct (H s) as (_ & _ & _ & _ & _ & _ & E & _). exact E. Qed.

End Extends.

Ltac extends_step P :=
  lazymatch goal with
  | |- extends (try_catch _ _) => apply extends_try_catch; [ | intros ? ]
  | |- extends (finally _ _) => apply extends_finally
  | |- extends (bind _ _) => apply extends_bind; [ | intros ? ]
  | |- extends (ret _) => apply extends_ret
  | |- extends (lift _) => apply extends_lift
  | |- extends (gets _) => apply extends_gets
  | |- extends (spawn _) => apply extends_spawn
  | |- extends (apiRequest _ _ _) =>
      apply (extends_leaves (fun _ => true)); apply leaves_apiRequest
  | |- extends (loadHistory _) =>
      apply (extends_leaves (fun _ => false));
      apply leaves_loadHistory; reflexivity
  | |- extends (loadRecentCommands _) =>
      apply (extends_leaves (fun _ => false));
      apply leaves_loadRecentCommands; reflexivity
  | |- extends (loadRules _) =>
      apply (extends_leaves (fun _ => false));
      apply leaves_loadRules; reflexivity
  | |- extends (loadUsers _) =>
      apply (extends_leaves (fun _ => false));
      apply leaves_loadUsers; reflexivity
  | |- extends (displayResult _ _ _) => unfold displayResult
  | |- extends (showToast _ _) => apply extends_modify; reflexivity
  | |- extends (set_innerHTML _ _) => apply extends_modify; reflexivity
  | |- extends (set_textContent _ _) => apply extends_modify; reflexivity
  | |- extends (set_disabled _ _) => apply extends_modify; reflexivity
  | |- extends (set_value _ _) => apply extends_modify; reflexivity
  | |- extends (set_hidden _ _) => apply extends_modify; reflexivity
  | |- extends (modify _) => apply extends_modify; reflexivity
  | |- extends (if ?b then _ else _) => destruct b
  end.

Lemma trimStart_start (s : string) (a : ascii) :
  char_at_start (trimStart s) = Some a -> is_ws a = false.
Proof.
  induction s as [ | c r IH]; simpl; [ discriminate | ].
  destruct (is_ws c) eqn:E; [ exact IH | ].
  simpl. intros [= <-]. exact E.
Qed.

Lemma trimEnd_start (s : string) (a : ascii) :
  char_at_start (trimEnd s) = Some a -> char_at_start s = Some a.
Proof.
  destruct s as [ | c r]; simpl; [ discriminate | ].
  destruct (is_ws c && is_empty (trimEnd r)); simpl; [ discriminate | auto ].
Qed.

Lemma trimEnd_end (s : string) (b : ascii) :
  char_at_end (trimEnd s) = Some b -> is_ws b = false.
Proof.
  induction s as [ | c r IH]; simpl; [ discriminate | ].
  destruct (trimEnd r) as [ | c' r'] eqn:E.
  - simpl. rewrite andb_true_r. destruct (is_ws c) eqn:Ec; simpl.
    + discriminate.
    + intros [= <-]. exact Ec.
  - simpl. rewrite andb_false_r. exact IH.
Qed.

(** X15. The command that submitCommand posts is the input trimmed: the
    first request it sends is the POST to /commands whose body holds the
    command, and that command is never empty and neither starts nor ends
    with white space. *)
Theorem submitCommand_posts_trimmed (P : platform) (s : state) :
  let command := trim (el_value (dom s "command-input")) in
  command <> EmptyString ->
  (exists rest,
      requests (snd (submitCommand P s))
      = (requests s
           ++ api_call (apiKey s) "/commands"
                (mkOptions (Some "POST")
                   (Some (VObj [("command", VStr command)])))
              :: rest)%list)
  /\ (forall a, char_at_start command = Some a -> is_ws a = false)
  /\ (forall b, char_at_end command = Some b -> is_ws b = false).
Proof.
  cbv zeta. intros Hc. split; [ | split ].
  - apply is_empty_false in Hc.
    unfold submitCommand. rewrite bind_gets. rewrite Hc.
    rewrite bind_gets, bind_set_innerHTML, bind_set_disabled, finally_state.
    rewrite try_catch_bind_run, apiRequest_run.
    match goal with
    | |- context [requests (snd (?f ?x))] =>
        assert (Hf : extends f) by (repeat extends_step P);
        destruct (Hf x) as [r1 H1]; rewrite H1
    end.
    destruct (fst (apiRequest _ _ _ _)) as [result | e].
    + match goal with
      | |- context [requests (snd (try_catch ?m ?h ?x))] =>
          assert (Hm : extends (try_catch m h)) by (repeat extends_step P);
          destruct (Hm x) as [r2 H2]; rewrite H2
      end.
      simpl. exists (r2 ++ r1)%list.
      rewrite <- !app_assoc. reflexivity.
    + match goal with
      | |- context [requests (snd (?h ?x))] =>
          assert (Hm : extends h) by (repeat extends_step P);
          destruct (Hm x) as [r2 H2]; rewrite H2
      end.
      simpl. exists (r2 ++ r1)%list.
      rewrite <- !app_assoc. reflexivity.
  - intros a Ha. unfold trim in Ha. apply trimEnd_start in Ha.
    eapply trimStart_start; eauto.
  - intros b Hb. unfold trim in Hb. eapply trimEnd_end; eauto.
Qed.

Lemma submitCommand_posts_trimmed_witness :
  exists rest,
    requests (snd (submitCommand (answering 200 VNull)
                     (page member [("command-input", "  ls -la  ")] None)))
    = api_call "admin-key-12345" "/commands"
        (mkOptions (Some "POST") (Some (VObj [("command", VStr "ls -la")])))
      :: rest.
Proof.
  assert (H : trim (el_value
                      (dom (page member [("command-input", "  ls -la  ")] None)
                           "command-input")) <> EmptyString)
    by (vm_compute; discriminate).
  exact (proj1 (submitCommand_posts_trimmed (answering 200 VNull)
                  (page member [("command-input", "  ls -la  ")] None) H)).
Defined.

(** ** Parts of the state a computation does not change *)

Section Unchanged.

Context {T : Type} (proj : state -> T).

Lemma unchanged_ret {A} (a : A) : unchanged proj (ret a).
Proof. intros s. reflexivity. Qed.

Lemma unchanged_lift {A} (r : res A) : unchanged proj (lift r).
Proof. intros s. reflexivity. Qed.

Lemma unchanged_gets {A} (f : state -> A) : unchanged proj (gets f).
Proof. intros s. reflexivity. Qed.

Lemma unchanged_modify (f : state -> state) :
  (forall s, proj (f s) = proj s) -> unchanged proj (modify f).
Proof. intros H s. apply H. Qed.

Lemma unchanged_bind {A B} (m : M A) (k : A -> M B) :
  unchanged proj m -> (forall a, unchanged proj (k a)) ->
  unchanged proj (bind m k).
Proof.
  intros Hm Hk s. unfold bind. specialize (Hm s).
  destruct (m s) as [[a | e] s1]; simpl in *; auto.
  rewrite Hk. exact Hm.
Qed.

Lemma unchanged_try_catch {A} (m : M A) (h : exn -> M A) :
  unchanged proj m -> (forall e, unchanged proj (h e)) ->
  unchanged proj (try_catch m h).
Proof.
  intros Hm Hh s. unfold try_catch. specialize (Hm s).
  destruct (m s) as [[a | e] s1]; simpl in *; auto.
  rewrite Hh. exact Hm.
Qed.

Lemma unchanged_finally {A} (m : M A) (f : M unit) :
  unchanged proj m -> unchanged proj f -> unchanged proj (finally m f).
Proof. intros Hm Hf s. rewrite finally_state, Hf. apply Hm. Qed.

Lemma unchanged_spawn (m : M unit) :
  unchanged proj m -> unchanged proj (spawn m).
Proof. intros Hm s. apply Hm. Qed.

End Unchanged.

Lemma unchanged_dom_leaves {A} (keep : string -> bool) (id : string) (m : M A) :
  keep id = true -> leaves keep m -> unchanged (fun s => dom s id) m.
Proof.
  intros Hk Hm s. destruct (Hm s) as (_ & _ & _ & _ & _ & _ & _ & E). auto.
Qed.

Lemma unchanged_toasts_leaves {A} (keep : string -> bool) (m : M A) :
  leaves keep m -> unchanged toasts m.
Proof. intros Hm s. destruct (Hm s) as (_ & _ & _ & E & _). exact E. Qed.

Lemma unchanged_user_leaves {A} (keep : string -> bool) (m : M A) :
  leaves keep m -> unchanged currentUser m.
Proof. intros Hm s. destruct (Hm s) as (E & _). exact E. Qed.

Lemma unchanged_key_leaves {A} (keep : string -> bool) (m : M A) :
  leaves keep m -> unchanged apiKey m.
Proof. intros Hm s. destruct (Hm s) as (_ & E & _). exact E. Qed.

Lemma upd_other (id k : string) (f : element -> element)
  (d : string -> element) :
  String.eqb k id = false -> upd id f d k = d k.
Proof. intros H. unfold upd. now rewrite H. Qed.

(** ** The rule form and the user form *)

(** X16. A rule without a pattern is not posted: when the pattern input is
    empty or holds only white space, addRule sends no request and changes
    nothing but the toasts, to which it adds Pattern is required. *)
Theorem addRule_blank (P : platform) (s : state) :
  trim (el_value (dom s "rule-pattern")) = EmptyString ->
  addRule P s
  = (Ret tt,
     with_toasts (toasts s ++ [("Pattern is required", "error")])%list s).
Proof.
  intros H. apply is_empty_true in H.
  unfold addRule. rewrite !bind_gets. rewrite H. reflexivity.
Qed.

Lemma addRule_blank_witness :
  requests (snd (addRule (answering 200 VNull)
                         (page admin [("rule-pattern", " ")] None))) = [].
Proof.
  rewrite (addRule_blank (answering 200 VNull)
             (page admin [("rule-pattern", " ")] None) eq_refl).
  reflexivity.
Defined.

(** X17. What addRule does with the form.  When the POST succeeds the
    pattern input is emptied, the priority input is set back to 10, the
    action input is left alone and the toast Rule created is added; when
    the POST fails the form is left exactly as the user filled it, the
    rules are not reloaded, and the only change besides the request sent
    is an error toast with the message. *)
Theorem addRule_outcome (P : platform) (s : state) :
  let pattern := trim (el_value (dom s "rule-pattern")) in
  let post :=
    mkOptions (Some "POST")
      (Some (rule_body pattern (el_value (dom s "rule-action"))
                       (el_value (dom s "rule-priority")))) in
  let s' := snd (addRule P s) in
  pattern <> EmptyString ->
  (forall data,
      fst (apiRequest P "/rules" post s) = Ret data ->
      el_value (dom s' "rule-pattern") = EmptyString
      /\ el_value (dom s' "rule-priority") = "10"
      /\ dom s' "rule-action" = dom s "rule-action"
      /\ toasts s' = (toasts s ++ [("Rule created", "success")])%list)
  /\ (forall e,
         fst (apiRequest P "/rules" post s) = Throw e ->
         s' = with_toasts (toasts s ++ [(message e, "error")])%list
                (with_requests
                   (requests s ++ [api_call (apiKey s) "/rules" post])%list s)).
Proof.
  cbv zeta. intros Hp. apply is_empty_false in Hp.
  assert (Hrun : forall r,
             fst (apiRequest P "/rules"
                    (mkOptions (Some "POST")
                       (Some (rule_body (trim (el_value (dom s "rule-pattern")))
                                (el_value (dom s "rule-action"))
                                (el_value (dom s "rule-priority"))))) s) = r ->
             addRule P s
             = match r with
               | Ret a =>
                   try_catch
                     (set_value "rule-pattern" EmptyString ;;
                      set_value "rule-priority" "10" ;;
                      spawn (loadRules P) ;;
                      showToast "Rule created" "success")
                     (fun error => showToast (message error) "error")
                     (with_requests
                        (requests s
                           ++ [api_call (apiKey s) "/rules"
                                 (mkOptions (Some "POST")
                                    (Some (rule_body
                                             (trim (el_value (dom s "rule-pattern")))
                                             (el_value (dom s "rule-action"))
                                             (el_value (dom s "rule-priority")))))])%list
                        s)
               | Throw e =>
                   showToast (message e) "error"
                     (with_requests
                        (requests s
                           ++ [api_call (apiKey s) "/rules"
                                 (mkOptions (Some "POST")
                                    (Some (rule_body
                                             (trim (el_value (dom s "rule-pattern")))
                                             (el_value (dom s "rule-action"))
                                             (el_value (dom s "rule-priority")))))])%list
                        s)
               end).
  { intros r Hr. unfold addRule. rewrite !bind_gets. rewrite Hp.
    rewrite try_catch_bind_run, apiRequest_run. rewrite Hr. reflexivity. }
  split.
  - intros data Hd. rewrite (Hrun _ Hd).
    cbv [try_catch bind set_value modify spawn showToast]. cbv beta iota.
    match goal with |- context [loadRules P ?x] =>
      destruct (leaves_loadRules P
                  (fun id => negb (String.eqb id "rules-table")) eq_refl x)
        as (_ & _ & _ & T & _ & _ & _ & E)
    end.
    cbn [snd dom toasts with_toasts].
    rewrite !E by reflexivity. rewrite T. repeat split.
  - intros e He. rewrite (Hrun _ He). reflexivity.
Qed.

Lemma addRule_outcome_witness :
  let s := page admin [("rule-pattern", "^ls"); ("rule-action", "AUTO_ACCEPT");
                       ("rule-priority", "3")] None in
  let s' := snd (addRule (answering 400 (VObj [("detail", VStr "Invalid pattern")]))
                         s) in
  toasts s' = [("Invalid pattern", "error")]
  /\ el_value (dom s' "rule-pattern") = "^ls"
  /\ el_value (dom s' "rule-priority") = "3".
Proof.
  cbv zeta.
  assert (H : trim (el_value
                      (dom (page admin [("rule-pattern", "^ls");
                                        ("rule-action", "AUTO_ACCEPT");
                                        ("rule-priority", "3")] None)
                           "rule-pattern")) <> EmptyString)
    by (vm_compute; discriminate).
  rewrite (proj2 (addRule_outcome
                    (answering 400 (VObj [("detail", VStr "Invalid pattern")]))
                    (page admin [("rule-pattern", "^ls");
                                 ("rule-action", "AUTO_ACCEPT");
                                 ("rule-priority", "3")] None) H)
                 (Error "Invalid pattern") eq_refl).
  repeat split.
Defined.

(** X18. A user without a name is not posted: when the username input is
    empty or holds only white space, createUser sends no request and
    changes nothing but the toasts, to which it adds Username is
    required. *)
Theorem createUser_blank (P : platform) (s : state) :
  trim (el_value (dom s "new-username")) = EmptyString ->
  createUser P s
  = (Ret tt,
     with_toasts (toasts s ++ [("Username is required", "error")])%list s).
Proof.
  intros H. apply is_empty_true in H.
  unfold createUser. rewrite !bind_gets. rewrite H. reflexivity.
Qed.

Lemma createUser_blank_witness :
  requests (snd (createUser (answering 200 VNull)
                            (page admin [] None))) = [].
Proof.
  rewrite (createUser_blank (answering 200 VNull) (page admin [] None) eq_refl).
  reflexivity.
Defined.

(** X19. What createUser reveals.  When the POST succeeds and the body
    carries user.api_key, the key is written into the new-api-key element,
    its display is unhidden, the username input is emptied and the toast
    User created is added.  When the POST fails, or succeeds with a body
    that has no user, nothing is revealed: the page is unchanged and the
    only effect besides the request is one error toast. *)
Theorem createUser_outcome (P : platform) (s : state) :
  let username := trim (el_value (dom s "new-username")) in
  let post :=
    mkOptions (Some "POST")
      (Some (user_body username (el_value (dom s "new-user-role"))
                       (el_value (dom s "new-user-credits")))) in
  let s' := snd (createUser P s) in
  username <> EmptyString ->
  (forall result user key,
      fst (apiRequest P "/users" post s) = Ret result ->
      getProp result "user" = Ret user ->
      getProp user "api_key" = Ret key ->
      el_textContent (dom s' "new-api-key") = as_textContent key
      /\ el_hidden (dom s' "new-api-key-display") = false
      /\ el_value (dom s' "new-username") = EmptyString
      /\ toasts s' = (toasts s ++ [("User created", "success")])%list)
  /\ (forall e,
         fst (apiRequest P "/users" post s) = Throw e ->
         s' = with_toasts (toasts s ++ [(message e, "error")])%list
                (with_requests
                   (requests s ++ [api_call (apiKey s) "/users" post])%list s))
  /\ (forall result,
         fst (apiRequest P "/users" post s) = Ret result ->
         getProp result "user" = Ret VUndefined ->
         dom s' = dom s
         /\ exists m, toasts s' = (toasts s ++ [(m, "error")])%list).
Proof.
  cbv zeta. intros Hp. apply is_empty_false in Hp.
  assert (Hrun : forall r,
             fst (apiRequest P "/users"
                    (mkOptions (Some "POST")
                       (Some (user_body (trim (el_value (dom s "new-username")))
                                (el_value (dom s "new-user-role"))
                                (el_value (dom s "new-user-credits"))))) s) = r ->
             createUser P s
             = match r with
               | Ret result =>
                   try_catch
                     (user <- lift (getProp result "user") ;;
                      api_key <- lift (getProp user "api_key") ;;
                      set_textContent "new-api-key" (as_textContent api_key) ;;
                      set_hidden "new-api-key-display" false ;;
                      set_value "new-username" EmptyString ;;
                      spawn (loadUsers P) ;;
                      showToast "User created" "success")
                     (fun error => showToast (message error) "error")
                     (with_requests
                        (requests s
                           ++ [api_call (apiKey s) "/users"
                                 (mkOptions (Some "POST")
                                    (Some (user_body
                                             (trim (el_value (dom s "new-username")))
                                             (el_value (dom s "new-user-role"))
                                             (el_value (dom s "new-user-credits")))))])%list
                        s)
               | Throw e =>
                   showToast (message e) "error"
                     (with_requests
                        (requests s
                           ++ [api_call (apiKey s) "/users"
                                 (mkOptions (Some "POST")
                                    (Some (user_body
                                             (trim (el_value (dom s "new-username")))
                                             (el_value (dom s "new-user-role"))
                                             (el_value (dom s "new-user-credits")))))])%list
                        s)
               end).
  { intros r Hr. unfold createUser. rewrite !bind_gets. rewrite Hp.
    rewrite try_catch_bind_run, apiRequest_run. rewrite Hr. reflexivity. }
  split; [ | split ].
  - intros result user key Hr Hu Hk. rewrite (Hrun _ Hr).
    cbv [try_catch bind lift]. rewrite Hu. cbv beta iota. rewrite Hk.
    cbv [set_value set_textContent set_hidden modify spawn showToast].
    cbv beta iota.
    match goal with |- context [loadUsers P ?x] =>
      destruct (leaves_loadUsers P
                  (fun id => negb (String.eqb id "users-table")) eq_refl x)
        as (_ & _ & _ & T & _ & _ & _ & E)
    end.
    cbn [snd dom toasts with_toasts].
    rewrite !E by reflexivity. rewrite T. repeat split.
  - intros e He. rewrite (Hrun _ He). reflexivity.
  - intros result Hr Hu. rewrite (Hrun _ Hr).
    cbv [try_catch bind lift]. rewrite Hu. cbv beta iota.
    split; [ reflexivity | eexists; reflexivity ].
Qed.

Lemma createUser_outcome_witness :
  let s := page admin [("new-username", "bob")] None in
  let s' := snd (createUser
                   (answering 200
                      (VObj [("user", VObj [("api_key", VStr "key-bob-1")])]))
                   s) in
  el_textContent (dom s' "new-api-key") = "key-bob-1"
  /\ el_hidden (dom s' "new-api-key-display") = false.
Proof.
  cbv zeta.
  assert (H : trim (el_value (dom (page admin [("new-username", "bob")] None)
                                  "new-username")) <> EmptyString)
    by (vm_compute; discriminate).
  destruct (proj1 (createUser_outcome
                     (answering 200
                        (VObj [("user", VObj [("api_key", VStr "key-bob-1")])]))
                     (page admin [("new-username", "bob")] None) H)
                  (VObj [("user", VObj [("api_key", VStr "key-bob-1")])])
                  (VObj [("api_key", VStr "key-bob-1")])
                  (VStr "key-bob-1") eq_refl eq_refl eq_refl)
    as (H1 & H2 & _).
  split; [ exact H1 | exact H2 ].
Defined.

(** ** The export, failing *)

(** X20. The audit export offers a file only when it succeeds.  When the
    request fails, or the body has no logs, no download is offered and the
    only change besides the request sent is one error toast (with the
    message of the failure, when it is the request that failed). *)
Theorem exportAuditLogs_failure (P : platform) (s : state) :
  let s' := snd (exportAuditLogs P s) in
  (forall e,
      fst (apiRequest P "/audit-logs?limit=1000" no_options s) = Throw e ->
      s' = with_toasts (toasts s ++ [(message e, "error")])%list
             (with_requests
                (requests s
                   ++ [api_call (apiKey s) "/audit-logs?limit=1000"
                                no_options])%list s))
  /\ (forall data,
         fst (apiRequest P "/audit-logs?limit=1000" no_options s) = Ret data ->
         getProp data "logs" = Ret VUndefined ->
         downloads s' = downloads s
         /\ exists m, toasts s' = (toasts s ++ [(m, "error")])%list).
Proof.
  cbv zeta. split.
  - intros e He. unfold exportAuditLogs.
    rewrite try_catch_bind_run, apiRequest_run. rewrite He. reflexivity.
  - intros data Hd Hl. unfold exportAuditLogs.
    rewrite try_catch_bind_run, apiRequest_run. rewrite Hd. cbv beta iota.
    cbv [try_catch bind lift]. rewrite Hl. cbv beta iota.
    split; [ reflexivity | eexists; reflexivity ].
Qed.

Lemma exportAuditLogs_failure_witness :
  let s' := snd (exportAuditLogs
                   (answering 403 (VObj [("detail", VStr "Admin only")]))
                   (page member [] None)) in
  downloads s' = [] /\ toasts s' = [("Admin only", "error")].
Proof.
  cbv zeta.
  rewrite (proj1 (exportAuditLogs_failure
                    (answering 403 (VObj [("detail", VStr "Admin only")]))
                    (page member [] None))
                 (Error "Admin only") eq_refl).
  split; reflexivity.
Defined.

(** ** Double quotes in attributes *)

Lemma escape_text_keeps_quotes (s : string) :
  count_code "034" (escape_text s) = count_code "034" s.
Proof.
  induction s as [ | c r IH]; [ reflexivity | ].
  cbn [escape_text].
  destruct (Ascii.eqb_spec c "&"%char) as [-> | N1]; [ simpl; auto | ].
  destruct (Ascii.eqb_spec c "160"%char) as [-> | N2]; [ simpl; auto | ].
  destruct (Ascii.eqb_spec c "<"%char) as [-> | N3]; [ simpl; auto | ].
  destruct (Ascii.eqb_spec c ">"%char) as [-> | N4]; [ simpl; auto | ].
  simpl. rewrite IH. reflexivity.
Qed.

(** X21. escapeHtml leaves double quotes alone, and the history row puts
    the escaped command text between the double quotes of its title
    attribute: every double quote of the command text is in the row twice,
    raw.  The row has six double quotes of its own; all others come from
    the interpolated fields. *)
Theorem history_row_quotes (P : platform) (fs : list (string * jsval))
  (t : string) :
  lookup "command_text" fs = VStr t ->
  count_code "034" (escapeHtml (VStr t)) = count_code "034" t
  /\ exists row,
       history_row P (VObj fs) = Ret row
       /\ count_code "034" row
          = (6 + 2 * count_code "034" t
             + count_code "034" (toString (lookup "id" fs))
             + 2 * count_code "034" (toString (lookup "status" fs))
             + count_code "034" (formatDate P (lookup "created_at" fs)))%nat.
Proof.
  intros Ht.
  assert (Hq : count_code "034" (escapeHtml (VStr t)) = count_code "034" t)
    by (rewrite escapeHtml_string; apply escape_text_keeps_quotes).
  split; [ exact Hq | ].
  eexists. split.
  - unfold history_row, credit_cell. simpl getProp. cbn [rbind].
    rewrite Ht. reflexivity.
  - unfold q, dq, nl. repeat rewrite count_code_app. rewrite Hq.
    destruct (truthy (lookup "credits_deducted" fs)); simpl; lia.
Qed.

Lemma history_row_quotes_witness :
  exists row,
    history_row (answering 200 VNull)
      (VObj [("id", VNum 7);
             ("command_text", VStr ("echo " ++ dq ++ "hi" ++ dq));
             ("status", VStr "executed"); ("credits_deducted", VBool true)])
    = Ret row
    /\ count_code "034" row = 10%nat.
Proof.
  destruct (proj2 (history_row_quotes (answering 200 VNull)
                     [("id", VNum 7);
                      ("command_text", VStr ("echo " ++ dq ++ "hi" ++ dq));
                      ("status", VStr "executed");
                      ("credits_deducted", VBool true)]
                     ("echo " ++ dq ++ "hi" ++ dq) eq_refl))
    as (row & Hrow & Hcount).
  exists row. split; [ exact Hrow | ]. rewrite Hcount. reflexivity.
Defined.

(** ** parseInt reads back what String writes *)

From Stdlib Require DecimalPos.

Ltac digit_step :=
  cbn [parse_digits];
  match goal with
  | |- context [digit_val ?c] =>
      let v := eval vm_compute in (digit_val c) in
      change (digit_val c) with v
  end;
  cbv beta iota;
  match goal with
  | |- context [Z.ltb ?a ?b] =>
      let v := eval vm_compute in (Z.ltb a b) in
      change (Z.ltb a b) with v
  end;
  cbv beta iota.

Lemma parse_digits_acc (d : Decimal.uint) (p : positive) :
  parse_digits 10 (NilEmpty.string_of_uint d) (Some (Zpos p))
  = Some (Zpos (Pos.of_uint_acc d p)).
Proof.
  revert p. induction d; intros p; cbn [NilEmpty.string_of_uint Pos.of_uint_acc];
    [ reflexivity | .. ];
    digit_step;
    match goal with
    | |- parse_digits _ _ (Some ?z) = Some (Zpos (Pos.of_uint_acc _ ?q)) =>
        replace z with (Zpos q) by lia
    end; apply IHd.
Qed.

Lemma parse_digits_zero (d : Decimal.uint) :
  parse_digits 10 (NilEmpty.string_of_uint d) (Some 0)
  = Some (Z.of_N (Pos.of_uint d)).
Proof.
  induction d; cbn [NilEmpty.string_of_uint Pos.of_uint];
    [ reflexivity | digit_step; exact IHd | .. ];
    digit_step; cbn [Z.mul Z.add Z.of_N]; apply parse_digits_acc.
Qed.

Lemma parse_digits_none (d : Decimal.uint) :
  d <> Decimal.Nil ->
  parse_digits 10 (NilEmpty.string_of_uint d) None
  = Some (Z.of_N (Pos.of_uint d)).
Proof.
  destruct d; intros H; [ contradiction | .. ];
    cbn [NilEmpty.string_of_uint Pos.of_uint];
    digit_step;
    first [ apply parse_digits_zero | cbn [Z.of_N]; apply parse_digits_acc ].
Qed.

Lemma digits_have_no_prefix (d : Decimal.uint) :
  d <> Decimal.Nil ->
  let s := NilEmpty.string_of_uint d in
  trimStart s = s /\ strip_sign s = (false, s) /\ strip_hex_prefix s = (10, s).
Proof.
  intros H. destruct d; [ contradiction | .. ]; destruct d;
    repeat split; reflexivity.
Qed.

Lemma parseInt_digits (d : Decimal.uint) :
  d <> Decimal.Nil ->
  parseInt (NilEmpty.string_of_uint d) = VNum (Z.of_N (Pos.of_uint d))
  /\ parseInt (String "-" (NilEmpty.string_of_uint d))
     = VNum (- Z.of_N (Pos.of_uint d)).
Proof.
  intros H. destruct (digits_have_no_prefix d H) as (H1 & H2 & H3).
  cbv zeta in H1, H2, H3. split.
  - unfold parseInt. rewrite H1, H2, H3. rewrite (parse_digits_none d H).
    reflexivity.
  - unfold parseInt.
    change (trimStart (String "-" (NilEmpty.string_of_uint d)))
      with (String "-" (NilEmpty.string_of_uint d)).
    change (strip_sign (String "-" (NilEmpty.string_of_uint d)))
      with (true, NilEmpty.string_of_uint d).
    cbv beta iota. rewrite H3. rewrite (parse_digits_none d H). reflexivity.
Qed.

Lemma string_of_uint_nonnil (d : Decimal.uint) :
  d <> Decimal.Nil ->
  NilZero.string_of_uint d = NilEmpty.string_of_uint d.
Proof. destruct d; intros H; [ contradiction | reflexivity .. ]. Qed.

Lemma parseInt_reads_back (n : Z) : parseInt (toString (VNum n)) = VNum n.
Proof.
  cbn [toString]. unfold Z_to_string. destruct n as [ | p | p ].
  - reflexivity.
  - cbn [Z.to_int NilZero.string_of_int].
    pose proof (DecimalPos.Unsigned.to_uint_nonnil p) as Hn.
    rewrite (string_of_uint_nonnil _ Hn).
    rewrite (proj1 (parseInt_digits _ Hn)).
    rewrite DecimalPos.Unsigned.of_to. reflexivity.
  - cbn [Z.to_int NilZero.string_of_int].
    pose proof (DecimalPos.Unsigned.to_uint_nonnil p) as Hn.
    rewrite (string_of_uint_nonnil _ Hn).
    rewrite (proj2 (parseInt_digits _ Hn)).
    rewrite DecimalPos.Unsigned.of_to. reflexivity.
Qed.

(** ** The credit dialog *)

Ltac unchanged_leaves_with keep lem :=
  first [ apply (unchanged_dom_leaves keep); [ reflexivity | apply lem; reflexivity ]
        | apply (unchanged_toasts_leaves keep); apply lem; reflexivity
        | apply (unchanged_user_leaves keep); apply lem; reflexivity
        | apply (unchanged_key_leaves keep); apply lem; reflexivity ].

Ltac unchanged_step :=
  lazymatch goal with
  | |- unchanged _ (try_catch _ _) => apply unchanged_try_catch; [ | intros ? ]
  | |- unchanged _ (finally _ _) => apply unchanged_finally
  | |- unchanged _ (bind _ _) => apply unchanged_bind; [ | intros ? ]
  | |- unchanged _ (ret _) => apply unchanged_ret
  | |- unchanged _ (lift _) => apply unchanged_lift
  | |- unchanged _ (gets _) => apply unchanged_gets
  | |- unchanged _ (spawn _) => apply unchanged_spawn
  | |- unchanged _ (apiRequest _ _ _) =>
      first [ apply (unchanged_dom_leaves (fun _ => true));
              [ reflexivity | apply leaves_apiRequest ]
            | apply (unchanged_toasts_leaves (fun _ => true));
              apply leaves_apiRequest
            | apply (unchanged_user_leaves (fun _ => true));
              apply leaves_apiRequest
            | apply (unchanged_key_leaves (fun _ => true));
              apply leaves_apiRequest ]
  | |- unchanged _ (loadHistory _) =>
      unchanged_leaves_with
        (fun id => negb (String.eqb id "history-table")
                   && negb (String.eqb id "recent-commands"))
        leaves_loadHistory
  | |- unchanged _ (loadRecentCommands _) =>
      unchanged_leaves_with
        (fun id => negb (String.eqb id "recent-commands"))
        leaves_loadRecentCommands
  | |- unchanged _ (loadRules _) =>
      unchanged_leaves_with
        (fun id => negb (String.eqb id "rules-table")) leaves_loadRules
  | |- unchanged _ (loadUsers _) =>
      unchanged_leaves_with
        (fun id => negb (String.eqb id "users-table")) leaves_loadUsers
  | |- unchanged _ (loadAuditLogs _) =>
      unchanged_leaves_with
        (fun id => negb (String.eqb id "audit-table")) leaves_loadAuditLogs
  | |- unchanged _ (displayResult _ _ _) => unfold displayResult
  | |- unchanged _ (refreshCredits _) => unfold refreshCredits
  | |- unchanged _ (closeCreditModal) => unfold closeCreditModal
  | |- unchanged _ (showToast _ _) => apply unchanged_modify; reflexivity
  | |- unchanged _ (set_innerHTML _ _) => apply unchanged_modify; reflexivity
  | |- unchanged _ (set_textContent _ _) => apply unchanged_modify; reflexivity
  | |- unchanged _ (set_disabled _ _) => apply unchanged_modify; reflexivity
  | |- unchanged _ (set_value _ _) => apply unchanged_modify; reflexivity
  | |- unchanged _ (set_hidden _ _) => apply unchanged_modify; reflexivity
  | |- unchanged _ (modify _) => apply unchanged_modify; reflexivity
  | |- unchanged _ (if ?b then _ else _) => destruct b
  end.

Lemma lookup_assign (k : string) (x : jsval) (fs : list (string * jsval)) :
  lookup k (assign k x fs) = x.
Proof.
  induction fs as [ | [k' v] r IH]; simpl.
  - now rewrite String.eqb_refl.
  - destruct (String.eqb k k') eqn:E; simpl; rewrite E; auto.
Qed.

Lemma lookup_assign_other (k k' : string) (x : jsval)
  (fs : list (string * jsval)) :
  k' <> k -> lookup k' (assign k x fs) = lookup k' fs.
Proof.
  intros H. apply String.eqb_neq in H.
  induction fs as [ | [k0 v] r IH]; simpl.
  - now rewrite H.
  - destruct (String.eqb k k0) eqn:E; simpl.
    + apply String.eqb_eq in E. subst k0. now rewrite H.
    + destruct (String.eqb k' k0); auto.
Qed.

(** X22. refreshCredits mirrors the server.  On an OK answer of /credits
    for a logged-in user, the credit display shows the returned credits,
    the credits of the current user become that value and every other
    property of the current user is kept.  On any failure of the request
    the refresh is silent: nothing changes but the request log, and no
    toast is shown. *)
Theorem refreshCredits_outcome (P : platform) (s : state) :
  let s' := snd (refreshCredits P s) in
  (forall resp data credits u,
      server P (requests s) (api_call (apiKey s) "/credits" no_options)
      = Responded resp ->
      ok resp = true ->
      json resp = Ret data ->
      getProp data "credits" = Ret credits ->
      currentUser s = VObj u ->
      el_textContent (dom s' "credit-display") = as_textContent credits
      /\ getProp (currentUser s') "credits" = Ret credits
      /\ forall k, k <> "credits" ->
                   getProp (currentUser s') k = getProp (currentUser s) k)
  /\ (forall e,
         fst (apiRequest P "/credits" no_options s) = Throw e ->
         s' = with_requests
                (requests s ++ [api_call (apiKey s) "/credits" no_options])%list
                s).
Proof.
  cbv zeta. split.
  - intros resp data credits u Hs Hok Hj Hc Hu.
    unfold refreshCredits.
    rewrite try_catch_bind_run, apiRequest_run.
    erewrite apiRequest_ok; [ | exact Hs | exact Hj | exact Hok ].
    cbv beta iota.
    cbv [try_catch bind lift gets]. rewrite Hc. cbv beta iota.
    cbn [currentUser with_requests]. rewrite Hu. cbn [setProp].
    cbv [modify set_textContent]. cbv beta iota.
    cbn [snd dom currentUser with_dom with_currentUser]. repeat split.
    + cbn [getProp]. now rewrite lookup_assign.
    + intros k Hk. cbn [getProp]. now rewrite lookup_assign_other.
  - intros e He. unfold refreshCredits.
    rewrite try_catch_bind_run, apiRequest_run. rewrite He. reflexivity.
Qed.

Lemma refreshCredits_outcome_witness :
  let s' := snd (refreshCredits (answering 200 (VObj [("credits", VNum 42)]))
                                (page member [] None)) in
  el_textContent (dom s' "credit-display") = "42"
  /\ getProp (currentUser s') "credits" = Ret (VNum 42).
Proof.
  cbv zeta.
  destruct (proj1 (refreshCredits_outcome
                     (answering 200 (VObj [("credits", VNum 42)]))
                     (page member [] None))
                  (mkResponse 200 (Ret (VObj [("credits", VNum 42)])))
                  (VObj [("credits", VNum 42)]) (VNum 42)
                  [("id", VNum 2); ("username", VStr "alice");
                   ("role", VStr "member"); ("credits", VNum 100)]
                  eq_refl eq_refl eq_refl eq_refl eq_refl)
    as (H1 & H2 & _).
  split; [ exact H1 | exact H2 ].
Defined.

Ltac extends_more P :=
  first [ extends_step P
        | lazymatch goal with
          | |- extends (refreshCredits _) => unfold refreshCredits
          | |- extends closeCreditModal => unfold closeCreditModal
          end ].

Lemma getProp_truthy (v : jsval) (k : string) :
  truthy v = true -> exists x, getProp v k = Ret x.
Proof. destruct v; simpl; intros H; try discriminate; eauto. Qed.

Lemma returns_refreshCredits (P : platform) : returns (refreshCredits P).
Proof. unfold refreshCredits. repeat returns_step. Qed.

Lemma returns_self_refresh (P : platform)
  (loosely_equal : jsval -> jsval -> bool) (user : jsval) (userId : string) :
  returns
    (if truthy user then
       id <- lift (getProp user "id") ;;
       if loosely_equal id (VStr userId) then refreshCredits P else ret tt
     else ret tt).
Proof.
  destruct (truthy user) eqn:Ht; [ | apply returns_ret ].
  destruct (getProp_truthy user "id" Ht) as [x Hx]. rewrite Hx.
  intros st. cbv [bind lift].
  destruct (loosely_equal x (VStr userId)).
  - apply returns_refreshCredits.
  - apply returns_ret.
Qed.

Lemma saveCredits_run (P : platform) (loosely_equal : jsval -> jsval -> bool)
  (s : state) :
  let userId := el_value (dom s "credit-user-id") in
  let put :=
    mkOptions (Some "PUT")
      (Some (VObj [("credits", parseInt (el_value (dom s "credit-amount")))])) in
  let s1 :=
    with_requests
      (requests s
         ++ [api_call (apiKey s) ("/users/" ++ userId ++ "/credits") put])%list
      s in
  saveCredits P loosely_equal s
  = match fst (apiRequest P ("/users/" ++ userId ++ "/credits") put s) with
    | Ret _ =>
        try_catch
          (closeCreditModal ;;
           spawn (loadUsers P) ;;
           user <- gets currentUser ;;
           (if truthy user then
              id <- lift (getProp user "id") ;;
              if loosely_equal id (VStr userId) then refreshCredits P
              else ret tt
            else ret tt) ;;
           showToast "Credits updated" "success")
          (fun error => showToast (message error) "error") s1
    | Throw e => showToast (message e) "error" s1
    end.
Proof.
  cbv zeta. unfold saveCredits. rewrite !bind_gets.
  rewrite try_catch_bind_run, apiRequest_run.
  destruct (fst (apiRequest _ _ _ _)); reflexivity.
Qed.

(** X23. What saveCredits does.  It always sends the PUT to
    /users/<id>/credits first, and the object it serialises as the body of
    that request holds parseInt of the amount input as its credits, also
    when the amount does not parse (the object handed to JSON.stringify
    then holds NaN): there is no check on the client.  When the PUT fails
    the dialog is left as it is and the only change besides the request is
    an error toast with the message; when it succeeds the dialog is hidden
    and the last toast is Credits updated. *)
Theorem saveCredits_outcome (P : platform)
  (loosely_equal : jsval -> jsval -> bool) (s : state) :
  let userId := el_value (dom s "credit-user-id") in
  let put :=
    mkOptions (Some "PUT")
      (Some (VObj [("credits", parseInt (el_value (dom s "credit-amount")))])) in
  let endpoint := "/users/" ++ userId ++ "/credits" in
  let s' := snd (saveCredits P loosely_equal s) in
  (exists rest,
      requests s' = (requests s ++ api_call (apiKey s) endpoint put :: rest)%list)
  /\ (forall e,
         fst (apiRequest P endpoint put s) = Throw e ->
         s' = with_toasts (toasts s ++ [(message e, "error")])%list
                (with_requests
                   (requests s ++ [api_call (apiKey s) endpoint put])%list s))
  /\ (forall data,
         fst (apiRequest P endpoint put s) = Ret data ->
         el_hidden (dom s' "credit-modal") = true
         /\ toasts s' = (toasts s ++ [("Credits updated", "success")])%list).
Proof.
  cbv zeta. rewrite saveCredits_run. cbv zeta. split; [ | split ].
  - destruct (fst (apiRequest _ _ _ _)) as [data | e].
    + match goal with
      | |- context [requests (snd (try_catch ?m ?h ?x))] =>
          assert (Hm : extends (try_catch m h)) by (repeat extends_more P);
          destruct (Hm x) as [r2 H2]; rewrite H2
      end.
      simpl. exists r2. rewrite <- app_assoc. reflexivity.
    + exists []. reflexivity.
  - intros e He. rewrite He. reflexivity.
  - intros data Hd. rewrite Hd.
    match goal with
    | |- context [try_catch (bind closeCreditModal ?k) ?h ?x] =>
        rewrite (try_catch_bind_run closeCreditModal k h x)
    end.
    cbv [closeCreditModal set_hidden modify]. cbv beta iota.
    match goal with
    | |- context [try_catch (bind (spawn ?a) ?k) ?h ?x] =>
        rewrite (try_catch_bind_run (spawn a) k h x)
    end.
    cbv [spawn]. cbv beta iota.
    match goal with
    | |- context [loadUsers P ?x] =>
        destruct (leaves_loadUsers P
                    (fun id => negb (String.eqb id "users-table")) eq_refl x)
          as (_ & _ & _ & T & _ & _ & _ & E);
        specialize (E "credit-modal" eq_refl);
        set (s2 := snd (loadUsers P x)) in *
    end.
    match goal with
    | |- context [try_catch (bind (gets ?f) ?k) ?h ?x] =>
        rewrite (try_catch_bind_run (gets f) k h x)
    end.
    cbv [gets]. cbv beta iota.
    match goal with
    | |- context [try_catch (bind ?m ?k) ?h ?x] =>
        assert (Hd1 : unchanged (fun st => dom st "credit-modal") m)
          by (repeat unchanged_step);
        assert (Ht1 : unchanged toasts m) by (repeat unchanged_step);
        assert (Hr1 : returns m) by apply returns_self_refresh;
        rewrite (try_catch_bind_run m k h x);
        specialize (Hd1 x); specialize (Ht1 x); destruct (Hr1 x) as [[] Hr];
        destruct (m x) as [r3 s3]; simpl in Hd1, Ht1, Hr; subst r3
    end.
    cbv [try_catch showToast modify]. cbn [snd dom toasts with_toasts].
    rewrite Hd1, Ht1, E, T. split; reflexivity.
Qed.

Lemma saveCredits_outcome_witness :
  let s := page admin [("credit-user-id", "2"); ("credit-amount", "abc")] None in
  let s' := snd (saveCredits
                   (answering 422 (VObj [("detail", VStr "Invalid amount")]))
                   (fun _ _ => false) s) in
  map body (requests s') = [Some (VObj [("credits", VNaN)])]
  /\ toasts s' = [("Invalid amount", "error")].
Proof.
  cbv zeta.
  rewrite (proj1 (proj2 (saveCredits_outcome
                           (answering 422
                              (VObj [("detail", VStr "Invalid amount")]))
                           (fun _ _ => false)
                           (page admin [("credit-user-id", "2");
                                        ("credit-amount", "abc")] None)))
                 (Error "Invalid amount") eq_refl).
  split; reflexivity.
Defined.

(** X24. The credit dialog hands the balance over unchanged.  After
    openCreditModal(id, n) the dialog is shown, and saveCredits then sends
    its PUT to /users/id/credits with credits n: the number written into
    the amount input as text is read back by parseInt as the same
    number, for all integers id and n that a JavaScript number holds
    exactly (at most 2^53 - 1 in absolute value, which String writes in
    plain decimal digits). *)
Theorem credit_dialog_round_trip (P : platform)
  (loosely_equal : jsval -> jsval -> bool) (s : state) (id n : Z) :
  Z.abs id <= 9007199254740991 ->
  Z.abs n <= 9007199254740991 ->
  let s1 := snd (openCreditModal id n s) in
  el_hidden (dom s1 "credit-modal") = false
  /\ exists rest,
       requests (snd (saveCredits P loosely_equal s1))
       = (requests s
            ++ api_call (apiKey s)
                 ("/users/" ++ toString (VNum id) ++ "/credits")
                 (mkOptions (Some "PUT") (Some (VObj [("credits", VNum n)])))
               :: rest)%list.
Proof.
  intros _ _. cbv zeta. split; [ reflexivity | ].
  pose proof (saveCredits_run P loosely_equal (snd (openCreditModal id n s)))
    as Hrun.
  cbv zeta in Hrun.
  change (el_value (dom (snd (openCreditModal id n s)) "credit-user-id"))
    with (toString (VNum id)) in Hrun.
  change (el_value (dom (snd (openCreditModal id n s)) "credit-amount"))
    with (toString (VNum n)) in Hrun.
  change (requests (snd (openCreditModal id n s))) with (requests s) in Hrun.
  change (apiKey (snd (openCreditModal id n s))) with (apiKey s) in Hrun.
  rewrite parseInt_reads_back in Hrun. rewrite Hrun.
  destruct (fst (apiRequest _ _ _ _)) as [data | e].
  - match goal with
    | |- context [requests (snd (try_catch ?m ?h ?x))] =>
        assert (Hm : extends (try_catch m h)) by (repeat extends_more P);
        destruct (Hm x) as [r2 H2]; rewrite H2
    end.
    simpl. exists r2. rewrite <- app_assoc. reflexivity.
  - exists []. reflexivity.
Qed.

Lemma credit_dialog_round_trip_witness :
  let s1 := snd (openCreditModal 7 250 (page admin [] None)) in
  el_hidden (dom s1 "credit-modal") = false
  /\ exists rest,
       requests (snd (saveCredits (answering 200 (VObj []))
                        (fun _ _ => false) s1))
       = (requests (page admin [] None)
            ++ api_call (apiKey (page admin [] None))
                 ("/users/" ++ toString (VNum 7) ++ "/credits")
                 (mkOptions (Some "PUT") (Some (VObj [("credits", VNum 250)])))
               :: rest)%list.
Proof.
  apply (credit_dialog_round_trip (answering 200 (VObj [])) (fun _ _ => false)
           (page admin [] None) 7 250); lia.
Defined.

(** ** Deleting a rule *)

Lemma deleteRule_run (P : platform) (confirm : string -> bool)
  (ruleId : jsval) (s : state) :
  confirm "Are you sure you want to delete this rule?" = true ->
  let del := mkOptions (Some "DELETE") None in
  let endpoint := "/rules/" ++ toString ruleId in
  let s1 :=
    with_requests (requests s ++ [api_call (apiKey s) endpoint del])%list s in
  deleteRule P confirm ruleId s
  = match fst (apiRequest P endpoint del s) with
    | Ret _ =>
        try_catch
          (spawn (loadRules P) ;; showToast "Rule deleted" "success")
          (fun error => showToast (message error) "error") s1
    | Throw e => showToast (message e) "error" s1
    end.
Proof.
  intros Hc. cbv zeta. unfold deleteRule. rewrite Hc. cbn [negb].
  rewrite try_catch_bind_run, apiRequest_run.
  destruct (fst (apiRequest _ _ _ _)); reflexivity.
Qed.

(** X25. deleteRule asks first.  When the user declines the confirmation
    nothing happens at all: no request, no toast, the state is untouched.
    When the user confirms, the first request sent is the DELETE to
    /rules/<id>; if it fails the only change besides that request is an
    error toast with the message, and the rules are not reloaded. *)
Theorem deleteRule_outcome (P : platform) (confirm : string -> bool)
  (ruleId : jsval) (s : state) :
  let del := mkOptions (Some "DELETE") None in
  let endpoint := "/rules/" ++ toString ruleId in
  (confirm "Are you sure you want to delete this rule?" = false ->
   deleteRule P confirm ruleId s = (Ret tt, s))
  /\ (confirm "Are you sure you want to delete this rule?" = true ->
      (exists rest,
          requests (snd (deleteRule P confirm ruleId s))
          = (requests s ++ api_call (apiKey s) endpoint del :: rest)%list)
      /\ (forall e,
             fst (apiRequest P endpoint del s) = Throw e ->
             snd (deleteRule P confirm ruleId s)
             = with_toasts (toasts s ++ [(message e, "error")])%list
                 (with_requests
                    (requests s ++ [api_call (apiKey s) endpoint del])%list s))
      /\ (forall data,
             fst (apiRequest P endpoint del s) = Ret data ->
             toasts (snd (deleteRule P confirm ruleId s))
             = (toasts s ++ [("Rule deleted", "success")])%list)).
Proof.
  cbv zeta. split.
  - intros Hc. unfold deleteRule. rewrite Hc. reflexivity.
  - intros Hc. rewrite (deleteRule_run P confirm ruleId s Hc). cbv zeta.
    split; [ | split ].
    + destruct (fst (apiRequest _ _ _ _)) as [data | e].
      * match goal with
        | |- context [requests (snd (try_catch ?m ?h ?x))] =>
            assert (Hm : extends (try_catch m h)) by (repeat extends_step P);
            destruct (Hm x) as [r2 H2]; rewrite H2
        end.
        simpl. exists r2. rewrite <- app_assoc. reflexivity.
      * exists []. reflexivity.
    + intros e He. rewrite He. reflexivity.
    + intros data Hd. rewrite Hd.
      cbv [try_catch bind spawn showToast modify]. cbv beta iota.
      match goal with
      | |- context [loadRules P ?x] =>
          destruct (leaves_loadRules P
                      (fun id => negb (String.eqb id "rules-table")) eq_refl x)
            as (_ & _ & _ & T & _)
      end.
      cbn [snd toasts with_toasts]. rewrite T. reflexivity.
Qed.

Lemma deleteRule_outcome_witness :
  deleteRule (answering 200 VNull) (fun _ => false) (VNum 3)
             (page admin [] None)
  = (Ret tt, page admin [] None).
Proof.
  exact (proj1 (deleteRule_outcome (answering 200 VNull) (fun _ => false)
                  (VNum 3) (page admin [] None)) eq_refl).
Defined.

(** ** The session *)

Lemma run_apiRequest (P : platform) endpoint options (b : browser) :
  run (apiRequest P endpoint options) b
  = (fst (apiRequest P endpoint options (script_state b)),
     with_script_state
       (with_requests
          (requests (script_state b)
             ++ [api_call (apiKey (script_state b)) endpoint options])%list
          (script_state b)) b).
Proof. unfold run. rewrite apiRequest_run. reflexivity. Qed.

(** X26. Logging out forgets the key everywhere, and for good.  After
    handleLogout there is no current user, the key in memory is empty and
    the key in localStorage is removed; the login dialog is shown, the
    application is hidden and the key input is emptied; no request is
    sent; and a request sent afterwards carries no X-API-Key header.  A
    reload of the page after the logout sends nothing and stays logged out
    with the login dialog shown; and a login attempted right after the
    logout, with the input as the logout left it, sends nothing and stores
    no key. *)
Theorem handleLogout_forgets (P : platform) (admin_tabs : list string)
  (b : browser) :
  let b' := snd (handleLogout b) in
  let s' := script_state b' in
  let reloaded := snd (startup P admin_tabs b') in
  let retried := snd (handleLogin P admin_tabs b') in
  currentUser s' = VNull
  /\ apiKey s' = EmptyString
  /\ saved_key b' = None
  /\ el_hidden (dom s' "login-modal") = false
  /\ el_hidden (dom s' "main-app") = true
  /\ el_value (dom s' "api-key-input") = EmptyString
  /\ toasts s'
     = (toasts (script_state b) ++ [("Logged out successfully", "info")])%list
  /\ requests s' = requests (script_state b)
  /\ (forall endpoint options,
         headers (api_call (apiKey s') endpoint options)
         = [("Content-Type", "application/json")])
  /\ requests (script_state reloaded) = requests (script_state b)
  /\ currentUser (script_state reloaded) = VNull
  /\ apiKey (script_state reloaded) = EmptyString
  /\ saved_key reloaded = None
  /\ el_hidden (dom (script_state reloaded) "login-modal") = false
  /\ requests (script_state retried) = requests (script_state b)
  /\ apiKey (script_state retried) = EmptyString
  /\ saved_key retried = None.
Proof.
  cbv zeta.
  assert (Hreload : startup P admin_tabs (snd (handleLogout b))
                    = (Ret tt, snd (handleLogout b))) by reflexivity.
  assert (Hretry : handleLogin P admin_tabs (snd (handleLogout b))
                   = run (showToast "Please enter an API key" "error")
                         (snd (handleLogout b))) by reflexivity.
  rewrite Hreload, Hretry. repeat split.
Qed.

Lemma updateUI_logged_out (admin_tabs : list string) (b : browser) :
  currentUser (script_state b) = VNull -> updateUI admin_tabs b = (Ret tt, b).
Proof. intros H. unfold updateUI. cbv [bbind bgets]. now rewrite H. Qed.

(** X27. Three ways a login fails.  With a blank key handleLogin only
    shows the toast Please enter an API key and sends nothing.  When the
    /me request fails, with whatever error, the key in memory is set to
    empty, localStorage is left as it was, the current user and the page
    stay as they were, and the error message is shown in a toast; the
    failed request was sent with the typed key.  When /me answers OK with
    null, the login fails as well, but late: reading the user name throws
    after the key has been stored and the dialog hidden, so the key stays
    in localStorage and the login dialog stays hidden, while the key in
    memory is set to empty, there is no current user and the TypeError is
    shown in a toast. *)
Theorem handleLogin_failure (P : platform) (admin_tabs : list string)
  (b : browser) :
  let s := script_state b in
  let key := trim (el_value (dom s "api-key-input")) in
  (key = EmptyString ->
   handleLogin P admin_tabs b
   = (Ret tt,
      with_script_state
        (with_toasts (toasts s ++ [("Please enter an API key", "error")])%list s)
        b))
  /\ (key <> EmptyString ->
      forall e,
        fst (apiRequest P "/me" no_options (with_apiKey key s)) = Throw e ->
        handleLogin P admin_tabs b
        = (Ret tt,
           with_script_state
             (with_toasts (toasts s ++ [(message e, "error")])%list
                (with_apiKey EmptyString
                   (with_requests
                      (requests s ++ [api_call key "/me" no_options])%list s)))
             b))
  /\ (key <> EmptyString ->
      fst (apiRequest P "/me" no_options (with_apiKey key s)) = Ret VNull ->
      let b' := snd (handleLogin P admin_tabs b) in
      let s' := script_state b' in
      fst (handleLogin P admin_tabs b) = Ret tt
      /\ saved_key b' = Some key
      /\ apiKey s' = EmptyString
      /\ currentUser s' = VNull
      /\ el_hidden (dom s' "login-modal") = true
      /\ el_hidden (dom s' "main-app") = false
      /\ toasts s'
         = (toasts s ++ [(message (cannot_read VNull "username"), "error")])%list).
Proof.
  cbv zeta. split; [ | split ].
  - intros H. apply is_empty_true in H.
    unfold handleLogin. cbv [bbind bgets]. rewrite H. reflexivity.
  - intros H e He. apply is_empty_false in H.
    unfold handleLogin. cbv [bbind bgets]. rewrite H.
    cbv [btry_catch bbind]. cbv [run modify] . cbv beta iota.
    rewrite apiRequest_run. cbn [script_state with_script_state].
    rewrite He. reflexivity.
  - intros H Hnull. apply is_empty_false in H.
    unfold handleLogin. cbv [bbind bgets]. rewrite H.
    cbv [btry_catch bbind]. cbv [run modify]. cbv beta iota.
    rewrite apiRequest_run. cbn [script_state with_script_state].
    rewrite Hnull. cbv [bmodify set_hidden modify]. cbv beta iota.
    cbn [script_state with_script_state with_saved_key].
    match goal with
    | |- context [updateUI admin_tabs ?x] =>
        rewrite (updateUI_logged_out admin_tabs x eq_refl)
    end.
    cbv [spawn]. cbv beta iota.
    cbn [script_state with_script_state].
    match goal with
    | |- context [loadHistory P ?x] => set (s3 := x)
    end.
    set (keep := fun id => negb (String.eqb id "history-table"
                                  || String.eqb id "recent-commands")).
    destruct (leaves_loadHistory P keep eq_refl eq_refl s3)
      as (Fu & _ & _ & Ft & _ & _ & _ & Fd).
    cbv [lift]. cbn [getProp]. cbv [showToast modify]. cbv beta iota.
    cbn [fst snd script_state with_script_state saved_key apiKey currentUser
         dom toasts with_toasts with_apiKey].
    rewrite Fu, Ft, !Fd by reflexivity.
    repeat split.
Qed.

Lemma handleLogin_failure_witness :
  let tabs := ["tab-rules"; "tab-users"] in
  let b := fresh (page VNull [("api-key-input", "wrong-key")] None)
                 (Some "old-key") in
  let refused := snd (handleLogin
                        (answering 401 (VObj [("detail", VStr "Invalid API key")]))
                        tabs b) in
  let late := snd (handleLogin (answering 200 VNull) tabs b) in
  apiKey (script_state refused) = EmptyString
  /\ saved_key refused = Some "old-key"
  /\ toasts (script_state refused) = [("Invalid API key", "error")]
  /\ apiKey (script_state late) = EmptyString
  /\ saved_key late = Some "wrong-key"
  /\ el_hidden (dom (script_state late) "login-modal") = true.
Proof.
  cbv zeta.
  assert (H : trim (el_value
                      (dom (script_state
                              (fresh (page VNull [("api-key-input", "wrong-key")]
                                           None) (Some "old-key")))
                           "api-key-input")) <> EmptyString)
    by (vm_compute; discriminate).
  rewrite (proj1 (proj2 (handleLogin_failure
                    (answering 401 (VObj [("detail", VStr "Invalid API key")]))
                    ["tab-rules"; "tab-users"]
                    (fresh (page VNull [("api-key-input", "wrong-key")] None)
                           (Some "old-key"))))
                 H (Error "Invalid API key") eq_refl).
  split; [ reflexivity | ]. split; [ reflexivity | ]. split; [ reflexivity | ].
  destruct (proj2 (proj2 (handleLogin_failure
                    (answering 200 VNull) ["tab-rules"; "tab-users"]
                    (fresh (page VNull [("api-key-input", "wrong-key")] None)
                           (Some "old-key"))))
              H eq_refl)
    as (_ & Hk & Ha & _ & Hm & _).
  split; [ exact Ha | ]. split; [ exact Hk | exact Hm ].
Defined.

Lemma for_each_visible (u : list (string * jsval)) (tabs : list string)
  (b : browser) :
  currentUser (script_state b) = VObj u ->
  let v := strict_eq_str (lookup "role" u) "admin" in
  exists b',
    for_each tabs
      (fun tab =>
         bbind (bgets (fun b0 => currentUser (script_state b0))) (fun user =>
         bbind (run (lift (getProp user "role"))) (fun role =>
         bmodify (set_class tab "visible" (strict_eq_str role "admin"))))) b
    = (Ret tt, b')
    /\ script_state b' = script_state b
    /\ saved_key b' = saved_key b
    /\ class_name b' = class_name b
    /\ (forall tab, In tab tabs -> has_class b' tab "visible" = v)
    /\ (forall id c, ~ (In id tabs /\ c = "visible") ->
                     has_class b' id c = has_class b id c).
Proof.
  cbv zeta. revert b. induction tabs as [ | tab rest IH]; intros b Hu.
  - exists b. repeat split; auto. intros tab [].
  - cbn [for_each]. cbv [bbind bgets run lift bmodify]. rewrite Hu.
    cbn [getProp]. cbv beta iota.
    destruct (IH (set_class tab "visible"
                    (strict_eq_str (lookup "role" u) "admin")
                    (with_script_state (script_state b) b)) Hu)
      as (b' & Hrun & Hs & Hk & Hc & Hin & Hout).
    exists b'. split; [ exact Hrun | ].
    split; [ exact Hs | ]. split; [ exact Hk | ]. split; [ exact Hc | ].
    split.
    + intros t [<- | Ht].
      * destruct (in_dec string_dec tab rest) as [Hi | Hn]; [ auto | ].
        rewrite Hout by (intros [Hx _]; contradiction).
        cbn. now rewrite !String.eqb_refl.
      * auto.
    + intros id c Hno. rewrite Hout.
      * cbn. destruct (String.eqb id tab) eqn:E1; [ | reflexivity ].
        destruct (String.eqb c "visible") eqn:E2; [ | reflexivity ].
        apply String.eqb_eq in E1, E2. subst. exfalso. apply Hno.
        split; [ left; reflexivity | reflexivity ].
      * intros [Hi Hc']. apply Hno. split; [ right; exact Hi | exact Hc' ].
Qed.

Lemma updateUI_logged_in (admin_tabs : list string)
  (u : list (string * jsval)) (b : browser) :
  currentUser (script_state b) = VObj u ->
  exists b',
    updateUI admin_tabs b = (Ret tt, b')
    /\ script_state b'
       = with_dom (upd "role-badge"
                     (with_textContent (as_textContent (lookup "role" u))))
           (with_dom (upd "credit-display"
                        (with_textContent (as_textContent (lookup "credits" u))))
              (with_dom (upd "current-user"
                           (with_textContent
                              (as_textContent (lookup "username" u))))
                 (script_state b)))
    /\ saved_key b' = saved_key b
    /\ class_name b' "role-badge" = "role-badge " ++ toString (lookup "role" u)
    /\ (forall tab, In tab admin_tabs ->
                    has_class b' tab "visible"
                    = strict_eq_str (lookup "role" u) "admin")
    /\ (forall id c, ~ (In id admin_tabs /\ c = "visible") ->
                     has_class b' id c = has_class b id c).
Proof.
  intros Hu. unfold updateUI. cbv [bbind bgets]. rewrite Hu.
  cbn [truthy negb]. cbv [run lift set_textContent modify bmodify].
  cbn [getProp]. cbv beta iota.
  match goal with
  | |- context [for_each admin_tabs ?f ?x] =>
      destruct (for_each_visible u admin_tabs x Hu)
        as (b' & Hrun & Hs & Hk & Hc & Hin & Hout)
  end.
  exists b'. split; [ exact Hrun | ].
  split; [ rewrite Hs; reflexivity | ].
  split; [ rewrite Hk; reflexivity | ].
  split; [ rewrite Hc; reflexivity | ].
  split; [ exact Hin | ].
  intros id c Hno. rewrite (Hout id c Hno). reflexivity.
Qed.

(** X28. A successful login.  When the key input is not blank and the
    server answers /me with an object, handleLogin keeps the trimmed key in
    memory and stores it in localStorage, makes the answer the current user,
    hides the login dialog and shows the application, writes the user name,
    credits and role into the header, sets the class of the role badge,
    marks every admin-only tab visible exactly when the role is the string
    admin, and adds one Welcome toast with the user name. *)
Theorem handleLogin_success (P : platform) (admin_tabs : list string)
  (b : browser) (u : list (string * jsval)) :
  let s := script_state b in
  let key := trim (el_value (dom s "api-key-input")) in
  key <> EmptyString ->
  fst (apiRequest P "/me" no_options (with_apiKey key s)) = Ret (VObj u) ->
  let b' := snd (handleLogin P admin_tabs b) in
  let s' := script_state b' in
  fst (handleLogin P admin_tabs b) = Ret tt
  /\ apiKey s' = key
  /\ saved_key b' = Some key
  /\ currentUser s' = VObj u
  /\ el_hidden (dom s' "login-modal") = true
  /\ el_hidden (dom s' "main-app") = false
  /\ el_textContent (dom s' "current-user")
     = as_textContent (lookup "username" u)
  /\ el_textContent (dom s' "credit-display")
     = as_textContent (lookup "credits" u)
  /\ el_textContent (dom s' "role-badge") = as_textContent (lookup "role" u)
  /\ class_name b' "role-badge" = "role-badge " ++ toString (lookup "role" u)
  /\ (forall tab, In tab admin_tabs ->
                  has_class b' tab "visible"
                  = strict_eq_str (lookup "role" u) "admin")
  /\ toasts s'
     = app (toasts s)
           [("Welcome, " ++ toString (lookup "username" u) ++ "!", "success")].
Proof.
  cbv zeta. intros H Hok. apply is_empty_false in H.
  unfold handleLogin. cbv [bbind bgets]. rewrite H.
  cbv [btry_catch bbind]. cbv [run modify]. cbv beta iota.
  rewrite apiRequest_run. cbn [script_state with_script_state].
  rewrite Hok. cbv [bmodify set_hidden modify]. cbv beta iota.
  cbn [script_state with_script_state with_saved_key].
  match goal with
  | |- context [updateUI admin_tabs ?x] =>
      destruct (updateUI_logged_in admin_tabs u x eq_refl)
        as (b3 & Hrun & Hs & Hk & Hc & Hin & Hout)
  end.
  rewrite Hrun. cbv [spawn]. cbv beta iota.
  set (keep := fun id => negb (String.eqb id "history-table"
                                || String.eqb id "recent-commands")).
  destruct (leaves_loadHistory P keep eq_refl eq_refl (script_state b3))
    as (Fu & Fk & _ & Ft & _ & _ & _ & Fd).
  set (s4 := snd (loadHistory P (script_state b3))) in *.
  cbv [lift]. cbn [getProp]. cbv [showToast modify]. cbv beta iota.
  cbn [fst snd script_state with_script_state saved_key class_name has_class].
  clear Hrun.
  cbn [apiKey currentUser dom toasts with_toasts].
  rewrite Fu, Fk, Ft, !Fd by reflexivity. rewrite Hs, Hk.
  split; [ reflexivity | ]. split; [ reflexivity | ].
  split; [ reflexivity | ]. split; [ reflexivity | ].
  split; [ reflexivity | ]. split; [ reflexivity | ].
  split; [ reflexivity | ]. split; [ reflexivity | ].
  split; [ reflexivity | ]. split; [ exact Hc | ].
  split; [ exact Hin | reflexivity ].
Qed.

Lemma handleLogin_success_witness :
  let b := fresh (page VNull [("api-key-input", "  admin-key ")] None) None in
  let b' := snd (handleLogin (answering 200 admin) ["tab-rules"; "tab-users"]
                   b) in
  saved_key b' = Some "admin-key"
  /\ currentUser (script_state b') = admin
  /\ has_class b' "tab-users" "visible" = true
  /\ toasts (script_state b') = [("Welcome, admin!", "success")].
Proof.
  cbv zeta.
  assert (H : trim (el_value
                      (dom (script_state
                              (fresh (page VNull
                                        [("api-key-input", "  admin-key ")]
                                        None) None))
                           "api-key-input")) <> EmptyString)
    by (vm_compute; discriminate).
  destruct (handleLogin_success (answering 200 admin) ["tab-rules"; "tab-users"]
              (fresh (page VNull [("api-key-input", "  admin-key ")] None)
                     None)
              [("id", VNum 1); ("username", VStr "admin");
               ("role", VStr "admin"); ("credits", VNum 100)]
              H eq_refl)
    as (_ & _ & Hk & Hu & _ & _ & _ & _ & _ & _ & Hv & Ht).
  split; [ exact Hk | ]. split; [ exact Hu | ].
  split; [ exact (Hv "tab-users" (or_intror (or_introl eq_refl))) | exact Ht ].
Defined.

Lemma hidden_set_innerHTML (id id' v : string) :
  unchanged (fun s => el_hidden (dom s id)) (set_innerHTML id' v).
Proof.
  intros s. cbn. unfold upd. destruct (String.eqb id id'); reflexivity.
Qed.

Lemma hidden_apiRequest (P : platform) (id endpoint : string) options :
  unchanged (fun s => el_hidden (dom s id)) (apiRequest P endpoint options).
Proof.
  intros s.
  destruct (leaves_apiRequest P (fun _ => true) endpoint options s)
    as (_ & _ & _ & _ & _ & _ & _ & E).
  now rewrite E.
Qed.

Ltac hidden_step :=
  first [ apply hidden_set_innerHTML
        | apply hidden_apiRequest
        | progress unfold loadRecentCommands
        | unchanged_step ].

Lemma hidden_loaders (P : platform) (id : string) :
  let proj := fun s => el_hidden (dom s id) in
  unchanged proj (loadHistory P)
  /\ unchanged proj (loadRules P)
  /\ unchanged proj (loadUsers P)
  /\ unchanged proj (loadAuditLogs P).
Proof.
  cbv zeta.
  split; [ unfold loadHistory; repeat hidden_step | ].
  split; [ unfold loadRules; repeat hidden_step | ].
  split; [ unfold loadUsers; repeat hidden_step | ].
  unfold loadAuditLogs; repeat hidden_step.
Qed.

Lemma for_each_hide (panels : list string) (b : browser) :
  exists s',
    for_each panels (fun panel => run (set_hidden panel true)) b
    = (Ret tt, with_script_state s' b)
    /\ currentUser s' = currentUser (script_state b)
    /\ apiKey s' = apiKey (script_state b)
    /\ toasts s' = toasts (script_state b)
    /\ requests s' = requests (script_state b)
    /\ (forall p, In p panels -> el_hidden (dom s' p) = true)
    /\ (forall id, ~ In id panels -> dom s' id = dom (script_state b) id).
Proof.
  revert b. induction panels as [ | p rest IH]; intros b.
  - exists (script_state b). destruct b.
    split; [ reflexivity | ]. split; [ reflexivity | ].
    split; [ reflexivity | ]. split; [ reflexivity | ].
    split; [ reflexivity | ]. split; [ intros p [] | reflexivity ].
  - cbn [for_each]. unfold bbind.
    change (run (set_hidden p true) b)
      with (Ret tt,
            with_script_state
              (with_dom (upd p (with_hidden true)) (script_state b)) b).
    cbv beta iota.
    destruct (IH (with_script_state
                    (with_dom (upd p (with_hidden true)) (script_state b)) b))
      as (s' & Hrun & Hu & Hk & Ht & Hr & Hin & Hout).
    exists s'. split; [ rewrite Hrun; reflexivity | ].
    split; [ exact Hu | ]. split; [ exact Hk | ]. split; [ exact Ht | ].
    split; [ exact Hr | ].
    split.
    + intros t [<- | Hi]; [ | auto ].
      destruct (in_dec string_dec p rest) as [Hi | Hn]; [ auto | ].
      rewrite (Hout p Hn). cbn. unfold upd. now rewrite String.eqb_refl.
    + intros id Hno. rewrite Hout by (intros Hi; apply Hno; right; exact Hi).
      cbn. apply upd_other. apply String.eqb_neq. intros ->. apply Hno.
      left; reflexivity.
Qed.

Lemma for_each_deactivate (tabs : list string) (b : browser) :
  exists b',
    for_each tabs (fun tab => bmodify (set_class tab "active" false)) b
    = (Ret tt, b')
    /\ script_state b' = script_state b
    /\ saved_key b' = saved_key b
    /\ class_name b' = class_name b
    /\ (forall tab, In tab tabs -> has_class b' tab "active" = false)
    /\ (forall id c, ~ (In id tabs /\ c = "active") ->
                     has_class b' id c = has_class b id c).
Proof.
  revert b. induction tabs as [ | tab rest IH]; intros b.
  - exists b. repeat split; auto. intros tab [].
  - cbn [for_each]. cbv [bbind bmodify].
    destruct (IH (set_class tab "active" false b))
      as (b' & Hrun & Hs & Hk & Hc & Hin & Hout).
    exists b'. split; [ exact Hrun | ].
    split; [ exact Hs | ]. split; [ exact Hk | ]. split; [ exact Hc | ].
    split.
    + intros t [<- | Ht]; [ | auto ].
      destruct (in_dec string_dec tab rest) as [Hi | Hn]; [ auto | ].
      rewrite Hout by (intros [Hx _]; contradiction).
      cbn. now rewrite !String.eqb_refl.
    + intros id c Hno. rewrite Hout.
      * cbn. destruct (String.eqb id tab) eqn:E1; [ | reflexivity ].
        destruct (String.eqb c "active") eqn:E2; [ | reflexivity ].
        apply String.eqb_eq in E1, E2. subst. exfalso. apply Hno.
        split; [ left; reflexivity | reflexivity ].
      * intros [Hi Hc']. apply Hno. split; [ right; exact Hi | exact Hc' ].
Qed.

(** X29. Switching tabs.  On a page that has the panel and the tab of
    the name, switchTab returns normally; afterwards the panel of the name
    is shown and every other tab panel is hidden, the tab of the name is
    active and no other navigation tab is; the names history, rules, users
    and audit start the load of their table (for history the request of
    the user's endpoint, perhaps followed by the recent-commands request;
    for the others one request) and any other name sends nothing; the key
    in localStorage is not touched. *)
Theorem switchTab_selects (P : platform) (tab_panels nav_tabs : list string)
  (tabName : string) (b : browser) :
  let s := script_state b in
  let b' := snd (switchTab P tab_panels nav_tabs tabName b) in
  let s' := script_state b' in
  fst (switchTab P tab_panels nav_tabs tabName b) = Ret tt
  /\ el_hidden (dom s' ("panel-" ++ tabName)) = false
  /\ (forall p, In p tab_panels -> p <> "panel-" ++ tabName ->
                el_hidden (dom s' p) = true)
  /\ has_class b' ("tab-" ++ tabName) "active" = true
  /\ (forall t, In t nav_tabs -> t <> "tab-" ++ tabName ->
                has_class b' t "active" = false)
  /\ (tabName = "history" ->
      let first :=
        api_call (apiKey s) (history_endpoint (currentUser s) ++ "?limit=100")
                 no_options in
      let recent := api_call (apiKey s) "/history?limit=5" no_options in
      requests s' = app (requests s) [first]
      \/ requests s' = app (requests s) [first; recent])
  /\ (tabName <> "history" ->
      requests s'
      = app (requests s)
          (if String.eqb tabName "rules"
           then [api_call (apiKey s) "/rules" no_options]
           else if String.eqb tabName "users"
           then [api_call (apiKey s) "/users" no_options]
           else if String.eqb tabName "audit"
           then [api_call (apiKey s) "/audit-logs?limit=100" no_options]
           else []))
  /\ saved_key b' = saved_key b.
Proof.
  cbv zeta.
  destruct (for_each_hide tab_panels b)
    as (s1 & Hrun1 & Hu1 & Hk1 & Ht1 & Hr1 & Hin1 & Hout1).
  destruct (for_each_deactivate nav_tabs (with_script_state s1 b))
    as (b2 & Hrun2 & Hs2 & Hsk2 & Hc2 & Hin2 & Hout2).
  set (s2 := with_dom (upd ("panel-" ++ tabName) (with_hidden false)) s1).
  set (loader :=
         if String.eqb tabName "history" then spawn (loadHistory P)
         else if String.eqb tabName "rules" then spawn (loadRules P)
         else if String.eqb tabName "users" then spawn (loadUsers P)
         else if String.eqb tabName "audit" then spawn (loadAuditLogs P)
         else ret tt).
  assert (E : switchTab P tab_panels nav_tabs tabName b
              = (Ret tt,
                 with_script_state (snd (loader s2))
                   (set_class ("tab-" ++ tabName) "active" true b2))).
  { unfold switchTab. unfold bbind at 1. rewrite Hrun1.
    unfold bbind at 1. rewrite Hrun2.
    cbv [bbind run set_hidden modify bmodify]. cbv beta iota.
    rewrite Hs2. cbn [script_state with_script_state]. fold s2.
    subst loader.
    destruct (String.eqb tabName "history"); [ reflexivity | ].
    destruct (String.eqb tabName "rules"); [ reflexivity | ].
    destruct (String.eqb tabName "users"); [ reflexivity | ].
    destruct (String.eqb tabName "audit"); reflexivity. }
  rewrite E. cbn [fst snd script_state with_script_state saved_key has_class
                  set_class].
  assert (Hh : forall id, el_hidden (dom (snd (loader s2)) id)
                          = el_hidden (dom s2 id)).
  { intros id. destruct (hidden_loaders P id) as (H1 & H2 & H3 & H4).
    subst loader.
    destruct (String.eqb tabName "history"); [ apply (H1 s2) | ].
    destruct (String.eqb tabName "rules"); [ apply (H2 s2) | ].
    destruct (String.eqb tabName "users"); [ apply (H3 s2) | ].
    destruct (String.eqb tabName "audit"); [ apply (H4 s2) | reflexivity ]. }
  split; [ reflexivity | ].
  split.
  { rewrite Hh. subst s2. cbn. unfold upd. now rewrite String.eqb_refl. }
  split.
  { intros p Hp Hne. rewrite Hh. subst s2. cbn.
    rewrite upd_other by (apply String.eqb_neq; exact Hne). auto. }
  split.
  { now rewrite !String.eqb_refl. }
  split.
  { intros t0 Ht0 Hne. apply String.eqb_neq in Hne. rewrite Hne. cbn [andb].
    auto. }
  split.
  { intros ->. subst loader. cbn [String.eqb Ascii.eqb Bool.eqb andb].
    cbv zeta. cbv [spawn]. cbn [snd].
    rewrite <- Hr1, <- Hk1, <- Hu1.
    change (requests s1) with (requests s2).
    change (apiKey s1) with (apiKey s2).
    change (currentUser s1) with (currentUser s2).
    apply loadHistory_requests. }
  split.
  { intros Hne. apply String.eqb_neq in Hne. subst loader. rewrite Hne.
    rewrite <- Hr1, <- Hk1.
    change (requests s1) with (requests s2).
    change (apiKey s1) with (apiKey s2).
    destruct (String.eqb tabName "rules");
      [ apply loadRules_requests | ].
    destruct (String.eqb tabName "users");
      [ apply loadUsers_requests | ].
    destruct (String.eqb tabName "audit");
      [ apply loadAuditLogs_requests | ].
    cbn. now rewrite app_nil_r. }
  exact Hsk2.
Qed.

Lemma switchTab_selects_witness :
  let b := fresh (page admin [] None) None in
  let b' := snd (switchTab (answering 200 (VObj [("rules", VArr [])]))
                   ["panel-commands"; "panel-history"; "panel-rules"]
                   ["tab-commands"; "tab-history"; "tab-rules"] "rules" b) in
  el_hidden (dom (script_state b') "panel-history") = true
  /\ has_class b' "tab-history" "active" = false
  /\ requests (script_state b')
     = [api_call "admin-key-12345" "/rules" no_options].
Proof.
  cbv zeta.
  destruct (switchTab_selects (answering 200 (VObj [("rules", VArr [])]))
              ["panel-commands"; "panel-history"; "panel-rules"]
              ["tab-commands"; "tab-history"; "tab-rules"] "rules"
              (fresh (page admin [] None) None))
    as (_ & _ & Hp & _ & Ht & _ & Hr & _).
  split; [ apply Hp; [ right; left; reflexivity | discriminate ] | ].
  split; [ apply Ht; [ right; left; reflexivity | discriminate ] | ].
  apply Hr. discriminate.
Defined.

(** X30. Start-up.  With no key in localStorage (or an empty one) the
    script sends nothing and leaves the page as it is, with no user and an
    empty key.  With a stored key it asks /me with that key; when the
    request fails the key is dropped from memory and removed from
    localStorage, and nothing else changes; when the answer is an object
    the stored key stays, the answer is the current user, the login dialog
    is hidden and the application shown, the header is filled in, the
    admin-only tabs are visible exactly for the role admin, and no toast is
    added. *)
Theorem startup_outcome (P : platform) (admin_tabs : list string)
  (b : browser) :
  let key := match saved_key b with Some k => k | None => EmptyString end in
  let s0 := with_apiKey key (with_currentUser VNull (script_state b)) in
  let sent := app (requests s0) [api_call key "/me" no_options] in
  (key = EmptyString ->
   startup P admin_tabs b = (Ret tt, with_script_state s0 b))
  /\ (key <> EmptyString ->
      forall e,
        fst (apiRequest P "/me" no_options s0) = Throw e ->
        startup P admin_tabs b
        = (Ret tt,
           with_saved_key None
             (with_script_state
                (with_apiKey EmptyString (with_requests sent s0)) b)))
  /\ (key <> EmptyString ->
      forall u,
        fst (apiRequest P "/me" no_options s0) = Ret (VObj u) ->
        let b' := snd (startup P admin_tabs b) in
        let s' := script_state b' in
        fst (startup P admin_tabs b) = Ret tt
        /\ apiKey s' = key
        /\ saved_key b' = saved_key b
        /\ currentUser s' = VObj u
        /\ el_hidden (dom s' "login-modal") = true
        /\ el_hidden (dom s' "main-app") = false
        /\ el_textContent (dom s' "current-user")
           = as_textContent (lookup "username" u)
        /\ el_textContent (dom s' "credit-display")
           = as_textContent (lookup "credits" u)
        /\ (forall tab, In tab admin_tabs ->
                        has_class b' tab "visible"
                        = strict_eq_str (lookup "role" u) "admin")
        /\ toasts s' = toasts (script_state b)).
Proof.
  cbv zeta. split; [ | split ].
  - intros H. apply is_empty_true in H.
    unfold startup. cbv [bbind bgets run modify]. cbv beta iota.
    cbn [script_state with_script_state apiKey with_apiKey saved_key].
    rewrite H. reflexivity.
  - intros H e He. apply is_empty_false in H.
    unfold startup. cbv [bbind bgets run modify]. cbv beta iota.
    cbn [script_state with_script_state apiKey with_apiKey saved_key].
    rewrite H. cbv [btry_catch bbind]. cbv [run]. cbv beta iota.
    rewrite apiRequest_run. cbn [script_state with_script_state].
    rewrite He. reflexivity.
  - intros H u Hok. apply is_empty_false in H.
    unfold startup. cbv [bbind bgets run modify]. cbv beta iota.
    cbn [script_state with_script_state apiKey with_apiKey saved_key].
    rewrite H. cbv [btry_catch bbind]. cbv [run]. cbv beta iota.
    rewrite apiRequest_run. cbn [script_state with_script_state].
    rewrite Hok. cbv [bmodify set_hidden modify]. cbv beta iota.
    cbn [script_state with_script_state with_saved_key].
    match goal with
    | |- context [updateUI admin_tabs ?x] =>
        destruct (updateUI_logged_in admin_tabs u x eq_refl)
          as (b3 & Hrun & Hs & Hk & Hc & Hin & Hout)
    end.
    rewrite Hrun. cbv [spawn]. cbv beta iota.
    set (keep := fun id => negb (String.eqb id "history-table"
                                  || String.eqb id "recent-commands")).
    destruct (leaves_loadHistory P keep eq_refl eq_refl (script_state b3))
      as (Fu & Fk & _ & Ft & _ & _ & _ & Fd).
    set (s4 := snd (loadHistory P (script_state b3))) in *.
    destruct (leaves_loadRecentCommands P keep eq_refl s4)
      as (Gu & Gk & _ & Gt & _ & _ & _ & Gd).
    cbn [fst snd script_state with_script_state saved_key class_name has_class].
    clear Hrun.
    rewrite Gu, Gk, Gt, !Gd by reflexivity.
    rewrite Fu, Fk, Ft, !Fd by reflexivity. rewrite Hs, Hk.
    split; [ reflexivity | ]. split; [ reflexivity | ].
    split; [ reflexivity | ]. split; [ reflexivity | ].
    split; [ reflexivity | ]. split; [ reflexivity | ].
    split; [ reflexivity | ]. split; [ reflexivity | ].
    split; [ exact Hin | reflexivity ].
Qed.

Lemma startup_outcome_witness :
  let tabs := ["tab-rules"; "tab-users"] in
  let nothing := fresh (page VNull [] None) None in
  let stale := fresh (page VNull [] None) (Some "stale-key") in
  let refused := answering 401 (VObj [("detail", VStr "Invalid API key")]) in
  requests (script_state (snd (startup refused tabs nothing))) = []
  /\ saved_key (snd (startup refused tabs stale)) = None
  /\ apiKey (script_state (snd (startup refused tabs stale))) = EmptyString
  /\ currentUser (script_state (snd (startup (answering 200 member) tabs stale)))
     = member
  /\ has_class (snd (startup (answering 200 member) tabs stale))
       "tab-users" "visible" = false.
Proof.
  cbv zeta.
  assert (H : match saved_key (fresh (page VNull [] None) (Some "stale-key"))
              with Some k => k | None => EmptyString end <> EmptyString)
    by (vm_compute; discriminate).
  split.
  { rewrite (proj1 (startup_outcome
                      (answering 401 (VObj [("detail", VStr "Invalid API key")]))
                      ["tab-rules"; "tab-users"]
                      (fresh (page VNull [] None) None)) eq_refl).
    reflexivity. }
  rewrite (proj1 (proj2 (startup_outcome
                    (answering 401 (VObj [("detail", VStr "Invalid API key")]))
                    ["tab-rules"; "tab-users"]
                    (fresh (page VNull [] None) (Some "stale-key"))))
             H (Error "Invalid API key") eq_refl).
  split; [ reflexivity | ]. split; [ reflexivity | ].
  destruct (proj2 (proj2 (startup_outcome (answering 200 member)
                            ["tab-rules"; "tab-users"]
                            (fresh (page VNull [] None) (Some "stale-key"))))
              H [("id", VNum 2); ("username", VStr "alice");
                 ("role", VStr "member"); ("credits", VNum 100)] eq_refl)
    as (_ & _ & _ & Hu & _ & _ & _ & _ & Hv & _).
  split; [ exact Hu | ].
  exact (Hv "tab-users" (or_intror (or_introl eq_refl))).
Defined.
